(** * Live location tracking of the student dashboard

    A shallow embedding of the location client ([src/api/utils.ts],
    [src/api/endpoints/location.ts], the API configuration) and of the
    [Analytics] view component that drives the map, the geolocation watch
    and the Socket.IO channel, followed by the properties the
    specification states about them.  The rest of the location panel (its
    refresh and one-shot position buttons), the logout endpoint and the
    session handling of [App.tsx] come after the scenarios, with the
    properties the code itself shows for them at the end.

    JavaScript numbers are IEEE 754 binary64 values and are modelled by the
    kernel's primitive floats; optional fields ([accuracy?: number]) are
    options; the marker registry ([Map<string, marker>]) is a [gmap]. *)

From Stdlib Require Import ZArith List Bool Floats Lia.
From Stdlib Require Uint63.
From stdpp Require Import base option strings gmap.
Import ListNotations.

Local Open Scope string_scope.
#[local] Set Warnings "-inexact-float".

(** ** JavaScript values *)

Module JS.

Definition number : Set := float.
Bind Scope float_scope with number.

(** [ToBoolean] on a number: false for [+0], [-0] and [NaN]. *)
Definition truthy (n : number) : bool := negb (is_zero n || is_nan n).

Definition lt (a b : number) : bool := (a <? b)%float.
Definition gt (a b : number) : bool := (b <? a)%float.

(** An optional number: [undefined] is falsy and compares false. *)
Definition truthy_opt (o : option number) : bool :=
  match o with Some n => truthy n | None => false end.

Definition lt_opt (o : option number) (b : number) : bool :=
  match o with Some a => lt a b | None => false end.

Definition gt_opt (o : option number) (b : number) : bool :=
  match o with Some a => gt a b | None => false end.

(** [ToBoolean] on a string: false for the empty string. *)
Definition truthy_str (s : string) : bool :=
  match s with EmptyString => false | String _ _ => true end.

Definition truthy_ostr (o : option string) : bool :=
  match o with Some s => truthy_str s | None => false end.

(** [a || b] where [a] may be undefined and [b] is a string. *)
Definition or_str (a : option string) (b : string) : string :=
  match a with
  | Some s => if truthy_str s then s else b
  | None => b
  end.

(** [a || b] where both may be undefined. *)
Definition or_ostr (a b : option string) : option string :=
  if truthy_ostr a then a else b.

(** [a === b] on values that are a string or undefined. *)
Definition strict_eq (a b : option string) : bool :=
  match a, b with
  | Some x, Some y => String.eqb x y
  | None, None => true
  | _, _ => false
  end.

(** [hay.includes(needle)]. *)
Fixpoint includes (hay needle : string) : bool :=
  String.prefix needle hay
  || match hay with
     | EmptyString => false
     | String _ rest => includes rest needle
     end.

(** A thrown value: an [Error] with its [name] and [message], or
    anything else. *)
Inductive thrown : Type :=
| ErrorObj (name message : string)
| NotAnError.

(** The way a call (or an awaited promise) completes. *)
Inductive completion (A : Type) : Type :=
| Normal (a : A)
| Throw (e : thrown).
Arguments Normal {A} a.
Arguments Throw {A} e.

End JS.

Import JS.

(** ** API configuration ([config.ts], the revision that declares the
    location endpoints) *)

Module Config.

Definition API_BASE_URL : string := "https://7cvccltb-3023.inc1.devtunnels.ms".

Module LOCATION.
Definition UPDATE : string := "/api/location/update".
Definition CURRENT : string := "/api/location/current".
Definition HISTORY : string := "/api/location/history".
Definition NEARBY : string := "/api/location/nearby".
Definition STOP : string := "/api/location/stop".
End LOCATION.

(** Request timeout in milliseconds. *)
Definition REQUEST_TIMEOUT : Z := 30000.

Definition DEMO_TOKEN : string := "demo-token".

End Config.

(** ** Shared data types ([types.ts]) *)

Record DeviceInfo : Type := {
  di_platform : option string;
  di_userAgent : option string;
  di_appVersion : option string
}.

Record UpdateLocationRequest : Type := {
  req_latitude : number;
  req_longitude : number;
  req_accuracy : option number;
  req_altitude : option number;
  req_heading : option number;
  req_speed : option number;
  req_address : option string;
  req_sessionId : option string;
  req_deviceInfo : option DeviceInfo
}.

Record LocationData : Type := {
  _id : string;
  userId : string;
  userType : string;
  latitude : number;
  longitude : number;
  accuracy : option number;
  address : option string;
  isActive : bool;
  lastUpdated : string
}.

Record Coordinates : Type := {
  c_latitude : number;
  c_longitude : number;
  c_address : option string
}.

Record NearbyLocation : Type := {
  nl_userId : string;
  nl_userType : string;
  nl_location : Coordinates;
  nl_distance : number
}.

Record NearbyLocationsResponse : Type := {
  nr_count : number;
  nr_locations : list NearbyLocation
}.

Record UpdateLocationResponse : Type := {
  ur_id : string;
  ur_userId : string;
  ur_userType : string;
  ur_latitude : number;
  ur_longitude : number;
  ur_accuracy : option number;
  ur_lastUpdated : string;
  ur_isActive : bool
}.

Record ApiResponse (T : Type) : Type := {
  success : bool;
  message : string;
  data : option T;
  errors : option (list string)
}.
Arguments success {T} _.
Arguments message {T} _.
Arguments data {T} _.
Arguments errors {T} _.

(** ** The REST client ([utils.ts] and [endpoints/location.ts]) *)

Module Api.

Inductive HttpMethod : Set := GET | POST.

(** A value handed to [URLSearchParams.append] after [toString()]. *)
Inductive QueryValue : Type :=
| QNum (n : number)
| QStr (s : string)
| QBool (b : bool).

(** What [fetchWithTimeout] hands to [fetch], with the delay after which
    its abort timer fires.  [body] is the object given to
    [JSON.stringify]. *)
Record Request : Type := {
  url : string;
  query : list (string * QueryValue);
  method : HttpMethod;
  headers : list (string * string);
  body : option UpdateLocationRequest;
  abortAfter : Z
}.

Record RequestOptions : Type := {
  o_method : HttpMethod;
  o_headers : list (string * string);
  o_body : option UpdateLocationRequest;
  o_timeout : option Z
}.

(** The body of a response as [response.json()] and [handleResponse]
    see it: [response.json()] rejects, or gives [null], an object, or any
    other JSON value (a number, a string, a boolean, an array).  [payload]
    is the value of [data.data || data]; for a value that is not an object
    this is the value itself, which is falsy ([None]) for [0], the empty
    string and [false].  Such a value has no [message] and no [errors]. *)
Inductive Body (T : Type) : Type :=
| Unparsable
| JsonNull
| JsonObject (msg : option string) (payload : T) (errs : option (list string))
| JsonValue (payload : option T).
Arguments Unparsable {T}.
Arguments JsonNull {T}.
Arguments JsonObject {T} msg payload errs.
Arguments JsonValue {T} payload.

Record Response (T : Type) : Type := {
  ok : bool;
  json : Body T
}.
Arguments ok {T} _.
Arguments json {T} _.

(** What the network does with a request: it answers or fails after some
    milliseconds, or never settles. *)
Inductive FetchBehaviour (T : Type) : Type :=
| Responds (after : Z) (r : Response T)
| Rejects (after : Z) (e : thrown)
| Pending.
Arguments Responds {T} after r.
Arguments Rejects {T} after e.
Arguments Pending {T}.

(** The browser around a call: what [localStorage.getItem('authToken')]
    returns ([None] for [null]) and how the network behaves. *)
Record Env (T : Type) : Type := {
  authToken : option string;
  fetch : Request -> FetchBehaviour T
}.
Arguments authToken {T} _.
Arguments fetch {T} _ _.

(** A call completes normally or throws, and leaves the list of the
    requests it put on the network and the lines it wrote with
    [console.error]. *)
Definition Call (A : Type) : Type :=
  (completion A * list Request * list string)%type.

Definition ret {A} (a : A) : Call A := (Normal a, [], []).

Definition bind {A B} (m : Call A) (f : A -> Call B) : Call B :=
  match m with
  | (Normal a, sent, lines) =>
      let '(r, sent', lines') := f a in
      (r, (sent ++ sent')%list, (lines ++ lines')%list)
  | (Throw e, sent, lines) => (Throw e, sent, lines)
  end.

Definition try_catch {A} (m : Call A) (handler : thrown -> Call A) : Call A :=
  match m with
  | (Normal a, sent, lines) => (Normal a, sent, lines)
  | (Throw e, sent, lines) =>
      let '(r, sent', lines') := handler e in
      (r, (sent ++ sent')%list, (lines ++ lines')%list)
  end.

Definition throw {A} (e : thrown) : Call A := (Throw e, [], []).

(** [console.error(line, ...)]. *)
Definition consoleError (line : string) : Call unit := (Normal tt, [], [line]).

Definition outcome {A} (m : Call A) : completion A := fst (fst m).
Definition sent {A} (m : Call A) : list Request := snd (fst m).
Definition logged {A} (m : Call A) : list string := snd m.

Section WithEnv.

Context {T : Type}.
Variable env : Env T.

Definition getAuthToken : option string := authToken env.

Definition isDemoMode : bool :=
  let token := getAuthToken in
  negb (truthy_ostr token) || strict_eq token (Some Config.DEMO_TOKEN).

Definition buildHeaders (requireAuth : bool) (contentType : string)
  : list (string * string) :=
  let headers := [] in
  let headers :=
    if negb (String.eqb contentType "multipart/form-data")
    then (headers ++ [("Content-Type", contentType)])%list
    else headers in
  if requireAuth then
    match getAuthToken with
    | Some token =>
        if truthy_str token && negb (String.eqb token Config.DEMO_TOKEN)
        then (headers ++ [("Authorization", ("Bearer " ++ token)%string)])%list
        else headers
    | None => headers
    end
  else headers.

Definition handleResponse (response : Response T) : Call (ApiResponse T) :=
  match json response with
  | JsonObject msg payload errs =>
      if negb (ok response) then
        ret {| success := false;
               message := or_str msg "An error occurred";
               data := None;
               errors := Some (default [] errs) |}
      else
        ret {| success := true;
               message := or_str msg "Success";
               data := Some payload;
               errors := None |}
  | JsonValue payload =>
      if negb (ok response) then
        ret {| success := false;
               message := "An error occurred";
               data := None;
               errors := Some [] |}
      else
        ret {| success := true;
               message := "Success";
               data := payload;
               errors := None |}
  | Unparsable | JsonNull =>
      (* [response.json()] rejects, or reading [data.message] throws *)
      bind (consoleError "Error parsing response:") (fun _ =>
      ret {| success := false;
             message := "Failed to parse server response";
             data := None;
             errors := Some [] |})
  end.

(** The rejection of an aborted [fetch]. *)
Definition abortError : thrown :=
  ErrorObj "AbortError" "The operation was aborted.".

(** [fetch] raced against the abort timer: what settles strictly before
    [timeout] milliseconds wins, otherwise the timer aborts the request. *)
Definition settle (timeout : Z) (b : FetchBehaviour T) : completion (Response T) :=
  match b with
  | Responds after r => if (after <? timeout)%Z then Normal r else Throw abortError
  | Rejects after e => if (after <? timeout)%Z then Throw e else Throw abortError
  | Pending => Throw abortError
  end.

Definition fetchWithTimeout (url : string) (query : list (string * QueryValue))
    (options : RequestOptions) : Call (Response T) :=
  let timeout := default Config.REQUEST_TIMEOUT (o_timeout options) in
  let request :=
    {| url := url; query := query; method := o_method options;
       headers := o_headers options; body := o_body options;
       abortAfter := timeout |} in
  try_catch (settle timeout (fetch env request), [request], [])
    (fun error =>
       match error with
       | ErrorObj name _ =>
           if String.eqb name "AbortError"
           then throw (ErrorObj "Error" "Request timeout. Please try again.")
           else throw error
       | NotAnError => throw error
       end).

Definition handleNetworkError (error : thrown) : Call (ApiResponse T) :=
  let failure (text : string) :=
    {| success := false; message := text; data := None; errors := Some [] |} in
  bind (consoleError "Network error:") (fun _ =>
  ret match error with
      | ErrorObj _ msg =>
          if includes msg "timeout" then
            failure "Request timeout. Please check your connection and try again."
          else if includes msg "Failed to fetch" then
            failure "Network error. Please check your internet connection."
          else failure "An unexpected error occurred. Please try again."
      | NotAnError => failure "An unexpected error occurred. Please try again."
      end).

Definition demoResponse (ok : bool) (text : string) (errs : option (list string))
  : ApiResponse T :=
  {| success := ok; message := text; data := None; errors := errs |}.

Definition updateLocation (locationData : UpdateLocationRequest)
  : Call (ApiResponse T) :=
  try_catch
    (if isDemoMode then
       ret (demoResponse false "Location tracking not available in demo mode" (Some []))
     else
       let url := Config.API_BASE_URL ++ Config.LOCATION.UPDATE in
       bind (fetchWithTimeout url []
               {| o_method := POST;
                  o_headers := buildHeaders true "application/json";
                  o_body := Some locationData;
                  o_timeout := None |})
            (fun response => handleResponse response))
    (fun error => handleNetworkError error).

Definition getCurrentLocation : Call (ApiResponse T) :=
  try_catch
    (if isDemoMode then
       ret (demoResponse false "Location not available in demo mode" (Some []))
     else
       let url := Config.API_BASE_URL ++ Config.LOCATION.CURRENT in
       bind (fetchWithTimeout url []
               {| o_method := GET;
                  o_headers := buildHeaders true "application/json";
                  o_body := None;
                  o_timeout := None |})
            (fun response => handleResponse response))
    (fun error => handleNetworkError error).

Definition getLocationHistory (page limit : number)
    (startDate endDate : option string) : Call (ApiResponse T) :=
  try_catch
    (if isDemoMode then
       ret (demoResponse false "Location history not available in demo mode" (Some []))
     else
       let params := [("page", QNum page); ("limit", QNum limit)] in
       let params :=
         match startDate with
         | Some d => if truthy_str d then (params ++ [("startDate", QStr d)])%list else params
         | None => params
         end in
       let params :=
         match endDate with
         | Some d => if truthy_str d then (params ++ [("endDate", QStr d)])%list else params
         | None => params
         end in
       let url := Config.API_BASE_URL ++ Config.LOCATION.HISTORY in
       bind (fetchWithTimeout url params
               {| o_method := GET;
                  o_headers := buildHeaders true "application/json";
                  o_body := None;
                  o_timeout := None |})
            (fun response => handleResponse response))
    (fun error => handleNetworkError error).

Definition getNearbyLocations (latitude longitude radius : number)
    (userType : option string) (excludeSelf : bool) : Call (ApiResponse T) :=
  try_catch
    (if isDemoMode then
       ret (demoResponse false "Nearby locations not available in demo mode" (Some []))
     else
       let params :=
         [("latitude", QNum latitude); ("longitude", QNum longitude);
          ("radius", QNum radius)] in
       let params :=
         match userType with
         | Some t => if truthy_str t then (params ++ [("userType", QStr t)])%list else params
         | None => params
         end in
       let params := (params ++ [("excludeSelf", QBool excludeSelf)])%list in
       let url := Config.API_BASE_URL ++ Config.LOCATION.NEARBY in
       bind (fetchWithTimeout url params
               {| o_method := GET;
                  o_headers := buildHeaders true "application/json";
                  o_body := None;
                  o_timeout := None |})
            (fun response => handleResponse response))
    (fun error => handleNetworkError error).

Definition stopLocationTracking : Call (ApiResponse T) :=
  try_catch
    (if isDemoMode then
       ret (demoResponse true "Location tracking stopped (demo mode)" None)
     else
       let url := Config.API_BASE_URL ++ Config.LOCATION.STOP in
       bind (fetchWithTimeout url []
               {| o_method := POST;
                  o_headers := buildHeaders true "application/json";
                  o_body := None;
                  o_timeout := None |})
            (fun response => handleResponse response))
    (fun error => handleNetworkError error).

(** The five operations of [locationApi], with their arguments. *)
Inductive Operation : Type :=
| UpdateLocation (locationData : UpdateLocationRequest)
| GetCurrentLocation
| GetLocationHistory (page limit : number) (startDate endDate : option string)
| GetNearbyLocations (latitude longitude radius : number)
    (userType : option string) (excludeSelf : bool)
| StopLocationTracking.

Definition locationApi (op : Operation) : Call (ApiResponse T) :=
  match op with
  | UpdateLocation d => updateLocation d
  | GetCurrentLocation => getCurrentLocation
  | GetLocationHistory p l s e => getLocationHistory p l s e
  | GetNearbyLocations la lo r t x => getNearbyLocations la lo r t x
  | StopLocationTracking => stopLocationTracking
  end.

(** The request did not come back with a response before the timer:
    the timer fired, or the network failed. *)
Definition unanswered (request : Request) : bool :=
  match settle (abortAfter request) (fetch env request) with
  | Normal _ => false
  | Throw _ => true
  end.

End WithEnv.

End Api.

(** ** The [Analytics] view component

    The component is event driven: every handler runs to completion on the
    single browser thread, and an [async] handler is cut at each [await]
    into the part that has run and a continuation that runs when the
    awaited promise settles.  React state, the refs and the platform
    services the handlers touch are gathered in [World]; what a handler
    leaves waiting is a [Task].  The HTML of marker popups, which is
    computed from the same values and never read back, is not modelled;
    nor are the handlers that only read from the backend
    ([fetchCurrentLocation], [fetchLocationHistory]), the one-shot
    [getCurrentLocationFromBrowser], and the mounting and teardown of the
    map and the socket. *)

Module Analytics.

(** The [userData] prop ([any]); an absent field is [None]. *)
Record UserData : Type := {
  id : option string;
  studentId : option string;
  role : option string
}.

(** A Leaflet marker: where it is pinned, and whether it carries the
    [current-user] icon. *)
Record Marker : Type := {
  m_latitude : number;
  m_longitude : number;
  m_current : bool
}.

(** [socketRef.current] when it is set. *)
Record Socket : Type := {
  connected : bool;
  sid : option string
}.

(** [position.coords] of the Geolocation API. *)
Record Position : Type := {
  p_latitude : number;
  p_longitude : number;
  p_accuracy : number;
  p_altitude : option number;
  p_heading : option number;
  p_speed : option number
}.

Inductive GeoError : Set :=
| PERMISSION_DENIED
| POSITION_UNAVAILABLE
| TIMEOUT
| OTHER_CODE.

(** The payload of an inbound ['location:update'] event, in either of
    its two shapes. *)
Record NestedLocation : Type := {
  n_latitude : number;
  n_longitude : number;
  n_accuracy : option number;
  n_address : option string
}.

Record LocationUpdate : Type := {
  u_userId : option string;
  u_userType : option string;
  u_location : option NestedLocation;
  u_latitude : option number;
  u_longitude : option number;
  u_accuracy : option number;
  u_address : option string;
  u_timestamp : option string
}.

(** The text of a toast; the two that format a number keep the number. *)
Inductive Toast : Type :=
| Plain (text : string)
| LowAccuracy (accuracy : number)
| FoundNearby (count : number).

Inductive Level : Set := Warn | Error.

(** What a handler does to the outside, in the order it does it; the
    console also takes the lines of the API client it awaits. *)
Inductive Effect : Type :=
| ShowSuccess (t : Toast)
| ShowError (t : Toast)
| Console (l : Level) (text : string)
| Emit (event : string) (payload : option UpdateLocationRequest)
| Invoke (op : Api.Operation)
| ReverseGeocode (lat lng : number)
| GetCurrentPosition
| WatchPosition (handle : Z)
| ClearWatch (handle : Z).

(** React state of the component. *)
Record Hooks : Type := {
  currentLocation : option LocationData;
  isTracking : bool;
  nearbyLocations : list NearbyLocation;
  watchId : option Z;
  searchRadius : number;
  locationAddress : string;
  isRequestingPermission : bool;
  manualLatitude : string;
  manualLongitude : string;
  isLoadingManualLocation : bool
}.

(** The refs: the map instance (with Leaflet loaded), its view, the
    marker registry and the socket. *)
Record Refs : Type := {
  mapReady : bool;
  mapView : option (number * number * Z);
  markers : gmap string Marker;
  socket : option Socket
}.

(** The browser: the geolocation service with its running watches, the
    navigator strings and the clock. *)
Record Platform : Type := {
  geolocation : bool;
  watches : list Z;
  nextWatch : Z;
  navPlatform : string;
  navUserAgent : string;
  clock : string
}.

Record World : Type := {
  hooks : Hooks;
  refs : Refs;
  platform : Platform;
  trace : list Effect
}.

(** *** Handlers as state transformers *)

Definition M (A : Type) : Type := World -> A * World.

Definition pure {A} (a : A) : M A := fun w => (a, w).

Definition andThen {A B} (m : M A) (f : A -> M B) : M B :=
  fun w => let '(a, w') := m w in f a w'.

Declare Scope handler_scope.
Delimit Scope handler_scope with handler.
Notation "x <- m ;; k" := (andThen m (fun x => k))
  (at level 100, m at next level, right associativity) : handler_scope.
Notation "m ;; k" := (andThen m (fun _ => k))
  (at level 100, right associativity) : handler_scope.
Local Open Scope handler_scope.

Definition when (b : bool) (m : M unit) : M unit :=
  if b then m else pure tt.

Definition read {A} (f : World -> A) : M A := fun w => (f w, w).

Definition withHooks (f : Hooks -> Hooks) : M unit :=
  fun w => (tt, {| hooks := f (hooks w); refs := refs w;
                   platform := platform w; trace := trace w |}).

Definition withRefs (f : Refs -> Refs) : M unit :=
  fun w => (tt, {| hooks := hooks w; refs := f (refs w);
                   platform := platform w; trace := trace w |}).

Definition withPlatform (f : Platform -> Platform) : M unit :=
  fun w => (tt, {| hooks := hooks w; refs := refs w;
                   platform := f (platform w); trace := trace w |}).

Definition perform (e : Effect) : M unit :=
  fun w => (tt, {| hooks := hooks w; refs := refs w;
                   platform := platform w; trace := (trace w ++ [e])%list |}).

Definition setCurrentLocation (v : option LocationData) : M unit :=
  withHooks (fun h =>
    {| currentLocation := v; isTracking := isTracking h;
       nearbyLocations := nearbyLocations h; watchId := watchId h;
       searchRadius := searchRadius h; locationAddress := locationAddress h;
       isRequestingPermission := isRequestingPermission h;
       manualLatitude := manualLatitude h; manualLongitude := manualLongitude h;
       isLoadingManualLocation := isLoadingManualLocation h |}).

Definition setIsTracking (v : bool) : M unit :=
  withHooks (fun h =>
    {| currentLocation := currentLocation h; isTracking := v;
       nearbyLocations := nearbyLocations h; watchId := watchId h;
       searchRadius := searchRadius h; locationAddress := locationAddress h;
       isRequestingPermission := isRequestingPermission h;
       manualLatitude := manualLatitude h; manualLongitude := manualLongitude h;
       isLoadingManualLocation := isLoadingManualLocation h |}).

Definition setNearbyLocations (v : list NearbyLocation) : M unit :=
  withHooks (fun h =>
    {| currentLocation := currentLocation h; isTracking := isTracking h;
       nearbyLocations := v; watchId := watchId h;
       searchRadius := searchRadius h; locationAddress := locationAddress h;
       isRequestingPermission := isRequestingPermission h;
       manualLatitude := manualLatitude h; manualLongitude := manualLongitude h;
       isLoadingManualLocation := isLoadingManualLocation h |}).

Definition setWatchId (v : option Z) : M unit :=
  withHooks (fun h =>
    {| currentLocation := currentLocation h; isTracking := isTracking h;
       nearbyLocations := nearbyLocations h; watchId := v;
       searchRadius := searchRadius h; locationAddress := locationAddress h;
       isRequestingPermission := isRequestingPermission h;
       manualLatitude := manualLatitude h; manualLongitude := manualLongitude h;
       isLoadingManualLocation := isLoadingManualLocation h |}).

Definition setLocationAddress (v : string) : M unit :=
  withHooks (fun h =>
    {| currentLocation := currentLocation h; isTracking := isTracking h;
       nearbyLocations := nearbyLocations h; watchId := watchId h;
       searchRadius := searchRadius h; locationAddress := v;
       isRequestingPermission := isRequestingPermission h;
       manualLatitude := manualLatitude h; manualLongitude := manualLongitude h;
       isLoadingManualLocation := isLoadingManualLocation h |}).

Definition setIsRequestingPermission (v : bool) : M unit :=
  withHooks (fun h =>
    {| currentLocation := currentLocation h; isTracking := isTracking h;
       nearbyLocations := nearbyLocations h; watchId := watchId h;
       searchRadius := searchRadius h; locationAddress := locationAddress h;
       isRequestingPermission := v;
       manualLatitude := manualLatitude h; manualLongitude := manualLongitude h;
       isLoadingManualLocation := isLoadingManualLocation h |}).

Definition setIsLoadingManualLocation (v : bool) : M unit :=
  withHooks (fun h =>
    {| currentLocation := currentLocation h; isTracking := isTracking h;
       nearbyLocations := nearbyLocations h; watchId := watchId h;
       searchRadius := searchRadius h; locationAddress := locationAddress h;
       isRequestingPermission := isRequestingPermission h;
       manualLatitude := manualLatitude h; manualLongitude := manualLongitude h;
       isLoadingManualLocation := v |}).

(** [mapInstanceRef.current.removeLayer(old)] when there is one, a new
    marker added to the map, and [markersRef.current.set(userId, marker)]. *)
Definition placeMarker (userId : string) (m : Marker) : M unit :=
  withRefs (fun r =>
    {| mapReady := mapReady r; mapView := mapView r;
       markers := <[userId := m]> (markers r); socket := socket r |}).

Definition setView (lat lng : number) (zoom : Z) : M unit :=
  withRefs (fun r =>
    {| mapReady := mapReady r; mapView := Some (lat, lng, zoom);
       markers := markers r; socket := socket r |}).

Definition showSuccess (t : Toast) : M unit := perform (ShowSuccess t).
Definition showError (t : Toast) : M unit := perform (ShowError t).
Definition console (l : Level) (text : string) : M unit := perform (Console l text).

(** The lines the API client wrote with [console.error] during a call. *)
Definition clientConsole (lines : list string) : M unit :=
  fun w => (tt, {| hooks := hooks w; refs := refs w; platform := platform w;
                   trace := (trace w ++ map (Console Error) lines)%list |}).

(** A call of the API client settles: what it logged is on the console
    when the handler that awaits it goes on with its outcome. *)
Definition settles {A B} (call : Api.Call A) (k : completion A -> M B) : M B :=
  clientConsole (Api.logged call) ;; k (Api.outcome call).

(** [if (socketRef.current && socketRef.current.connected)
      socketRef.current.emit(event, payload)]. *)
Definition emitIfConnected (event : string) (payload : option UpdateLocationRequest)
  : M unit :=
  s <- read (fun w => socket (refs w)) ;;
  match s with
  | Some so => when (connected so) (perform (Emit event payload))
  | None => pure tt
  end.

(** [socketRef.current?.id]. *)
Definition sessionId : M (option string) :=
  read (fun w => match socket (refs w) with Some so => sid so | None => None end).

(** [new Date().toISOString()]. *)
Definition now : M string := read (fun w => clock (platform w)).

(** [navigator.geolocation.watchPosition(...)]: the service starts a
    watch and returns its handle. *)
Definition watchPosition : M Z :=
  h <- read (fun w => nextWatch (platform w)) ;;
  withPlatform (fun p =>
    {| geolocation := geolocation p; watches := (watches p ++ [h])%list;
       nextWatch := (h + 1)%Z; navPlatform := navPlatform p;
       navUserAgent := navUserAgent p; clock := clock p |}) ;;
  perform (WatchPosition h) ;;
  pure h.

(** [navigator.geolocation.clearWatch(handle)]. *)
Definition clearWatch (handle : Z) : M unit :=
  withPlatform (fun p =>
    {| geolocation := geolocation p;
       watches := List.filter (fun h => negb (h =? handle)%Z) (watches p);
       nextWatch := nextWatch p; navPlatform := navPlatform p;
       navUserAgent := navUserAgent p; clock := clock p |}) ;;
  perform (ClearWatch handle).

Definition deviceInfo : M DeviceInfo :=
  read (fun w =>
    {| di_platform := Some (navPlatform (platform w));
       di_userAgent := Some (navUserAgent (platform w));
       di_appVersion := Some "1.0.0" |}).

(** *** Reverse geocoding ([getAddressFromCoordinates]) *)

Record NominatimAddress : Type := {
  road : option string;
  suburb : option string;
  neighbourhood : option string;
  city : option string;
  town : option string;
  village : option string;
  state : option string;
  postcode : option string;
  country : option string
}.

(** What the geocoder's HTTP call came to. *)
Inductive GeocodeOutcome : Type :=
| GeocodeThrows
| GeocodeNotOk
| GeocodeOk (addr : option NominatimAddress) (display_name : option string).

Definition push (part : option string) (parts : list string) : list string :=
  match part with
  | Some s => if truthy_str s then (parts ++ [s])%list else parts
  | None => parts
  end.

(** The string the promise of [getAddressFromCoordinates] resolves to;
    it never rejects. *)
Definition getAddressFromCoordinates (o : GeocodeOutcome) : string :=
  match o with
  | GeocodeOk (Some addr) display_name =>
      let parts := push (road addr) [] in
      let parts := push (or_ostr (suburb addr) (neighbourhood addr)) parts in
      let parts :=
        push (or_ostr (or_ostr (city addr) (town addr)) (village addr)) parts in
      let parts := push (state addr) parts in
      let parts := push (postcode addr) parts in
      let parts := push (country addr) parts in
      or_str (or_ostr (Some (String.concat ", " parts)) display_name)
             "Address not available"
  | GeocodeOk None display_name => or_str display_name "Address not available"
  | GeocodeNotOk => "Address lookup failed"
  | GeocodeThrows => "Unable to fetch address"
  end.

(** *** Suspended handlers *)

(** What an [async] handler is waiting for, with the code that runs
    when it arrives.  [AwaitPosition] is a one-shot
    [getCurrentPosition] with its two callbacks. *)
#[warnings="-register-all"]
Inductive Task : Type :=
| Done
| AwaitPosition (onSuccess : Position -> M Task) (onError : GeoError -> M Task)
| AwaitAddress (lat lng : number) (k : string -> M Task)
| AwaitUpdate (d : UpdateLocationRequest)
    (k : completion (ApiResponse UpdateLocationResponse) -> M Task)
| AwaitStop (k : completion (ApiResponse unit) -> M Task)
| AwaitNearby (lat lng radius : number)
    (k : completion (ApiResponse NearbyLocationsResponse) -> M Task).

Definition finish (m : M unit) : M Task := m ;; pure Done.

(** [await getAddressFromCoordinates(lat, lng)]. *)
Definition awaitAddress (lat lng : number) (k : string -> M Task) : M Task :=
  perform (ReverseGeocode lat lng) ;;
  pure (AwaitAddress lat lng k).

(** [await locationApi.updateLocation(d)]. *)
Definition awaitUpdate (d : UpdateLocationRequest)
    (k : completion (ApiResponse UpdateLocationResponse) -> M Task) : M Task :=
  perform (Invoke (Api.UpdateLocation d)) ;;
  pure (AwaitUpdate d k).

Definition awaitStop (k : completion (ApiResponse unit) -> M Task) : M Task :=
  perform (Invoke Api.StopLocationTracking) ;;
  pure (AwaitStop k).

Definition awaitNearby (lat lng radius : number)
    (k : completion (ApiResponse NearbyLocationsResponse) -> M Task) : M Task :=
  perform (Invoke (Api.GetNearbyLocations lat lng radius None true)) ;;
  pure (AwaitNearby lat lng radius k).

Definition getCurrentPosition
    (onSuccess : Position -> M Task) (onError : GeoError -> M Task) : M Task :=
  perform GetCurrentPosition ;;
  pure (AwaitPosition onSuccess onError).

(** [v || undefined] on a coordinate that may be [null]. *)
Definition orUndefined (v : option number) : option number :=
  if truthy_opt v then v else None.

(** [message && !message.includes(a) && ...]. *)
Definition worthLogging (text : string) (silenced : list string) : bool :=
  truthy_str text && forallb (fun s => negb (includes text s)) silenced.

Definition geoErrorText (fallback denied unavailable timedOut : string) (e : GeoError)
  : string :=
  match e with
  | PERMISSION_DENIED => denied
  | POSITION_UNAVAILABLE => unavailable
  | TIMEOUT => timedOut
  | OTHER_CODE => fallback
  end.

Section Component.

(** The [userData] prop, and the two built-ins that read the manual
    coordinate fields. *)
Variable userData : option UserData.
Variable parseFloat : string -> number.
Variable trim : string -> string.

(** [userData?.id], [userData?.studentId], [userData?.role]. *)
Definition userData_id : option string := userData ≫= id.
Definition userData_studentId : option string := userData ≫= studentId.
Definition userData_role : option string := userData ≫= role.

(** [userData?.id || 'current']. *)
Definition selfId : string := or_str userData_id "current".

Definition updateMapMarker (userId : string) (location : NestedLocation)
    (userType : option string) : M unit :=
  ready <- read (fun w => mapReady (refs w)) ;;
  if negb ready then pure tt else
  let isCurrentUser :=
    strict_eq (Some userId) userData_id || String.eqb userId "current" in
  placeMarker userId
    {| m_latitude := n_latitude location; m_longitude := n_longitude location;
       m_current := isCurrentUser |} ;;
  when isCurrentUser (
    setView (n_latitude location) (n_longitude location) 15%Z ;;
    t <- now ;;
    setCurrentLocation (Some
      {| _id := userId; userId := userId; userType := or_str userType "Student";
         latitude := n_latitude location; longitude := n_longitude location;
         accuracy := None; address := None;
         isActive := true; lastUpdated := t |})).

Fixpoint updateNearbyMarkers (locations : list NearbyLocation) : M unit :=
  match locations with
  | [] => pure tt
  | item :: rest =>
      updateMapMarker (nl_userId item)
        {| n_latitude := c_latitude (nl_location item);
           n_longitude := c_longitude (nl_location item);
           n_accuracy := None;
           n_address := c_address (nl_location item) |}
        (Some (nl_userType item)) ;;
      updateNearbyMarkers rest
  end.

(** The location an inbound update carries: the nested object when
    there is one, else the flat fields when both coordinates are
    truthy, else nothing. *)
Definition locationOf (data : LocationUpdate) : option NestedLocation :=
  match u_location data with
  | Some l => Some l
  | None =>
      match u_latitude data, u_longitude data with
      | Some lat, Some lng =>
          if truthy lat && truthy lng then
            Some {| n_latitude := lat; n_longitude := lng;
                    n_accuracy := u_accuracy data; n_address := u_address data |}
          else None
      | _, _ => None
      end
  end.

(** [data.userId === userData?.id || data.userId === userData?.studentId]. *)
Definition isCurrentUser (data : LocationUpdate) : bool :=
  strict_eq (u_userId data) userData_id
  || strict_eq (u_userId data) userData_studentId.

(** [socket.on('location:update', ...)]. *)
Definition onLocationUpdate (data : LocationUpdate) : M unit :=
  match locationOf data with
  | Some location =>
      let accuracy := n_accuracy location in
      if isCurrentUser data || negb (truthy_opt accuracy) || lt_opt accuracy 1000%float
      then
        let subject := or_str (or_ostr (u_userId data) userData_id) "current" in
        updateMapMarker subject location (Some (or_str (u_userType data) "Student")) ;;
        when (isCurrentUser data) (
          t <- now ;;
          setCurrentLocation (Some
            {| _id := subject; userId := subject;
               userType := or_str (u_userType data) "Student";
               latitude := n_latitude location; longitude := n_longitude location;
               accuracy := n_accuracy location; address := n_address location;
               isActive := true; lastUpdated := or_str (u_timestamp data) t |}) ;;
          match n_address location with
          | Some a => when (truthy_str a) (setLocationAddress a)
          | None => pure tt
          end ;;
          match accuracy with
          | Some a => when (truthy a && gt a 1000%float) (showError (LowAccuracy a))
          | None => pure tt
          end)
      else console Warn "Location accuracy too low, ignoring update:"
  | None => pure tt
  end.

(** [socket.on('location:nearby:response', ...)]. *)
Definition onNearbyResponse (locations : option (list NearbyLocation)) : M unit :=
  match locations with
  | Some l => setNearbyLocations l ;; updateNearbyMarkers l
  | None => pure tt
  end.

(** [socket.on('location:stopped', ...)]. *)
Definition onLocationStopped (subject : option string) : M unit :=
  when (strict_eq subject userData_id) (setIsTracking false).

(** [socket.on('error', ...)]. *)
Definition onSocketError (text : option string) : M unit :=
  console Error "Socket error:" ;;
  showError (Plain (or_str text "Socket connection error")).

(** The self entry a fix is recorded as. *)
Definition selfLocation (lat lng : number) (acc : option number)
    (addr : string) (t : string) : LocationData :=
  {| _id := selfId; userId := selfId; userType := or_str userData_role "Student";
     latitude := lat; longitude := lng; accuracy := acc; address := Some addr;
     isActive := true; lastUpdated := t |}.

Definition recordSelf (lat lng : number) (acc : option number) (addr : string)
  : M unit :=
  t <- now ;;
  setCurrentLocation (Some (selfLocation lat lng acc addr t)).

(** The self marker pinned by the tracking and manual paths. *)
Definition pinSelf (lat lng : number) : M unit :=
  placeMarker selfId
    {| m_latitude := lat; m_longitude := lng; m_current := true |} ;;
  setView lat lng 17%Z.

(** The toast of a successful start (the text without its trailing
    emoji, as for the other toasts). *)
Definition started : Toast :=
  Plain "Location tracking started! Exact location pinned on map".

(** The success callback of [watchPosition]. *)
Definition onWatchPosition (p : Position) : M Task :=
  let lat := p_latitude p in
  let lng := p_longitude p in
  let acc := p_accuracy p in
  awaitAddress lat lng (fun updatedAddress =>
    setLocationAddress updatedAddress ;;
    ready <- read (fun w => mapReady (refs w)) ;;
    old <- read (fun w => markers (refs w) !! selfId) ;;
    match ready, old with
    | true, Some marker =>
        (* marker.setLatLng([lat, lng]) *)
        placeMarker selfId
          {| m_latitude := lat; m_longitude := lng; m_current := m_current marker |}
    | _, _ => pure tt
    end ;;
    session <- sessionId ;;
    device <- deviceInfo ;;
    let updateData :=
      {| req_latitude := lat; req_longitude := lng; req_accuracy := Some acc;
         req_altitude := orUndefined (p_altitude p);
         req_heading := orUndefined (p_heading p);
         req_speed := orUndefined (p_speed p);
         req_address := Some updatedAddress; req_sessionId := session;
         req_deviceInfo := Some device |} in
    awaitUpdate updateData (fun settled =>
      finish
        match settled with
        | Normal result =>
            when (success result) (emitIfConnected "location:update" (Some updateData)) ;;
            recordSelf lat lng (Some acc) updatedAddress ;;
            when (negb (success result))
              (emitIfConnected "location:update" (Some updateData))
        | Throw error =>
            recordSelf lat lng (Some acc) updatedAddress ;;
            emitIfConnected "location:update" (Some updateData) ;;
            match error with
            | ErrorObj _ text =>
                when (worthLogging text ["timeout"; "TimeoutError"; "demo mode"])
                  (console Warn "Location update failed, continuing local tracking")
            | NotAnError => pure tt
            end
        end)).

(** The error callback of [watchPosition]. *)
Definition onWatchError (e : GeoError) : M unit :=
  console Error "Geolocation watch error:" ;;
  showError (Plain (geoErrorText "Unable to retrieve your location"
    "Location permission denied. Please allow location access."
    "Location information unavailable."
    "Location request timed out." e)) ;;
  setIsTracking false.

Definition startTracking : M Task :=
  supported <- read (fun w => geolocation (platform w)) ;;
  if negb supported then
    finish (showError (Plain "Geolocation is not supported by your browser"))
  else
  setIsRequestingPermission true ;;
  getCurrentPosition
    (fun position =>
      setIsRequestingPermission false ;;
      setIsTracking true ;;
      let lat := p_latitude position in
      let lng := p_longitude position in
      let acc := p_accuracy position in
      awaitAddress lat lng (fun address =>
        setLocationAddress address ;;
        ready <- read (fun w => mapReady (refs w)) ;;
        when ready (pinSelf lat lng) ;;
        session <- sessionId ;;
        device <- deviceInfo ;;
        let locationData :=
          {| req_latitude := lat; req_longitude := lng; req_accuracy := Some acc;
             req_altitude := orUndefined (p_altitude position);
             req_heading := orUndefined (p_heading position);
             req_speed := orUndefined (p_speed position);
             req_address := Some address; req_sessionId := session;
             req_deviceInfo := Some device |} in
        awaitUpdate locationData (fun settled =>
          match settled with
          | Normal result =>
              recordSelf lat lng (Some acc) address ;;
              emitIfConnected "location:update" (Some locationData) ;;
              when (negb (success result)
                    && worthLogging (message result) ["timeout"; "demo mode"])
                (console Warn "Location API error:") ;;
              showSuccess started
          | Throw error =>
              recordSelf lat lng (Some acc) address ;;
              emitIfConnected "location:update" (Some locationData) ;;
              match error with
              | ErrorObj _ text =>
                  when (worthLogging text ["timeout"; "TimeoutError"; "demo mode"])
                    (console Warn "Location API unavailable, using local tracking only")
              | NotAnError => pure tt
              end ;;
              showSuccess started
          end ;;
          handle <- watchPosition ;;
          finish (setWatchId (Some handle)))))
    (fun error =>
      finish (
        setIsRequestingPermission false ;;
        console Error "Geolocation permission error:" ;;
        showError (Plain (geoErrorText "Unable to access your location"
          "Location permission denied. Please allow location access in your browser settings."
          "Location information unavailable."
          "Location request timed out. Please try again." error)))).

Definition stopTracking : M Task :=
  current <- read (fun w => watchId (hooks w)) ;;
  match current with
  | Some handle => clearWatch handle ;; setWatchId None
  | None => pure tt
  end ;;
  setIsTracking false ;;
  awaitStop (fun settled =>
    match settled with
    | Normal result =>
        finish (
          emitIfConnected "location:stop" None ;;
          when (negb (success result)
                && worthLogging (message result) ["timeout"; "TimeoutError"; "demo mode"])
            (console Warn "Stop tracking API error:") ;;
          showSuccess (Plain "Location tracking stopped"))
    | Throw _ => pure Done
    end).

Definition searchNearby : M Task :=
  here <- read (fun w => currentLocation (hooks w)) ;;
  match here with
  | None => finish (showError (Plain "Please start location tracking first"))
  | Some loc =>
      radius <- read (fun w => searchRadius (hooks w)) ;;
      awaitNearby (latitude loc) (longitude loc) radius (fun settled =>
        finish
          match settled with
          | Normal result =>
              match success result, data result with
              | true, Some found =>
                  setNearbyLocations (nr_locations found) ;;
                  updateNearbyMarkers (nr_locations found) ;;
                  showSuccess (FoundNearby (nr_count found))
              | _, _ => pure tt
              end
          | Throw _ =>
              console Error "Error searching nearby:" ;;
              showError (Plain "Failed to search nearby locations")
          end)
  end.

Definition getLocationFromCoordinates : M Task :=
  latText <- read (fun w => manualLatitude (hooks w)) ;;
  lngText <- read (fun w => manualLongitude (hooks w)) ;;
  let lat := parseFloat (trim latText) in
  let lng := parseFloat (trim lngText) in
  if is_nan lat || is_nan lng then
    finish (showError (Plain "Please enter valid latitude and longitude values"))
  else if lt lat (-90)%float || gt lat 90%float then
    finish (showError (Plain "Latitude must be between -90 and 90"))
  else if lt lng (-180)%float || gt lng 180%float then
    finish (showError (Plain "Longitude must be between -180 and 180"))
  else
  setIsLoadingManualLocation true ;;
  awaitAddress lat lng (fun address =>
    setLocationAddress address ;;
    ready <- read (fun w => mapReady (refs w)) ;;
    if ready then
      pinSelf lat lng ;;
      t <- now ;;
      setCurrentLocation (Some (selfLocation lat lng None address t)) ;;
      session <- sessionId ;;
      device <- deviceInfo ;;
      let locationData :=
        {| req_latitude := lat; req_longitude := lng; req_accuracy := None;
           req_altitude := None; req_heading := None; req_speed := None;
           req_address := Some address; req_sessionId := session;
           req_deviceInfo := Some device |} in
      awaitUpdate locationData (fun settled =>
        finish (
          match settled with
          | Normal result =>
              emitIfConnected "location:update" (Some locationData) ;;
              when (negb (success result)
                    && worthLogging (message result)
                         ["timeout"; "TimeoutError"; "demo mode"])
                (console Warn "Location API unavailable, using local display only") ;;
              showSuccess (Plain "Location set from coordinates!")
          | Throw _ =>
              console Error "Error getting location from coordinates:" ;;
              showError (Plain "Failed to get location from coordinates")
          end ;;
          setIsLoadingManualLocation false))
    else
      finish (
        showError (Plain "Map not initialized. Please wait for map to load.") ;;
        setIsLoadingManualLocation false)).

(** *** The component as an event-driven system *)

(** The world together with the handlers that are suspended at an
    [await] or wait for a geolocation callback.  A task keeps its slot in
    [inflight] for its whole life, so the slot number names it. *)
Record System : Type := {
  world : World;
  inflight : list Task
}.

Inductive Handler : Set :=
| StartTracking
| StopTracking
| SearchNearby
| GetLocationFromCoordinates.

Definition handler (h : Handler) : M Task :=
  match h with
  | StartTracking => startTracking
  | StopTracking => stopTracking
  | SearchNearby => searchNearby
  | GetLocationFromCoordinates => getLocationFromCoordinates
  end.

(** The tracking button:
    [onClick={isTracking ? stopTracking : startTracking}],
    [disabled={isRequestingPermission}]. *)
Definition trackingButton (w : World) : option Handler :=
  if isRequestingPermission (hooks w) then None
  else Some (if isTracking (hooks w) then StopTracking else StartTracking).

(** Inbound Socket.IO events. *)
Inductive Inbound : Type :=
| LocationUpdateEvent (data : LocationUpdate)
| NearbyResponseEvent (locations : option (list NearbyLocation))
| LocationStoppedEvent (subject : option string)
| ErrorEvent (text : option string).

Inductive Event : Type :=
| Call (h : Handler)
| ClickTracking
| PositionFound (task : nat) (p : Position)
| PositionFailed (task : nat) (e : GeoError)
| AddressSettled (task : nat) (o : GeocodeOutcome)
| UpdateSettled (task : nat) (env : Api.Env UpdateLocationResponse)
| StopSettled (task : nat) (env : Api.Env unit)
| NearbySettled (task : nat) (env : Api.Env NearbyLocationsResponse)
| WatchReports (handle : Z) (p : Position)
| WatchFails (handle : Z) (e : GeoError)
| Receive (m : Inbound)
| Tick (t : string).

(** A handler is invoked: it runs up to its first [await]. *)
Definition spawn (m : M Task) (s : System) : System :=
  let '(t, w) := m (world s) in
  {| world := w; inflight := (inflight s ++ [t])%list |}.

(** A handler that never suspends. *)
Definition exec (m : M unit) (s : System) : System :=
  {| world := snd (m (world s)); inflight := inflight s |}.

(** What task [i] waits for arrives: [continue] picks its continuation,
    which runs up to the next [await]. *)
Definition resume (i : nat) (continue : Task -> option (M Task)) (s : System) : System :=
  match inflight s !! i with
  | Some t =>
      match continue t with
      | Some m =>
          let '(t', w) := m (world s) in
          {| world := w; inflight := <[i := t']> (inflight s) |}
      | None => s
      end
  | None => s
  end.

Definition watching (handle : Z) (w : World) : bool :=
  existsb (Z.eqb handle) (watches (platform w)).

Definition step (s : System) (e : Event) : System :=
  match e with
  | Call h => spawn (handler h) s
  | ClickTracking =>
      match trackingButton (world s) with
      | Some h => spawn (handler h) s
      | None => s
      end
  | PositionFound i p =>
      resume i (fun t => match t with AwaitPosition ok _ => Some (ok p) | _ => None end) s
  | PositionFailed i e =>
      resume i (fun t => match t with AwaitPosition _ ko => Some (ko e) | _ => None end) s
  | AddressSettled i o =>
      resume i (fun t =>
        match t with
        | AwaitAddress _ _ k => Some (k (getAddressFromCoordinates o))
        | _ => None
        end) s
  | UpdateSettled i env =>
      resume i (fun t =>
        match t with
        | AwaitUpdate d k => Some (settles (Api.updateLocation env d) k)
        | _ => None
        end) s
  | StopSettled i env =>
      resume i (fun t =>
        match t with
        | AwaitStop k => Some (settles (Api.stopLocationTracking env) k)
        | _ => None
        end) s
  | NearbySettled i env =>
      resume i (fun t =>
        match t with
        | AwaitNearby lat lng radius k =>
            Some (settles (Api.getNearbyLocations env lat lng radius None true) k)
        | _ => None
        end) s
  | WatchReports h p =>
      if watching h (world s) then spawn (onWatchPosition p) s else s
  | WatchFails h e =>
      if watching h (world s) then exec (onWatchError e) s else s
  | Receive (LocationUpdateEvent data) => exec (onLocationUpdate data) s
  | Receive (NearbyResponseEvent l) => exec (onNearbyResponse l) s
  | Receive (LocationStoppedEvent u) => exec (onLocationStopped u) s
  | Receive (ErrorEvent text) => exec (onSocketError text) s
  | Tick t =>
      exec (withPlatform (fun p =>
        {| geolocation := geolocation p; watches := watches p;
           nextWatch := nextWatch p; navPlatform := navPlatform p;
           navUserAgent := navUserAgent p; clock := t |})) s
  end.

Definition run (s : System) (events : list Event) : System :=
  fold_left step events s.

End Component.

(** The component as mounted: nothing tracked, the map and the socket as
    given. *)
Definition mounted (ready : bool) (so : option Socket) : System :=
  {| world :=
       {| hooks :=
            {| currentLocation := None; isTracking := false; nearbyLocations := [];
               watchId := None; searchRadius := 1000%float; locationAddress := "";
               isRequestingPermission := false; manualLatitude := "";
               manualLongitude := ""; isLoadingManualLocation := false |};
          refs :=
            {| mapReady := ready;
               mapView := if ready then Some (22.5726%float, 88.3639%float, 13%Z) else None;
               markers := ∅; socket := so |};
          platform :=
            {| geolocation := true; watches := []; nextWatch := 1;
               navPlatform := "Linux x86_64"; navUserAgent := "Mozilla/5.0";
               clock := "2024-01-01T00:00:00.000Z" |};
          trace := [] |};
     inflight := [] |}.

(** *** Reading the model *)

(** The accuracy field of an inbound update, in whichever shape it came. *)
Definition accuracyOf (data : LocationUpdate) : option number :=
  match u_location data with
  | Some l => n_accuracy l
  | None => u_accuracy data
  end.

(** The continuation of a suspended task, applied to what it waited for. *)
Definition afterPosition (t : Task) (p : Position) : M Task :=
  match t with AwaitPosition ok _ => ok p | _ => pure Done end.

Definition afterAddress (t : Task) (address : string) : M Task :=
  match t with AwaitAddress _ _ k => k address | _ => pure Done end.

Definition afterUpdate (t : Task)
    (settled : completion (ApiResponse UpdateLocationResponse)) : M Task :=
  match t with AwaitUpdate _ k => k settled | _ => pure Done end.

(** The update a task has in flight, if it waits for one. *)
Definition updateInFlight (t : Task) : option UpdateLocationRequest :=
  match t with AwaitUpdate d _ => Some d | _ => None end.

Definition isEmit (e : Effect) : bool :=
  match e with Emit _ _ => true | _ => false end.

(** The push-channel emits of a trace. *)
Definition emits (w : World) : list Effect := List.filter isEmit (trace w).

(** The marks [stopTracking] leaves in a trace. *)
Definition isStop (e : Effect) : bool :=
  match e with
  | ClearWatch _ | Invoke Api.StopLocationTracking => true
  | _ => false
  end.

Definition stops (w : World) : list Effect := List.filter isStop (trace w).

Definition socketConnected (w : World) : bool :=
  match socket (refs w) with Some so => connected so | None => false end.

(** The request a fix is reported with, as the world [w] fills it in. *)
Definition reportOf (p : Position) (address : string) (w : World)
  : UpdateLocationRequest :=
  {| req_latitude := p_latitude p; req_longitude := p_longitude p;
     req_accuracy := Some (p_accuracy p);
     req_altitude := orUndefined (p_altitude p);
     req_heading := orUndefined (p_heading p);
     req_speed := orUndefined (p_speed p);
     req_address := Some address;
     req_sessionId := match socket (refs w) with Some so => sid so | None => None end;
     req_deviceInfo :=
       Some {| di_platform := Some (navPlatform (platform w));
               di_userAgent := Some (navUserAgent (platform w));
               di_appVersion := Some "1.0.0" |} |}.

(** The texts with which [getLocationFromCoordinates] rejects its input. *)
Definition invalidCoordinate : list string :=
  [ "Please enter valid latitude and longitude values";
    "Latitude must be between -90 and 90";
    "Longitude must be between -180 and 180" ].

End Analytics.

(** ** Reading the REST client *)

Module ApiFacts.

Import Api.

(** The abort timer fired before the network settled. *)
Definition timedOut {T} (env : Env T) (request : Request) : bool :=
  match fetch env request with
  | Responds after _ | Rejects after _ => negb (after <? abortAfter request)%Z
  | Pending => true
  end.

(** A response came back in time but its body cannot be read:
    [response.json()] rejects, or gives [null]. *)
Definition unparsed {T} (env : Env T) (request : Request) : bool :=
  match settle (abortAfter request) (fetch env request) with
  | Normal r => match json r with Unparsable | JsonNull => true | _ => false end
  | Throw _ => false
  end.

Definition header (name : string) (request : Request) : option string :=
  snd <$> List.find (fun h => String.eqb (fst h) name) (headers request).

End ApiFacts.

(** ** Scenarios used to exercise the model *)

Module Scenario.

Import Api ApiFacts Analytics.

Definition sampleUpdate : UpdateLocationRequest :=
  {| req_latitude := 22.5726%float; req_longitude := 88.3639%float;
     req_accuracy := Some 15%float; req_altitude := None; req_heading := None;
     req_speed := None; req_address := None; req_sessionId := None;
     req_deviceInfo := None |}.

(** A backend that never answers. *)
Definition silent {T} (token : option string) : Env T :=
  {| authToken := token; fetch := fun _ => Pending |}.

(** A backend that answers after [after] milliseconds. *)
Definition answering {T} (token : option string) (after : Z) (r : Response T) : Env T :=
  {| authToken := token; fetch := fun _ => Responds after r |}.

(** A network that is down. *)
Definition offline {T} (token : option string) : Env T :=
  {| authToken := token;
     fetch := fun _ => Rejects 5 (ErrorObj "TypeError" "Failed to fetch") |}.

Definition garbled : Response UpdateLocationResponse :=
  {| ok := true; json := Unparsable |}.

(** The signed-in student, and a live socket. *)
Definition student : option UserData :=
  Some {| id := Some "student-1"; studentId := Some "S-001"; role := Some "Student" |}.

Definition live : option Socket := Some {| connected := true; sid := Some "sock-1" |}.

Definition flat (subject : string) (lat lng acc : number) : LocationUpdate :=
  {| u_userId := Some subject; u_userType := None; u_location := None;
     u_latitude := Some lat; u_longitude := Some lng; u_accuracy := Some acc;
     u_address := None; u_timestamp := None |}.

(** A peer reporting a fix that is good to 1500 m only. *)
Definition poorPeer : LocationUpdate := flat "peer-7" 12.9 77.6 1500.

(** The student's own fix, sharp and coarse. *)
Definition sharpSelf : LocationUpdate := flat "student-1" 22.5726 88.3639 15.
Definition coarseSelf : LocationUpdate := flat "student-1" 22.5726 88.3639 2500.

(** The student on the equator, and a peer on the prime meridian. *)
Definition equatorSelf : LocationUpdate := flat "student-1" 0 77.6 1500.

(** The same report in the nested shape. *)
Definition equatorSelfNested : LocationUpdate :=
  {| u_userId := Some "student-1"; u_userType := None;
     u_location :=
       Some {| n_latitude := 0; n_longitude := 77.6; n_accuracy := Some 1500%float;
               n_address := None |};
     u_latitude := None; u_longitude := None; u_accuracy := None;
     u_address := None; u_timestamp := None |}.
Definition meridianPeer : LocationUpdate := flat "peer-7" 51.4779 0 10.

(** Stand-ins for [parseFloat] and [trim] on the inputs used below:
    optionally signed decimal integers without blanks around them; any
    other text reads as [NaN]. *)
Fixpoint digits (s : string) (acc : Z) : option Z :=
  match s with
  | EmptyString => Some acc
  | String c rest =>
      let n := Z.of_nat (Ascii.nat_of_ascii c) in
      if ((48 <=? n) && (n <=? 57))%Z then digits rest (10 * acc + (n - 48))%Z
      else None
  end.

Definition magnitude (s : string) : number :=
  match s with
  | EmptyString => nan
  | _ => match digits s 0 with
         | Some z => PrimFloat.of_uint63 (Uint63.of_Z z)
         | None => nan
         end
  end.

Definition readInteger (s : string) : number :=
  match s with
  | String (Ascii.Ascii true false true true false true false false) rest =>
      (- magnitude rest)%float
  | _ => magnitude s
  end.

Definition asTyped (s : string) : string := s.

(** The mounted component with text typed into the two coordinate fields. *)
Definition typed (latText lngText : string) : System :=
  let s := mounted true live in
  {| world :=
       {| hooks :=
            {| currentLocation := None; isTracking := false; nearbyLocations := [];
               watchId := None; searchRadius := 1000; locationAddress := "";
               isRequestingPermission := false; manualLatitude := latText;
               manualLongitude := lngText; isLoadingManualLocation := false |};
          refs := refs (world s);
          platform := platform (world s);
          trace := [] |};
     inflight := [] |}.

(** Two fixes of the geolocation service, a few hundred metres apart. *)
Definition kolkata : Position :=
  {| p_latitude := 22.5726; p_longitude := 88.3639; p_accuracy := 15;
     p_altitude := None; p_heading := None; p_speed := None |}.

Definition moved : Position :=
  {| p_latitude := 22.5801; p_longitude := 88.3702; p_accuracy := 12;
     p_altitude := None; p_heading := None; p_speed := None |}.

Definition street : GeocodeOutcome := GeocodeOk None (Some "Park Street, Kolkata").

(** A backend that acknowledges an update after 120 ms. *)
Definition acknowledged : Response UpdateLocationResponse :=
  {| ok := true;
     json :=
       JsonObject (Some "Location updated")
         {| ur_id := "loc-1"; ur_userId := "student-1"; ur_userType := "Student";
            ur_latitude := 22.5801; ur_longitude := 88.3702;
            ur_accuracy := Some 12%float;
            ur_lastUpdated := "2024-01-01T00:00:05.000Z"; ur_isActive := true |}
         None |}.

Definition backend : Env UpdateLocationResponse :=
  answering (Some "secret") 120 acknowledged.

Definition stopBackend : Env unit :=
  answering (Some "secret") 80
    {| ok := true; json := JsonObject (Some "Tracking stopped") tt None |}.

(** The student starts tracking and the first fix goes through: the
    session is active and one watch runs. *)
Definition tracking : System :=
  run student readInteger asTyped (mounted true live)
    [ ClickTracking; PositionFound 0 kolkata; AddressSettled 0 street;
      UpdateSettled 0 backend ].




(** [startTracking] called again while the session is active. *)
Definition startedAgain : System :=
  run student readInteger asTyped tracking
    [ Call StartTracking; PositionFound 1 kolkata; AddressSettled 1 street;
      UpdateSettled 1 backend ].

(** The same through the button only: the watch reports a timeout, which
    clears [isTracking] but not the watch, and the student clicks again. *)
Definition watchTimedOut : System :=
  run student readInteger asTyped tracking [ WatchFails 1 TIMEOUT ].

Definition restartedAfterTimeout : System :=
  run student readInteger asTyped watchTimedOut
    [ ClickTracking; PositionFound 1 kolkata;
      AddressSettled 1 street; UpdateSettled 1 backend ].

(** The first fix of a session whose backend never answers: the REST
    update is in flight, then it times out. *)
Definition firstFixInFlight : System :=
  run student readInteger asTyped (mounted true live)
    [ ClickTracking; PositionFound 0 kolkata; AddressSettled 0 street ].

Definition firstFixTimedOut : System :=
  run student readInteger asTyped firstFixInFlight
    [ UpdateSettled 0 (silent (Some "secret")) ].

(** The student stops while the update of the first fix is still in
    flight (the stop is task 1); the answer to the update arrives after
    the stop has completed. *)
Definition stoppedEarly : System :=
  run student readInteger asTyped firstFixInFlight
    [ ClickTracking; StopSettled 1 stopBackend ].

Definition lateFirstFix : System :=
  run student readInteger asTyped stoppedEarly [ UpdateSettled 0 backend ].

End Scenario.

(** ** The rest of the location panel

    The three buttons of the panel that the tracking session does not
    use: "Refresh" ([fetchCurrentLocation]), "Get Location"
    ([handleGetLocation]) and "Use Current Location"
    ([getCurrentLocationFromBrowser]). *)

Module Panel.

Import Analytics.
Local Open Scope handler_scope.

Definition setManualLatitude (v : string) : M unit :=
  withHooks (fun h =>
    {| currentLocation := currentLocation h; isTracking := isTracking h;
       nearbyLocations := nearbyLocations h; watchId := watchId h;
       searchRadius := searchRadius h; locationAddress := locationAddress h;
       isRequestingPermission := isRequestingPermission h;
       manualLatitude := v; manualLongitude := manualLongitude h;
       isLoadingManualLocation := isLoadingManualLocation h |}).

Definition setManualLongitude (v : string) : M unit :=
  withHooks (fun h =>
    {| currentLocation := currentLocation h; isTracking := isTracking h;
       nearbyLocations := nearbyLocations h; watchId := watchId h;
       searchRadius := searchRadius h; locationAddress := locationAddress h;
       isRequestingPermission := isRequestingPermission h;
       manualLatitude := manualLatitude h; manualLongitude := v;
       isLoadingManualLocation := isLoadingManualLocation h |}).

(** The error callback of a one-shot position request, as [afterPosition]
    is its success callback. *)
Definition afterPositionError (t : Task) (e : GeoError) : M Task :=
  match t with AwaitPosition _ ko => ko e | _ => pure Done end.

Section Component.

Variable userData : option UserData.
Variable parseFloat : string -> number.
Variable trim : string -> string.
(** [n.toFixed(6)]. *)
Variable toFixed6 : number -> string.

(** What [fetchCurrentLocation] does once
    [locationApi.getCurrentLocation()] has settled. *)
Definition refreshed (settled : completion (ApiResponse LocationData)) : M unit :=
  match settled with
  | Normal result =>
      match success result, data result with
      | true, Some d =>
          setCurrentLocation (Some d) ;;
          ready <- read (fun w => mapReady (refs w)) ;;
          when ready
            (updateMapMarker userData (userId d)
               {| n_latitude := latitude d; n_longitude := longitude d;
                  n_accuracy := None; n_address := None |}
               (Some (userType d)))
      | _, _ => pure tt
      end
  | Throw (ErrorObj _ text) =>
      when (worthLogging text ["demo mode"])
        (console Warn "Could not fetch current location:")
  | Throw NotAnError => pure tt
  end.

(** [fetchCurrentLocation]: the call, which leaves [refreshed] waiting
    for the answer. *)
Definition fetchCurrentLocation
  : M (completion (ApiResponse LocationData) -> M unit) :=
  perform (Invoke Api.GetCurrentLocation) ;;
  pure refreshed.

Definition getCurrentLocationFromBrowser : M Task :=
  supported <- read (fun w => geolocation (platform w)) ;;
  if negb supported then
    finish (showError (Plain "Geolocation is not supported by your browser"))
  else
  setIsLoadingManualLocation true ;;
  getCurrentPosition
    (fun position =>
      let lat := p_latitude position in
      let lng := p_longitude position in
      let acc := p_accuracy position in
      setManualLatitude (toFixed6 lat) ;;
      setManualLongitude (toFixed6 lng) ;;
      awaitAddress lat lng (fun address =>
        setLocationAddress address ;;
        ready <- read (fun w => mapReady (refs w)) ;;
        when ready (pinSelf userData lat lng) ;;
        recordSelf userData lat lng (Some acc) address ;;
        session <- sessionId ;;
        device <- deviceInfo ;;
        let locationData :=
          {| req_latitude := lat; req_longitude := lng; req_accuracy := Some acc;
             req_altitude := None; req_heading := None; req_speed := None;
             req_address := Some address; req_sessionId := session;
             req_deviceInfo := Some device |} in
        awaitUpdate locationData (fun settled =>
          match settled with
          | Normal result =>
              finish (
                emitIfConnected "location:update" (Some locationData) ;;
                when (negb (success result)
                      && worthLogging (message result)
                           ["timeout"; "TimeoutError"; "demo mode"])
                  (console Warn "Location API unavailable, using local display only") ;;
                setIsLoadingManualLocation false ;;
                showSuccess (Plain "Exact current location retrieved and pinned!"))
          | Throw _ =>
              (* the callback has no [catch]: the rejection ends it *)
              pure Done
          end)))
    (fun error =>
      finish (
        setIsLoadingManualLocation false ;;
        console Error "Geolocation error:" ;;
        showError (Plain (geoErrorText "Unable to retrieve your location"
          "Location permission denied. Please allow location access in your browser settings."
          "Location information unavailable."
          "Location request timed out. Please try again." error)))).

Definition handleGetLocation : M Task :=
  latText <- read (fun w => manualLatitude (hooks w)) ;;
  lngText <- read (fun w => manualLongitude (hooks w)) ;;
  if truthy_str (trim latText) && truthy_str (trim lngText)
  then getLocationFromCoordinates userData parseFloat trim
  else getCurrentLocationFromBrowser.

(** Everything that can happen to the mounted panel: an event of the
    tracking session, or one of the three other buttons.  An answer to
    "Refresh" is not tied to a pending call here, so the runs of [play]
    include every run of the component. *)
Inductive Action : Type :=
| Base (e : Event)
| ClickRefresh
| RefreshSettled (env : Api.Env LocationData)
| ClickGetLocation
| ClickUseCurrentLocation.

Definition act (s : System) (a : Action) : System :=
  match a with
  | Base e => step userData parseFloat trim s e
  | ClickRefresh => exec (fetchCurrentLocation ;; pure tt) s
  | RefreshSettled env =>
      exec (settles (Api.getCurrentLocation env) refreshed) s
  | ClickGetLocation => spawn handleGetLocation s
  | ClickUseCurrentLocation => spawn getCurrentLocationFromBrowser s
  end.

Definition play (s : System) (actions : list Action) : System :=
  fold_left act actions s.

End Component.

(** The handler an action invokes, if it invokes one of the four of the
    tracking session. *)
Definition invokes (s : System) (a : Action) : option Handler :=
  match a with
  | Base (Call h) => Some h
  | Base ClickTracking => trackingButton (world s)
  | _ => None
  end.

Definition stopsTracking (s : System) (a : Action) : bool :=
  match invokes s a with Some StopTracking => true | _ => false end.

End Panel.

(** ** Reading the marker registry and the watch table *)

Module Peers.

Import Analytics.

(** [userId === userData?.id || userId === 'current'], the test of
    [updateMapMarker]. *)
Definition ownId (userData : option UserData) (subject : string) : bool :=
  strict_eq (Some subject) (userData_id userData) || String.eqb subject "current".

(** The marker [updateNearbyMarkers] draws for an entry. *)
Definition markerOf (userData : option UserData) (item : NearbyLocation) : Marker :=
  {| m_latitude := c_latitude (nl_location item);
     m_longitude := c_longitude (nl_location item);
     m_current := ownId userData (nl_userId item) |}.

(** The last entry of a result list that satisfies [p]. *)
Fixpoint lastWhere (p : NearbyLocation -> bool) (locations : list NearbyLocation)
  : option NearbyLocation :=
  match locations with
  | [] => None
  | item :: rest =>
      match lastWhere p rest with
      | Some later => Some later
      | None => if p item then Some item else None
      end
  end.

(** The last entry that names [subject], and the last that names the
    user. *)
Definition lastReport (subject : string) : list NearbyLocation -> option NearbyLocation :=
  lastWhere (fun item => String.eqb (nl_userId item) subject).

Definition lastOwn (userData : option UserData)
  : list NearbyLocation -> option NearbyLocation :=
  lastWhere (fun item => ownId userData (nl_userId item)).

(** The self entry [updateMapMarker] writes for an id it takes for the
    user's: no accuracy, no address. *)
Definition reduced (subject : string) (kind : option string) (lat lng : number)
    (t : string) : LocationData :=
  {| _id := subject; userId := subject; userType := or_str kind "Student";
     latitude := lat; longitude := lng; accuracy := None; address := None;
     isActive := true; lastUpdated := t |}.

(** The id an inbound update is filed under, and the accuracy gate a
    peer's update has to pass. *)
Definition subjectOf (userData : option UserData) (data : LocationUpdate) : string :=
  or_str (or_ostr (u_userId data) (userData_id userData)) "current".

Definition passesGate (location : NestedLocation) : bool :=
  negb (truthy_opt (n_accuracy location)) || lt_opt (n_accuracy location) 1000.

End Peers.

(** ** The footprint of a handler on the watch table *)

Module Session.

Import Analytics.

(** Every stage of a suspended handler, resumed in any world, changes
    the world within [R]. *)
#[warnings="-register-all"]
Inductive Respects (R : World -> World -> Prop) : Task -> Prop :=
| RespectsDone : Respects R Done
| RespectsPosition ok ko :
    (forall p w, R w (snd (ok p w)) /\ Respects R (fst (ok p w))) ->
    (forall e w, R w (snd (ko e w)) /\ Respects R (fst (ko e w))) ->
    Respects R (AwaitPosition ok ko)
| RespectsAddress lat lng k :
    (forall a w, R w (snd (k a w)) /\ Respects R (fst (k a w))) ->
    Respects R (AwaitAddress lat lng k)
| RespectsUpdate d k :
    (forall r w, R w (snd (k r w)) /\ Respects R (fst (k r w))) ->
    Respects R (AwaitUpdate d k)
| RespectsStop k :
    (forall r w, R w (snd (k r w)) /\ Respects R (fst (k r w))) ->
    Respects R (AwaitStop k)
| RespectsNearby lat lng radius k :
    (forall r w, R w (snd (k r w)) /\ Respects R (fst (k r w))) ->
    Respects R (AwaitNearby lat lng radius k).

Definition respectful (R : World -> World -> Prop) (m : M Task) : Prop :=
  forall w, R w (snd (m w)) /\ Respects R (fst (m w)).

(** A self entry, once there, stays. *)
Definition keepsSelf (w w' : World) : Prop :=
  is_Some (currentLocation (hooks w)) -> is_Some (currentLocation (hooks w')).

(** The three things that can happen to the watch table and to the
    [watchId] hook: nothing; a watch is opened under a fresh handle, which
    the hook then holds; the watch the hook holds is cleared. *)
Definition quiet (w w' : World) : Prop :=
  watches (platform w') = watches (platform w)
  /\ nextWatch (platform w') = nextWatch (platform w)
  /\ watchId (hooks w') = watchId (hooks w).

Definition opened (w w' : World) : Prop :=
  watches (platform w') = (watches (platform w) ++ [nextWatch (platform w)])%list
  /\ nextWatch (platform w') = (nextWatch (platform w) + 1)%Z
  /\ watchId (hooks w') = Some (nextWatch (platform w)).

Definition closed (w w' : World) : Prop :=
  exists h,
    watchId (hooks w) = Some h
    /\ watches (platform w')
       = List.filter (fun h' => negb (h' =? h)%Z) (watches (platform w))
    /\ nextWatch (platform w') = nextWatch (platform w)
    /\ watchId (hooks w') = None.

Definition advances (w w' : World) : Prop :=
  keepsSelf w w' /\ (quiet w w' \/ opened w w').

(** A watch that runs in the browser and that the component no longer
    holds the handle of. *)
Definition leaked (h : Z) (w : World) : Prop :=
  In h (watches (platform w)) /\ watchId (hooks w) <> Some h.

(** The handle the component holds is of a running watch; the handles of
    the running watches are distinct and below the next one to be
    issued. *)
Definition handlesSound (w : World) : Prop :=
  (forall h, watchId (hooks w) = Some h -> In h (watches (platform w)))
  /\ Forall (fun h => (h < nextWatch (platform w))%Z) (watches (platform w))
  /\ List.NoDup (watches (platform w)).

End Session.

(** ** What the backend acknowledged *)

Module Delivery.

Import Api.

(** The request was answered by [r] before the timer fired, with an ok
    status and a body that [response.json()] reads as a value other than
    [null]. *)
Definition delivered {T} (env : Env T) (request : Request) (r : Response T) : Prop :=
  exists after,
    fetch env request = Responds after r
    /\ (after < abortAfter request)%Z
    /\ ok r = true
    /\ json r <> Unparsable
    /\ json r <> JsonNull.

End Delivery.

(** ** The student session ([endpoints/student.ts], [App.tsx]) *)

Module Student.

Import Api.

Definition LOGOUT : string := "/api/students/logout".

Section WithEnv.

Context {T : Type}.
Variable env : Env T.

(** [studentApi.logout]: its [catch] does not go through
    [handleNetworkError]. *)
Definition logout : Call (ApiResponse T) :=
  try_catch
    (if isDemoMode env then
       ret {| success := true; message := "Logged out successfully";
              data := None; errors := None |}
     else
       let url := Config.API_BASE_URL ++ LOGOUT in
       bind (fetchWithTimeout env url []
               {| o_method := POST;
                  o_headers := buildHeaders env true "application/json";
                  o_body := None;
                  o_timeout := None |})
            (fun response => handleResponse response))
    (fun _ =>
       ret {| success := true; message := "Logged out from this device";
              data := None; errors := None |}).

End WithEnv.

End Student.

Module App.

(** A value of type [any], as [JSON.parse] produces it. *)
#[warnings="-register-all"]
Inductive Json : Type :=
| JNull
| JBool (b : bool)
| JNumber (n : number)
| JString (s : string)
| JArray (items : list Json)
| JObject (fields : list (string * Json)).

(** The toasts and console lines of [AppContent] (the texts without
    their trailing emoji). *)
Inductive Notice : Type :=
| ShowSuccess (text : string)
| ShowInfo (text : string)
| ConsoleError (text : string).

(** The state hooks of [AppContent]. *)
Record Hooks : Type := {
  currentView : string;
  selectedCourseId : option string;
  isAuthenticated : bool;
  userData : option Json;
  showLogoutModal : bool;
  isLoggingOut : bool
}.

(** The page: its state, [localStorage], and what it has told the user
    and the console. *)
Record Page : Type := {
  hooks : Hooks;
  localStorage : gmap string string;
  notices : list Notice
}.

(** The environment an API call made from the page runs in:
    [getAuthToken] reads [localStorage]. *)
Definition envOf {T} (p : Page) (network : Api.Request -> Api.FetchBehaviour T)
  : Api.Env T :=
  {| Api.authToken := localStorage p !! "authToken"; Api.fetch := network |}.

Section Component.

(** [JSON.parse] ([None] when it throws) and [JSON.stringify]. *)
Variable parse : string -> option Json.
Variable stringify : Json -> string.

(** The first render followed by the mount effect. *)
Definition mount (storage : gmap string string) : Page :=
  let initial :=
    {| currentView := "dashboard"; selectedCourseId := None;
       isAuthenticated := false; userData := None;
       showLogoutModal := false; isLoggingOut := false |} in
  let token := storage !! "authToken" in
  let storedUserData := storage !! "userData" in
  match storedUserData with
  | Some stored =>
      if truthy_ostr token && truthy_str stored then
        match parse stored with
        | Some parsedUserData =>
            {| hooks :=
                 {| currentView := "dashboard"; selectedCourseId := None;
                    isAuthenticated := true; userData := Some parsedUserData;
                    showLogoutModal := false; isLoggingOut := false |};
               localStorage := storage; notices := [] |}
        | None =>
            {| hooks := initial;
               localStorage := delete "userData" (delete "authToken" storage);
               notices := [ConsoleError "Error parsing stored user data:"] |}
        end
      else {| hooks := initial; localStorage := storage; notices := [] |}
  | None => {| hooks := initial; localStorage := storage; notices := [] |}
  end.



(** [handleLogoutConfirm] up to its [await]. *)
Definition handleLogoutConfirm (p : Page) : Page :=
  {| hooks :=
       {| currentView := currentView (hooks p);
          selectedCourseId := selectedCourseId (hooks p);
          isAuthenticated := isAuthenticated (hooks p);
          userData := userData (hooks p);
          showLogoutModal := showLogoutModal (hooks p);
          isLoggingOut := true |};
     localStorage := localStorage p; notices := notices p |}.

(** [handleLogoutConfirm] once [api.logout()] has settled: the [try], the
    [catch] and the [finally]. *)
Definition logoutSettled {T} (settled : completion (ApiResponse T)) (p : Page) : Page :=
  let said :=
    match settled with
    | Normal result =>
        if success result then [ShowSuccess "Logged out successfully!"]
        else [ShowInfo "Logged out from this device"]
    | Throw _ =>
        [ConsoleError "Logout error:"; ShowInfo "Logged out from this device"]
    end in
  {| hooks :=
       {| currentView := "dashboard"; selectedCourseId := None;
          isAuthenticated := false; userData := None;
          showLogoutModal := false; isLoggingOut := false |};
     localStorage := delete "userData" (delete "authToken" (localStorage p));
     notices := (notices p ++ said)%list |}.

End Component.

End App.

(** ** More scenarios *)

Module Walkthrough.

Import Api Analytics Panel Scenario.

(** A stand-in for [toFixed(6)] on the two coordinates used below. *)
Definition fixed (n : number) : string :=
  if (n =? 22.5726)%float then "22.572600"
  else if (n =? 88.3639)%float then "88.363900"
  else "NaN".

(** The student starts tracking and the first fix goes through (task 0);
    [startTracking] is then called a second time (task 1), which opens a
    second watch. *)
Definition firstFix : list Action :=
  [ Base ClickTracking; Base (PositionFound 0 kolkata);
    Base (AddressSettled 0 street); Base (UpdateSettled 0 backend) ].

Definition secondStart : list Action :=
  [ Base (Call StartTracking); Base (PositionFound 1 kolkata);
    Base (AddressSettled 1 street); Base (UpdateSettled 1 backend) ].

(** The student stops (the stop is task [task]), the server confirms over
    the socket, and the student asks for a refresh that times out. *)
Definition stopAndRefresh (task : nat) : list Action :=
  [ Base ClickTracking; Base (StopSettled task stopBackend);
    Base (Receive (LocationStoppedEvent (Some "student-1")));
    ClickRefresh; RefreshSettled (silent (Some "secret")) ].

(** A peer with a sharp fix, and an update that names no user. *)
Definition sharpPeer : LocationUpdate := flat "peer-7" 12.9 77.6 15.

Definition anonymous : LocationUpdate :=
  {| u_userId := None; u_userType := None; u_location := None;
     u_latitude := Some 12.9%float; u_longitude := Some 77.6%float;
     u_accuracy := Some 15%float; u_address := None; u_timestamp := None |}.

Definition reported : NestedLocation :=
  {| n_latitude := 12.9; n_longitude := 77.6; n_accuracy := Some 15%float;
     n_address := None |}.

(** The record the backend holds for the student. *)
Definition serverRecord : LocationData :=
  {| _id := "loc-1"; userId := "student-1"; userType := "Student";
     latitude := 22.5726; longitude := 88.3639; accuracy := Some 15%float;
     address := Some "Park Street, Kolkata"; isActive := true;
     lastUpdated := "2024-01-01T00:00:05.000Z" |}.

Definition refreshedOk : ApiResponse LocationData :=
  {| success := true; message := "Success"; data := Some serverRecord;
     errors := None |}.

End Walkthrough.

(** * Properties of the REST client *)

Section ApiProperties.

Import Api ApiFacts.

Context {T : Type}.
Implicit Types (env : Env T) (op : Operation) (request : Request).

Lemma includes_timeout :
  includes "Request timeout. Please try again." "timeout" = true.
Proof. vm_compute. reflexivity. Qed.

(** What [fetchWithTimeout] comes to: exactly one request, with the
    configured timeout when the caller gives none; the response when it
    arrived in time, a thrown value otherwise, and the timeout error when
    the timer fired. *)
Lemma fetchWithTimeout_cases env u q o :
  let request :=
    {| url := u; query := q; method := o_method o; headers := o_headers o;
       body := o_body o;
       abortAfter := default Config.REQUEST_TIMEOUT (o_timeout o) |} in
  sent (fetchWithTimeout env u q o) = [request] /\
  match settle (abortAfter request) (fetch env request) with
  | Normal r => outcome (fetchWithTimeout env u q o) = Normal r
  | Throw _ => exists e, outcome (fetchWithTimeout env u q o) = Throw e
  end /\
  (timedOut env request = true ->
   outcome (fetchWithTimeout env u q o)
   = Throw (ErrorObj "Error" "Request timeout. Please try again.")).
Proof.
  intro request. unfold fetchWithTimeout, timedOut, settle. fold request.
  destruct (fetch env request) as [after r|after e|]; cbn;
    try destruct (after <? default Config.REQUEST_TIMEOUT (o_timeout o))%Z; cbn;
    try (destruct e as [name msg|]; [destruct (String.eqb name "AbortError")|]; cbn);
    repeat split; eauto; intros; discriminate.
Qed.

Lemma fetchWithTimeout_quiet env u q o :
  logged (fetchWithTimeout env u q o) = [].
Proof.
  unfold fetchWithTimeout, settle.
  destruct (fetch env _) as [after r|after e|]; cbn;
    try destruct (after <? default Config.REQUEST_TIMEOUT (o_timeout o))%Z; cbn;
    try (destruct e as [name msg|]; [destruct (String.eqb name "AbortError")|]; cbn);
    reflexivity.
Qed.

(** Every operation of [locationApi] has one shape: the demo-mode answer,
    or one request whose response goes through [handleResponse], all of it
    inside a [try] whose [catch] is [handleNetworkError]. *)
Lemma locationApi_shape env op :
  exists u q o demo,
    locationApi env op
    = try_catch
        (if isDemoMode env then ret demo
         else bind (fetchWithTimeout env u q o)
                   (fun response => handleResponse response))
        (fun error => handleNetworkError error)
    /\ o_timeout o = None
    /\ o_headers o = buildHeaders env true "application/json"
    /\ includes (message demo) "demo mode" = true
    /\ data demo = None.
Proof.
  destruct op; do 4 eexists; (split; [reflexivity|]);
    repeat split; vm_compute; reflexivity.
Qed.

(** [handleNetworkError] logs the error and returns a failure. *)
Lemma handleNetworkError_fails (e : thrown) :
  exists resp,
    handleNetworkError (T:=T) e = (Normal resp, [], ["Network error:"])
    /\ success resp = false
    /\ message resp <> ""
    /\ data resp = None
    /\ errors resp = Some [].
Proof.
  destruct e as [name msg|]; cbn;
    [destruct (includes msg "timeout"); [|destruct (includes msg "Failed to fetch")]|];
    eexists; (split; [reflexivity|]); cbn; repeat split; discriminate.
Qed.

(** [handleResponse] never throws and sends nothing; it logs exactly when
    the body cannot be read, and reports success exactly when the status
    is ok and the body can be read. *)
Lemma handleResponse_returns (r : Response T) :
  exists resp,
    handleResponse r
    = (Normal resp, [],
       match json r with
       | Unparsable | JsonNull => ["Error parsing response:"]
       | _ => []
       end)
    /\ message resp <> ""
    /\ (success resp = false -> data resp = None /\ is_Some (errors resp))
    /\ match json r with
       | Unparsable | JsonNull =>
           success resp = false /\ message resp = "Failed to parse server response"
       | JsonObject msg payload errs =>
           success resp = ok r
           /\ (ok r = true ->
               data resp = Some payload /\ message resp = or_str msg "Success"
               /\ errors resp = None)
       | JsonValue payload =>
           success resp = ok r
           /\ (ok r = true ->
               data resp = payload /\ message resp = "Success" /\ errors resp = None)
       end.
Proof.
  unfold handleResponse.
  destruct (json r) as [| |msg payload errs|payload]; [| |destruct (ok r)..]; cbn;
    eexists; (split; [reflexivity|]); cbn;
    repeat split; try discriminate; eauto;
    destruct msg as [[|c s]|]; cbn; discriminate.
Qed.

(** C8.  No operation of [locationApi] throws: each returns an
    [ApiResponse].  Every request it puts on the network carries the fixed
    timeout [REQUEST_TIMEOUT]; when the timer fires, the network fails, or
    the body cannot be read as JSON, the response returned is a failure
    ([success = false]) with a message. *)
Theorem locationApi_never_throws env op :
  exists resp,
    outcome (locationApi env op) = Normal resp /\
    Forall (fun request => abortAfter request = Config.REQUEST_TIMEOUT)
           (sent (locationApi env op)) /\
    forall request, In request (sent (locationApi env op)) ->
      (timedOut env request = true ->
         success resp = false /\
         message resp = "Request timeout. Please check your connection and try again.") /\
      (unanswered env request = true -> success resp = false /\ message resp <> "") /\
      (unparsed env request = true ->
         success resp = false /\ message resp = "Failed to parse server response").
Proof.
  destruct (locationApi_shape env op) as (u & q & o & demo & -> & Ht & _).
  pose proof (fetchWithTimeout_cases env u q o) as (Hsent & Hout & Htimer).
  rewrite Ht in Hsent, Hout, Htimer. cbn [default] in Hsent, Hout, Htimer.
  destruct (isDemoMode env).
  { exists demo. cbn. repeat split; try constructor; contradiction. }
  destruct (fetchWithTimeout env u q o) as [[c l] lines].
  unfold sent, outcome in *. cbn [fst snd] in *. subst l.
  unfold unanswered, unparsed.
  destruct c as [r|e]; cbn [bind try_catch].
  - destruct (handleResponse_returns r) as (resp & -> & _ & _ & Hbody).
    cbn [fst snd app]. exists resp. split; [reflexivity|].
    split; [repeat constructor|].
    intros request [<-|[]]. cbn [abortAfter] in *.
    split; [|split]; intro H.
    + apply Htimer in H. discriminate.
    + destruct (settle _ _); [discriminate|]. now destruct Hout.
    + destruct (settle _ _) as [r'|]; [|discriminate].
      injection Hout as <-.
      destruct (json r); try discriminate; exact Hbody.
  - destruct (handleNetworkError_fails e) as (resp & Hcatch & Hfail & Hmsg & _).
    rewrite Hcatch. cbn [fst snd app]. exists resp. split; [reflexivity|].
    split; [repeat constructor|].
    intros request [<-|[]]. cbn [abortAfter] in *.
    split; [|split]; intro H.
    + apply Htimer in H. injection H as ->.
      revert Hcatch. cbn. intros [= <-]. split; reflexivity.
    + split; assumption.
    + destruct (settle _ _); [|discriminate]. discriminate.
Qed.

Lemma isDemoMode_true env :
  authToken env = None \/ authToken env = Some ""
  \/ authToken env = Some Config.DEMO_TOKEN ->
  isDemoMode env = true.
Proof.
  unfold isDemoMode, getAuthToken. intros [-> | [-> | ->]]; reflexivity.
Qed.

Lemma isDemoMode_false env token :
  authToken env = Some token -> token <> "" -> token <> Config.DEMO_TOKEN ->
  isDemoMode env = false
  /\ buildHeaders env true "application/json"
     = [("Content-Type", "application/json"); ("Authorization", "Bearer " ++ token)].
Proof.
  intros Htoken Hnonempty Hreal.
  apply String.eqb_neq in Hreal.
  unfold isDemoMode, buildHeaders, getAuthToken. rewrite Htoken. cbn.
  rewrite Hreal. destruct token; [contradiction|]. split; reflexivity.
Qed.

(** C9, as the code has it.  When the stored token is absent, empty or the
    demo sentinel, the operation answers locally with its demo-mode
    response and puts nothing on the network; with any other token it sends
    one request, which carries [Authorization: Bearer <token>]. *)
Theorem locationApi_demo_or_bearer env op :
  (authToken env = None \/ authToken env = Some ""
   \/ authToken env = Some Config.DEMO_TOKEN ->
   sent (locationApi env op) = [] /\
   exists resp,
     outcome (locationApi env op) = Normal resp /\
     includes (message resp) "demo mode" = true /\ data resp = None)
  /\
  (forall token,
     authToken env = Some token -> token <> "" -> token <> Config.DEMO_TOKEN ->
     exists request,
       sent (locationApi env op) = [request] /\
       header "Authorization" request = Some ("Bearer " ++ token)).
Proof.
  destruct (locationApi_shape env op) as (u & q & o & demo & -> & Ht & Hh & Hmsg & Hdata).
  split.
  - intros Hdemo. rewrite (isDemoMode_true env Hdemo). cbn. eauto.
  - intros token Htoken Hnonempty Hreal.
    destruct (isDemoMode_false env token Htoken Hnonempty Hreal) as [-> Hheaders].
    pose proof (fetchWithTimeout_cases env u q o) as (Hsent & _ & _).
    destruct (fetchWithTimeout env u q o) as [[c l] lines].
    unfold sent in *. cbn [fst snd] in Hsent. subst l.
    eexists. split.
    + destruct c as [r|e]; cbn [bind try_catch].
      * destruct (handleResponse_returns r) as (resp & -> & _). reflexivity.
      * destruct (handleNetworkError_fails e) as (resp & -> & _). reflexivity.
    + unfold header. cbn [headers]. rewrite Hh, Hheaders. reflexivity.
Qed.

(** What an operation comes to: it returns; in demo mode it sends and
    logs nothing; otherwise what it logged is one of the client's two
    lines, or nothing, and nothing when it reports success. *)
Lemma locationApi_returns env op :
  exists resp,
    outcome (locationApi env op) = Normal resp
    /\ (isDemoMode env = true ->
        sent (locationApi env op) = [] /\ logged (locationApi env op) = [])
    /\ (success resp = true -> logged (locationApi env op) = [])
    /\ (logged (locationApi env op) = []
        \/ logged (locationApi env op) = ["Network error:"]
        \/ logged (locationApi env op) = ["Error parsing response:"]).
Proof.
  destruct (locationApi_shape env op) as (u & q & o & demo & -> & _).
  pose proof (fetchWithTimeout_quiet env u q o) as Hquiet.
  destruct (isDemoMode env).
  { exists demo. cbn. auto. }
  destruct (fetchWithTimeout env u q o) as [[[r|e] l] lines];
    unfold logged in Hquiet; cbn [snd] in Hquiet; subst lines;
    cbn [bind try_catch].
  - destruct (handleResponse_returns r) as (resp & -> & _ & _ & Hbody).
    exists resp. cbn. split; [reflexivity|]. split; [discriminate|].
    destruct (json r); split; auto; intros Hok; destruct Hbody; congruence.
  - destruct (handleNetworkError_fails e) as (resp & -> & Hfail & _).
    exists resp. cbn. split; [reflexivity|]. split; [discriminate|].
    split; [congruence | auto].
Qed.

End ApiProperties.

Section ApiExamples.

Import Api ApiFacts Scenario.

(** A backend that never answers: the timer fires after thirty seconds
    and the update comes back as a failure, not as an exception. *)
Lemma updateLocation_silent_backend :
  exists resp,
    outcome (updateLocation (silent (T:=UpdateLocationResponse) (Some "secret"))
               sampleUpdate)
    = Normal resp /\
    success resp = false /\
    message resp = "Request timeout. Please check your connection and try again.".
Proof.
  destruct (locationApi_never_throws (T:=UpdateLocationResponse)
              (silent (Some "secret")) (UpdateLocation sampleUpdate))
    as (resp & Hout & _ & Hfail).
  exists resp. split; [exact Hout|].
  apply (Hfail
    {| url := Config.API_BASE_URL ++ Config.LOCATION.UPDATE; query := [];
       method := POST;
       headers := [("Content-Type", "application/json");
                   ("Authorization", "Bearer secret")];
       body := Some sampleUpdate; abortAfter := 30000 |}).
  - left. reflexivity.
  - reflexivity.
Defined.

(** A network that is down, and an answer that is not JSON, come back as
    failures too. *)
Lemma updateLocation_offline_or_garbled :
  outcome (updateLocation (offline (T:=UpdateLocationResponse) (Some "secret"))
             sampleUpdate)
  = Normal {| success := false;
              message := "Network error. Please check your internet connection.";
              data := None; errors := Some [] |}
  /\ outcome (updateLocation (answering (Some "secret") 120 garbled) sampleUpdate)
     = Normal {| success := false; message := "Failed to parse server response";
                 data := None; errors := Some [] |}.
Proof. split; vm_compute; reflexivity. Qed.

(** A real token is sent as a bearer credential; the demo token is not
    sent at all. *)
Lemma bearer_or_demo_example :
  (exists request,
     sent (updateLocation (silent (T:=UpdateLocationResponse) (Some "secret")) sampleUpdate)
     = [request] /\
     header "Authorization" request = Some "Bearer secret")
  /\ sent (updateLocation (silent (T:=UpdateLocationResponse) (Some "demo-token")) sampleUpdate)
     = [].
Proof.
  split.
  - apply (proj2 (locationApi_demo_or_bearer (T:=UpdateLocationResponse)
                    (silent (Some "secret"))
                    (UpdateLocation sampleUpdate)) "secret");
      [reflexivity | discriminate | discriminate].
  - apply (proj1 (locationApi_demo_or_bearer (T:=UpdateLocationResponse)
                    (silent (Some "demo-token"))
                    (UpdateLocation sampleUpdate))).
    right; right; reflexivity.
Defined.

(** C9 as stated fails: a token that is not the demo sentinel does not
    always put a bearer header on the wire.  With no token stored, or an
    empty one, the update is answered locally and no request (hence no
    header) is sent. *)
Lemma no_token_no_bearer_header :
  authToken (silent (T:=UpdateLocationResponse) None) <> Some Config.DEMO_TOKEN
  /\ sent (updateLocation (silent (T:=UpdateLocationResponse) None) sampleUpdate) = []
  /\ authToken (silent (T:=UpdateLocationResponse) (Some "")) <> Some Config.DEMO_TOKEN
  /\ sent (updateLocation (silent (T:=UpdateLocationResponse) (Some "")) sampleUpdate) = [].
Proof.
  repeat split; discriminate.
Qed.

End ApiExamples.

(** * Properties of the component *)

Section NumberFacts.

(** IEEE comparison is antisymmetric on the specification side. *)
Lemma SFcompare_antisym (x y : spec_float) :
  SFcompare y x = option_map CompOpp (SFcompare x y).
Proof.
  destruct x as [sx|sx| |sx mx ex], y as [sy|sy| |sy my ey]; simpl;
    try reflexivity; try (destruct sx; reflexivity); try (destruct sy; reflexivity);
    try (destruct sx, sy; reflexivity).
  destruct sx, sy; simpl; try reflexivity;
    rewrite (Z.compare_antisym ex ey); destruct (ex ?= ey)%Z; simpl; try reflexivity;
    f_equal; generalize (Pos.compare_cont_antisym mx my Eq); simpl;
    destruct (Pos.compare_cont Eq mx my), (Pos.compare_cont Eq my mx);
    simpl; congruence.
Qed.

Lemma lt_asym (a b : number) : lt a b = true -> lt b a = false.
Proof.
  unfold lt. rewrite !FloatAxioms.ltb_spec. unfold SFltb.
  rewrite (SFcompare_antisym (Prim2SF a) (Prim2SF b)).
  destruct (SFcompare (Prim2SF a) (Prim2SF b)) as [[]|]; simpl; congruence.
Qed.

(** A number above 1000 is neither zero nor [NaN]. *)
Lemma gt_1000_truthy (a : number) : gt a 1000 = true -> truthy a = true.
Proof.
  unfold gt, truthy, is_zero, is_nan.
  rewrite FloatAxioms.ltb_spec, !FloatAxioms.eqb_spec.
  unfold SFltb, SFeqb.
  replace (Prim2SF 1000) with (S754_finite false 8796093022208000 (-43)) by reflexivity.
  replace (Prim2SF zero) with (S754_zero false) by reflexivity.
  destruct (Prim2SF a) as [s|s| |s m e]; simpl; try congruence;
    try (destruct s; simpl; congruence).
  destruct s; simpl; try congruence.
  intros _. rewrite Z.compare_refl.
  change (PosDef.Pos.compare_cont Eq m m) with (Pos.compare m m).
  now rewrite Pos.compare_refl.
Qed.

Lemma gt_1000_not_lt (a : number) : gt a 1000 = true -> lt a 1000 = false.
Proof. apply lt_asym. Qed.

Lemma zero_falsy (a : number) : is_zero a = true -> truthy a = false.
Proof. unfold truthy. now intros ->. Qed.

End NumberFacts.

(** Runs the state-transformer plumbing of a handler applied to a world,
    leaving the values it computes untouched. *)
Ltac run_handler :=
  cbv beta iota zeta delta
    [Analytics.andThen Analytics.pure Analytics.read Analytics.when
     Analytics.finish Analytics.withHooks Analytics.withRefs
     Analytics.withPlatform Analytics.perform Analytics.setCurrentLocation
     Analytics.setIsTracking Analytics.setNearbyLocations Analytics.setWatchId
     Analytics.setLocationAddress Analytics.setIsRequestingPermission
     Analytics.setIsLoadingManualLocation Analytics.placeMarker
     Analytics.setView Analytics.showSuccess Analytics.showError
     Analytics.console Analytics.clientConsole Analytics.settles
     Analytics.emitIfConnected Analytics.sessionId
     Analytics.now Analytics.watchPosition Analytics.clearWatch
     Analytics.deviceInfo Analytics.recordSelf Analytics.pinSelf
     Analytics.awaitAddress Analytics.awaitUpdate Analytics.awaitStop
     Analytics.awaitNearby Analytics.getCurrentPosition
     Analytics.hooks Analytics.refs Analytics.platform Analytics.trace
     Analytics.world Analytics.inflight fst snd negb].

Section PushChannel.

Import Analytics Scenario.

Variable userData : option UserData.
Variable parseFloat : string -> number.
Variable trim : string -> string.

Local Abbreviation step := (step userData parseFloat trim).

(** The accuracy the gate looks at is the accuracy field of the event. *)
Lemma locationOf_accuracy data location :
  locationOf data = Some location -> n_accuracy location = accuracyOf data.
Proof.
  unfold locationOf, accuracyOf.
  destruct (u_location data) as [l|]; [now intros [= ->]|].
  destruct (u_latitude data) as [lat|], (u_longitude data) as [lng|];
    try discriminate.
  destruct (truthy lat && truthy lng); [now intros [= <-]|discriminate].
Qed.

Lemma exec_nothing (s : System) : exec (pure tt) s = s.
Proof. now destruct s. Qed.

(** C1.  An update about somebody else whose accuracy is present and worse
    than 1000 m is dropped: the marker registry (no marker is created or
    moved), the rest of the refs and the whole React state stay as they
    were, and nothing is left in flight. *)
Theorem poor_peer_update_discarded (s : System) (data : LocationUpdate) (a : number) :
  isCurrentUser userData data = false ->
  accuracyOf data = Some a ->
  gt a 1000 = true ->
  let s' := step s (Receive (LocationUpdateEvent data)) in
  (forall subject : string,
     markers (refs (world s')) !! subject = markers (refs (world s)) !! subject)
  /\ refs (world s') = refs (world s)
  /\ hooks (world s') = hooks (world s)
  /\ inflight s' = inflight s.
Proof.
  intros Hpeer Hacc Hpoor. unfold Analytics.step, exec, onLocationUpdate.
  cbn [world inflight].
  destruct (locationOf data) as [location|] eqn:Hloc; [|repeat split].
  rewrite (locationOf_accuracy _ _ Hloc), Hacc, Hpeer.
  cbn [truthy_opt lt_opt].
  rewrite (gt_1000_truthy a Hpoor), (gt_1000_not_lt a Hpoor).
  repeat split.
Qed.

(** C10.  An update in the flat shape whose latitude or longitude is zero
    carries no location as far as the handler can tell, and changes
    nothing at all. *)
Theorem flat_zero_coordinate_ignored (s : System) (data : LocationUpdate) :
  u_location data = None ->
  (exists lat, u_latitude data = Some lat /\ is_zero lat = true)
  \/ (exists lng, u_longitude data = Some lng /\ is_zero lng = true) ->
  step s (Receive (LocationUpdateEvent data)) = s.
Proof.
  intros Hflat Hzero. unfold Analytics.step.
  assert (locationOf data = None) as Hnone.
  { unfold locationOf. rewrite Hflat.
    destruct Hzero as [(lat & -> & Hz) | (lng & -> & Hz)];
      [destruct (u_longitude data) | destruct (u_latitude data)];
      rewrite ?(zero_falsy _ Hz), ?andb_false_r; reflexivity. }
  unfold onLocationUpdate. rewrite Hnone. apply exec_nothing.
Qed.

(** What the handler does with an update about the current user that
    carries a location (a nested location object, or flat coordinates that
    are both truthy): it is applied whatever its accuracy: the self entry
    becomes the reported position, the marker is pinned there when the map
    is up, and the only toast is the low-accuracy warning, shown exactly
    when the accuracy is above 1000 m. *)
Theorem self_update_applied (s : System) (data : LocationUpdate)
    (location : NestedLocation) :
  isCurrentUser userData data = true ->
  locationOf data = Some location ->
  let s' := step s (Receive (LocationUpdateEvent data)) in
  let subject := or_str (or_ostr (u_userId data) (userData_id userData)) "current" in
  currentLocation (hooks (world s'))
  = Some {| _id := subject; userId := subject;
            userType := or_str (u_userType data) "Student";
            latitude := n_latitude location; longitude := n_longitude location;
            accuracy := n_accuracy location; address := n_address location;
            isActive := true;
            lastUpdated := or_str (u_timestamp data) (clock (platform (world s))) |}
  /\ markers (refs (world s'))
     = (if mapReady (refs (world s)) then
          <[subject :=
              {| m_latitude := n_latitude location;
                 m_longitude := n_longitude location;
                 m_current := strict_eq (Some subject) (userData_id userData)
                              || String.eqb subject "current" |}]>
            (markers (refs (world s)))
        else markers (refs (world s)))
  /\ trace (world s')
     = (trace (world s)
        ++ match n_accuracy location with
           | Some a => if gt a 1000 then [ShowError (LowAccuracy a)] else []
           | None => []
           end)%list.
Proof.
  intros Hself Hloc. unfold Analytics.step, exec, onLocationUpdate.
  rewrite Hloc, Hself. cbn [orb world inflight].
  set (subject := or_str (or_ostr (u_userId data) (userData_id userData)) "current").
  unfold updateMapMarker.
  set (mine := strict_eq (Some subject) (userData_id userData) || String.eqb subject "current").
  assert (forall a, truthy a && gt a 1000 = gt a 1000) as Hwarn.
  { intro a. destruct (gt a 1000) eqn:Hgt; [|apply andb_false_r].
    now rewrite (gt_1000_truthy a Hgt). }
  destruct s as [[h r pl tr] tasks]. cbn [world hooks refs platform trace].
  destruct (n_accuracy location) as [a|]; [rewrite (Hwarn a); destruct (gt a 1000)|];
    destruct (mapReady r) eqn:Hready, mine, (n_address location) as [[|c addr]|];
    run_handler; rewrite ?Hready; cbn; rewrite ?app_nil_r; repeat split.
Qed.

End PushChannel.

Section PushChannelExamples.

Import Analytics Scenario.

Local Abbreviation receive data :=
  (step student readInteger asTyped (mounted true live)
        (Receive (LocationUpdateEvent data))).

(** A peer that reports 1500 m accuracy before it was ever seen gets no
    marker. *)
Lemma poor_peer_not_created :
  isCurrentUser student poorPeer = false
  /\ markers (refs (world (receive poorPeer))) !! "peer-7" = None
  /\ currentLocation (hooks (world (receive poorPeer))) = None.
Proof.
  destruct (poor_peer_update_discarded student readInteger asTyped
              (mounted true live) poorPeer 1500 eq_refl eq_refl eq_refl)
    as (Hmarkers & _ & Hhooks & _).
  split; [reflexivity|]. split.
  - rewrite Hmarkers. reflexivity.
  - rewrite Hhooks. reflexivity.
Defined.

(** A peer on the prime meridian is not shown. *)
Lemma meridian_peer_ignored : receive meridianPeer = mounted true live.
Proof.
  apply (flat_zero_coordinate_ignored student readInteger asTyped
           (mounted true live) meridianPeer); [reflexivity|].
  right. exists 0%float. split; reflexivity.
Defined.

(** The student's own fix is recorded; the toast appears for the coarse
    fix and not for the sharp one. *)
Lemma self_update_examples :
  currentLocation (hooks (world (receive sharpSelf)))
  = Some {| _id := "student-1"; userId := "student-1"; userType := "Student";
            latitude := 22.5726; longitude := 88.3639; accuracy := Some 15%float;
            address := None; isActive := true;
            lastUpdated := "2024-01-01T00:00:00.000Z" |}
  /\ trace (world (receive sharpSelf)) = []
  /\ trace (world (receive coarseSelf)) = [ShowError (LowAccuracy 2500)].
Proof.
  destruct (self_update_applied student readInteger asTyped (mounted true live)
              sharpSelf _ eq_refl eq_refl) as (Hself & _ & Htrace).
  destruct (self_update_applied student readInteger asTyped (mounted true live)
              coarseSelf _ eq_refl eq_refl) as (_ & _ & Hcoarse).
  split; [exact Hself | split; [exact Htrace | exact Hcoarse]].
Defined.

(** C2.  An update about the current user is to be applied whatever its
    accuracy, with a warning exactly above 1000 m.  The code misses this
    for the flat shape with latitude 0: the test [data.latitude &&
    data.longitude] takes the coordinate 0 for a missing one, so the event
    is dropped before the accuracy is looked at, the self entry is not set
    and, although the accuracy is 1500 m, no warning is shown.  The same
    report in the nested shape is applied and warned about. *)
Lemma equator_self_update_dropped :
  (isCurrentUser student equatorSelf = true
   /\ accuracyOf equatorSelf = Some 1500%float
   /\ currentLocation (hooks (world (receive equatorSelf))) = None
   /\ trace (world (receive equatorSelf)) = []
   /\ receive equatorSelf = mounted true live)
  /\ (isCurrentUser student equatorSelfNested = true
      /\ accuracyOf equatorSelfNested = Some 1500%float
      /\ latitude <$> currentLocation (hooks (world (receive equatorSelfNested)))
         = Some 0%float
      /\ trace (world (receive equatorSelfNested)) = [ShowError (LowAccuracy 1500)]).
Proof. repeat split. Qed.

End PushChannelExamples.

Section UserActions.

Import Analytics Scenario.

Variable userData : option UserData.
Variable parseFloat : string -> number.
Variable trim : string -> string.

Local Abbreviation step := (step userData parseFloat trim).

(** C7.  [searchNearby] leaves the peers (markers and nearby list) and
    the rest of the state alone when it is called.  Without a self
    position it shows the error and stops, having asked nothing of the
    backend; with one it invokes the proximity query around that position
    and waits. *)
Theorem searchNearby_requires_position (s : System) :
  let s' := step s (Call SearchNearby) in
  hooks (world s') = hooks (world s)
  /\ refs (world s') = refs (world s)
  /\ match currentLocation (hooks (world s)) with
     | None =>
         trace (world s')
         = (trace (world s)
            ++ [ShowError (Plain "Please start location tracking first")])%list
         /\ inflight s' = (inflight s ++ [Done])%list
     | Some here =>
         let radius := searchRadius (hooks (world s)) in
         trace (world s')
         = (trace (world s)
            ++ [Invoke (Api.GetNearbyLocations (latitude here) (longitude here)
                          radius None true)])%list
         /\ exists k,
              inflight s'
              = (inflight s
                 ++ [AwaitNearby (latitude here) (longitude here) radius k])%list
     end.
Proof.
  destruct s as [[h r pl tr] tasks].
  unfold Analytics.step, handler, spawn, searchNearby. run_handler.
  destruct (currentLocation h) as [here|]; cbn; eauto 6.
Qed.

(** C6.  Manual coordinates out of range are refused with one of the
    validation texts, before anything else happens: no state changes, the
    geocoder and the REST client are not called and nothing is left
    waiting.  Every other pair of numbers is accepted, and so is each
    boundary value, -90 and 90 for the latitude, -180 and 180 for the
    longitude, whatever valid value the other coordinate has: the handler
    goes on to look the address up and, once it has it and the map is up,
    records the position. *)
Theorem manual_position_validated (s : System) (lat lng : number) :
  parseFloat (trim (manualLatitude (hooks (world s)))) = lat ->
  parseFloat (trim (manualLongitude (hooks (world s)))) = lng ->
  let s' := step s (Call GetLocationFromCoordinates) in
  ((lt lat (-90) || gt lat 90) || (lt lng (-180) || gt lng 180) = true ->
   (exists text,
      In text invalidCoordinate
      /\ trace (world s') = (trace (world s) ++ [ShowError (Plain text)])%list)
   /\ hooks (world s') = hooks (world s)
   /\ refs (world s') = refs (world s)
   /\ inflight s' = (inflight s ++ [Done])%list)
  /\
  ((lat = (-90)%float \/ lat = 90%float
    \/ (is_nan lat = false /\ lt lat (-90) || gt lat 90 = false)) ->
   (lng = (-180)%float \/ lng = 180%float
    \/ (is_nan lng = false /\ lt lng (-180) || gt lng 180 = false)) ->
   trace (world s') = (trace (world s) ++ [ReverseGeocode lat lng])%list
   /\ exists k,
        inflight s' = (inflight s ++ [AwaitAddress lat lng k])%list
        /\ forall (address : string) (w : World),
             mapReady (refs w) = true ->
             currentLocation (hooks (snd (k address w)))
             = Some (selfLocation userData lat lng None address (clock (platform w)))).
Proof.
  intros Hlat Hlng. destruct s as [[h r pl tr] tasks].
  unfold Analytics.step, handler, spawn, getLocationFromCoordinates.
  cbn [world hooks] in Hlat, Hlng. run_handler. rewrite Hlat, Hlng.
  split.
  - intros Hout. unfold invalidCoordinate.
    destruct (is_nan lat || is_nan lng);
      [|destruct (lt lat (-90) || gt lat 90);
        [|destruct (lt lng (-180) || gt lng 180); [|discriminate]]];
      cbn; repeat split; eexists; (split; [|reflexivity]); cbn; tauto.
  - intros Hlat' Hlng'.
    assert (is_nan lat || is_nan lng = false
            /\ lt lat (-90) || gt lat 90 = false
            /\ lt lng (-180) || gt lng 180 = false) as (-> & -> & ->).
    { destruct Hlat' as [-> | [-> | [Hn Hr]]], Hlng' as [-> | [-> | [Hn' Hr']]];
        rewrite ?Hn, ?Hn', ?Hr, ?Hr'; repeat split. }
    cbn. split; [reflexivity|]. eexists. split; [reflexivity|].
    intros address [h' r' pl' tr'] Hready. cbn in Hready. run_handler.
    rewrite Hready. reflexivity.
Qed.

End UserActions.

Section Tracking.

Import Analytics Scenario.

Variable userData : option UserData.
Variable parseFloat : string -> number.
Variable trim : string -> string.

Local Abbreviation step := (step userData parseFloat trim).

(** The three stages of the watch callback.  Stage one asks for the
    address.  Stage two, run in [w1] when the address is there, issues the
    REST update and touches neither the self entry nor the socket.  Stage
    three, run in [w2] when the REST call has settled (in whatever way),
    records the fix as the self entry, emits it when the socket is
    connected, and ends; it reads nothing of the session state and leaves
    it as it finds it. *)
Lemma onWatchPosition_stages (p : Position) (address : string)
    (settled : completion (ApiResponse UpdateLocationResponse)) (w0 w1 w2 : World) :
  let '(t0, wa) := onWatchPosition userData p w0 in
  let '(t1, wb) := afterAddress t0 address w1 in
  let '(t2, wc) := afterUpdate t1 settled w2 in
  (hooks wa = hooks w0
   /\ trace wa = (trace w0 ++ [ReverseGeocode (p_latitude p) (p_longitude p)])%list)
  /\ (updateInFlight t1 = Some (reportOf p address w1)
      /\ trace wb = (trace w1 ++ [Invoke (Api.UpdateLocation (reportOf p address w1))])%list
      /\ currentLocation (hooks wb) = currentLocation (hooks w1))
  /\ (t2 = Done
      /\ currentLocation (hooks wc)
         = Some (selfLocation userData (p_latitude p) (p_longitude p)
                   (Some (p_accuracy p)) address (clock (platform w2)))
      /\ emits wc
         = (emits w2
            ++ if socketConnected w2
               then [Emit "location:update" (Some (reportOf p address w1))]
               else [])%list
      /\ isTracking (hooks wc) = isTracking (hooks w2)
      /\ watchId (hooks wc) = watchId (hooks w2)
      /\ platform wc = platform w2).
Proof.
  destruct w0 as [h0 r0 pl0 tr0], w1 as [h1 r1 pl1 tr1], w2 as [h2 r2 pl2 tr2].
  unfold onWatchPosition, afterAddress, afterUpdate, socketConnected, reportOf.
  run_handler.
  destruct (mapReady r1); [destruct (markers r1 !! selfId userData)|];
    run_handler;
    (destruct settled as [result|[name text|]];
     [destruct (success result)| |]);
    run_handler;
    destruct (socket r2) as [[[] sid2]|];
    run_handler;
    try destruct (worthLogging text _);
    run_handler;
    cbn [currentLocation isTracking watchId socket connected updateInFlight];
    unfold emits; cbn [trace];
    rewrite <- ?app_assoc, ?List.filter_app; cbn [List.filter isEmit app];
    rewrite ?app_nil_r;
    repeat split.
Qed.

(** The stages of [startTracking]: the call itself, which only asks for a
    one-shot fix, and the three stages of its success callback, which
    follow the watch callback's and end by opening a watch. *)
Lemma startTracking_stages (p : Position) (address : string)
    (settled : completion (ApiResponse UpdateLocationResponse))
    (w wp w1 w2 : World) :
  geolocation (platform w) = true ->
  let '(t, ws) := startTracking userData w in
  let '(t0, wa) := afterPosition t p wp in
  let '(t1, wb) := afterAddress t0 address w1 in
  let '(t2, wc) := afterUpdate t1 settled w2 in
  ((exists ok ko, t = AwaitPosition ok ko)
   /\ trace ws = (trace w ++ [GetCurrentPosition])%list
   /\ isRequestingPermission (hooks ws) = true)
  /\ (isTracking (hooks wa) = true
      /\ isRequestingPermission (hooks wa) = false
      /\ currentLocation (hooks wa) = currentLocation (hooks wp)
      /\ trace wa = (trace wp ++ [ReverseGeocode (p_latitude p) (p_longitude p)])%list)
  /\ (updateInFlight t1 = Some (reportOf p address w1)
      /\ trace wb = (trace w1 ++ [Invoke (Api.UpdateLocation (reportOf p address w1))])%list
      /\ currentLocation (hooks wb) = currentLocation (hooks w1))
  /\ (t2 = Done
      /\ currentLocation (hooks wc)
         = Some (selfLocation userData (p_latitude p) (p_longitude p)
                   (Some (p_accuracy p)) address (clock (platform w2)))
      /\ emits wc
         = (emits w2
            ++ if socketConnected w2
               then [Emit "location:update" (Some (reportOf p address w1))]
               else [])%list
      /\ watches (platform wc) = (watches (platform w2) ++ [nextWatch (platform w2)])%list
      /\ watchId (hooks wc) = Some (nextWatch (platform w2))).
Proof.
  destruct w as [h r pl tr], wp as [hp rp plp trp], w1 as [h1 r1 pl1 tr1],
    w2 as [h2 r2 pl2 tr2].
  cbn [platform]. intros Hgeo.
  unfold startTracking, afterPosition, afterAddress, afterUpdate, socketConnected,
    reportOf.
  run_handler. rewrite Hgeo. run_handler.
  destruct (mapReady r1); run_handler;
    (destruct settled as [result|[name text|]];
     [destruct (success result)| |]);
    run_handler;
    destruct (socket r2) as [[[] sid2]|];
    run_handler;
    try destruct (worthLogging _ _);
    run_handler;
    cbn [currentLocation isTracking watchId socket connected updateInFlight
         watches nextWatch andb];
    unfold emits; cbn [trace];
    rewrite <- ?app_assoc, ?List.filter_app; cbn [List.filter isEmit app];
    rewrite ?app_nil_r;
    repeat split; eauto.
Qed.




(** The guard against a second start is the
    tracking button, which never dispatches to [startTracking] while
    tracking is on or permission is being requested.  [startTracking]
    itself checks nothing: whatever the session state, a call asks for a
    fix, and when the fix has gone through its three stages a new watch is
    opened next to those already running and its handle overwrites
    [watchId]. *)
Theorem startTracking_not_guarded (s : System) (p : Position) (address : string)
    (settled : completion (ApiResponse UpdateLocationResponse)) (wp w1 w2 : World) :
  geolocation (platform (world s)) = true ->
  (isTracking (hooks (world s)) = true
   \/ isRequestingPermission (hooks (world s)) = true ->
   trackingButton (world s) <> Some StartTracking)
  /\
  let s' := step s (Call StartTracking) in
  trace (world s') = (trace (world s) ++ [GetCurrentPosition])%list
  /\ exists t,
       inflight s' = (inflight s ++ [t])%list
       /\ let '(t0, _) := afterPosition t p wp in
          let '(t1, _) := afterAddress t0 address w1 in
          let '(_, wc) := afterUpdate t1 settled w2 in
          watches (platform wc)
          = (watches (platform w2) ++ [nextWatch (platform w2)])%list
          /\ watchId (hooks wc) = Some (nextWatch (platform w2)).
Proof.
  intros Hgeo. split.
  - unfold trackingButton.
    intros [-> | ->]; [destruct (isRequestingPermission _)|]; discriminate.
  - pose proof (startTracking_stages p address settled (world s) wp w1 w2 Hgeo)
      as Hstages.
    unfold Analytics.step, handler, spawn.
    destruct (startTracking userData (world s)) as [t ws]. cbn [world inflight].
    cut (trace ws = (trace (world s) ++ [GetCurrentPosition])%list
         /\ let '(t0, _) := afterPosition t p wp in
            let '(t1, _) := afterAddress t0 address w1 in
            let '(_, wc) := afterUpdate t1 settled w2 in
            watches (platform wc)
            = (watches (platform w2) ++ [nextWatch (platform w2)])%list
            /\ watchId (hooks wc) = Some (nextWatch (platform w2))).
    { intros [Htrace Hwatch]. split; [exact Htrace|]. exists t. split; trivial. }
    destruct (afterPosition t p wp) as [t0 wa].
    destruct (afterAddress t0 address w1) as [t1 wb].
    destruct (afterUpdate t1 settled w2) as [t2 wc].
    destruct Hstages as ((_ & Htrace & _) & _ & _ & _ & _ & _ & Hwatches & Hwatch).
    auto.
Qed.

(** C5, as the code has it.  A self fix is not propagated to the two
    channels side by side.  For the first fix of [startTracking] and for
    every fix of the watch alike: with the address in hand the handler
    invokes the REST update and suspends, having neither set the self
    entry nor emitted anything; only when the REST call has settled does
    it set the self entry and, if the socket is connected, emit the
    update.  It does so however the call settled (success, failure
    response or exception), so a REST failure neither prevents nor undoes
    the local update and the emit. *)
Theorem fix_propagation_is_sequential (p : Position) (address : string)
    (settled : completion (ApiResponse UpdateLocationResponse))
    (w wp w1 w2 : World) :
  geolocation (platform w) = true ->
  (let '(t0, _) := onWatchPosition userData p wp in
   let '(t1, wb) := afterAddress t0 address w1 in
   let '(_, wc) := afterUpdate t1 settled w2 in
   (updateInFlight t1 = Some (reportOf p address w1)
    /\ emits wb = emits w1
    /\ currentLocation (hooks wb) = currentLocation (hooks w1))
   /\ currentLocation (hooks wc)
      = Some (selfLocation userData (p_latitude p) (p_longitude p)
                (Some (p_accuracy p)) address (clock (platform w2)))
   /\ emits wc
      = (emits w2
         ++ if socketConnected w2
            then [Emit "location:update" (Some (reportOf p address w1))]
            else [])%list)
  /\
  (let '(t, _) := startTracking userData w in
   let '(t0, _) := afterPosition t p wp in
   let '(t1, wb) := afterAddress t0 address w1 in
   let '(_, wc) := afterUpdate t1 settled w2 in
   (updateInFlight t1 = Some (reportOf p address w1)
    /\ emits wb = emits w1
    /\ currentLocation (hooks wb) = currentLocation (hooks w1))
   /\ currentLocation (hooks wc)
      = Some (selfLocation userData (p_latitude p) (p_longitude p)
                (Some (p_accuracy p)) address (clock (platform w2)))
   /\ emits wc
      = (emits w2
         ++ if socketConnected w2
            then [Emit "location:update" (Some (reportOf p address w1))]
            else [])%list).
Proof.
  intros Hgeo.
  assert (forall wa wb : World, forall e : Effect,
            isEmit e = false -> trace wb = (trace wa ++ [e])%list ->
            emits wb = emits wa) as Hquiet.
  { intros wa wb e He Htr. unfold emits. rewrite Htr, List.filter_app. cbn.
    rewrite He. apply app_nil_r. }
  split.
  - pose proof (onWatchPosition_stages p address settled wp w1 w2) as Hstages.
    destruct (onWatchPosition userData p wp) as [t0 wa].
    destruct (afterAddress t0 address w1) as [t1 wb].
    destruct (afterUpdate t1 settled w2) as [t2 wc].
    destruct Hstages as (_ & (Hreq & Htrace & Hkept) & _ & Hself & Hemit & _).
    repeat split; trivial. eapply Hquiet; [|exact Htrace]. reflexivity.
  - pose proof (startTracking_stages p address settled w wp w1 w2 Hgeo) as Hstages.
    destruct (startTracking userData w) as [t ws].
    destruct (afterPosition t p wp) as [t0 wa].
    destruct (afterAddress t0 address w1) as [t1 wb].
    destruct (afterUpdate t1 settled w2) as [t2 wc].
    destruct Hstages as (_ & _ & (Hreq & Htrace & Hkept) & _ & Hself & Hemit & _).
    repeat split; trivial. eapply Hquiet; [|exact Htrace]. reflexivity.
Qed.

End Tracking.

Section TrackingExamples.

Import Analytics Scenario.



(** The same through the events of a session: the student stops while
    the update of the first fix is in flight; when its answer arrives
    after the stop, tracking stays off, yet a watch is opened and its
    handle stored. *)
Lemma late_first_fix_opens_the_watch :
  (isTracking (hooks (world stoppedEarly)) = false
   /\ watchId (hooks (world stoppedEarly)) = None
   /\ watches (platform (world stoppedEarly)) = []
   /\ currentLocation (hooks (world stoppedEarly)) = None)
  /\ (isTracking (hooks (world lateFirstFix)) = false
      /\ watchId (hooks (world lateFirstFix)) = Some 1%Z
      /\ watches (platform (world lateFirstFix)) = [1%Z]
      /\ latitude <$> currentLocation (hooks (world lateFirstFix))
         = Some 22.5726%float).
Proof. repeat split; vm_compute; reflexivity. Qed.

(** C4.  A second [startTracking] with no [stopTracking] in between is
    to leave at most one geolocation watch.  The button keeps the student
    from starting twice while [isTracking] is true, but the error callback
    of the watch sets [isTracking] to false without clearing the watch, as
    [stopTracking] does: after a watch timeout the button offers "Start"
    again while watch 1 is still running, and the second start, through
    the button alone, leaves two watches, of which [watchId] names only
    the second.  [stopTracking] was never called. *)
Lemma restart_after_watch_error_opens_second_watch :
  (isTracking (hooks (world tracking)) = true
   /\ watchId (hooks (world tracking)) = Some 1%Z
   /\ watches (platform (world tracking)) = [1%Z])
  /\ (isTracking (hooks (world watchTimedOut)) = false
      /\ watchId (hooks (world watchTimedOut)) = Some 1%Z
      /\ watches (platform (world watchTimedOut)) = [1%Z]
      /\ trackingButton (world watchTimedOut) = Some StartTracking)
  /\ (watches (platform (world restartedAfterTimeout)) = [1%Z; 2%Z]
      /\ watchId (hooks (world restartedAfterTimeout)) = Some 2%Z
      /\ stops (world restartedAfterTimeout) = []).
Proof. repeat split; vm_compute; reflexivity. Qed.

(** Two starts without a stop leave two watches, also when the second is
    a direct call of [startTracking] in a running session. *)
Lemma second_start_opens_second_watch :
  (isTracking (hooks (world tracking)) = true
   /\ watches (platform (world tracking)) = [1%Z])
  /\ (watches (platform (world startedAgain)) = [1%Z; 2%Z]
      /\ watchId (hooks (world startedAgain)) = Some 2%Z
      /\ stops (world startedAgain) = [])
  /\ (watches (platform (world restartedAfterTimeout)) = [1%Z; 2%Z]
      /\ watchId (hooks (world restartedAfterTimeout)) = Some 2%Z
      /\ stops (world restartedAfterTimeout) = []).
Proof. repeat split; vm_compute; reflexivity. Qed.

(** While tracking is on the button stops; a direct call starts anyway. *)
Lemma tracking_button_example :
  trackingButton (world tracking) <> Some StartTracking
  /\ trace (world (step student readInteger asTyped tracking (Call StartTracking)))
     = (trace (world tracking) ++ [GetCurrentPosition])%list.
Proof.
  destruct (startTracking_not_guarded student readInteger asTyped tracking
              kolkata "Park Street, Kolkata" (Throw NotAnError)
              (world tracking) (world tracking) (world tracking) eq_refl)
    as [Hbutton [Htrace _]].
  split; [apply Hbutton; left; reflexivity | exact Htrace].
Defined.

(** C5 as stated fails.  On the first fix, with the socket connected and
    the REST update in flight, the self entry is still empty and nothing
    has been emitted; the emit and the self entry come when the REST call
    has settled, here by timing out. *)
Lemma emit_waits_for_rest :
  (socketConnected (world firstFixInFlight) = true
   /\ inflight firstFixInFlight !! 0%nat ≫= updateInFlight
      = Some (reportOf kolkata "Park Street, Kolkata" (world (mounted true live)))
   /\ currentLocation (hooks (world firstFixInFlight)) = None
   /\ emits (world firstFixInFlight) = [])
  /\ (latitude <$> currentLocation (hooks (world firstFixTimedOut)) = Some 22.5726%float
      /\ length (emits (world firstFixTimedOut)) = 1%nat).
Proof.
  repeat split; vm_compute; reflexivity.
Qed.

(** The same order on a fix of the watch, whose update throws. *)
Lemma propagation_order_example :
  let '(t0, _) := onWatchPosition student moved (world tracking) in
  let '(t1, wb) := afterAddress t0 "Park Street, Kolkata" (world tracking) in
  let '(_, wc) := afterUpdate t1 (Throw NotAnError) (world tracking) in
  emits wb = emits (world tracking)
  /\ length (emits wc) = S (length (emits (world tracking))).
Proof.
  pose proof (fix_propagation_is_sequential student moved "Park Street, Kolkata"
                (Throw NotAnError) (world tracking) (world tracking)
                (world tracking) (world tracking) eq_refl) as [Hwatch _].
  destruct (onWatchPosition student moved (world tracking)) as [t0 wa].
  destruct (afterAddress t0 "Park Street, Kolkata" (world tracking)) as [t1 wb].
  destruct (afterUpdate t1 (Throw NotAnError) (world tracking)) as [t2 wc].
  destruct Hwatch as ((_ & Hquiet & _) & _ & Hemit).
  split; [exact Hquiet|]. rewrite Hemit. reflexivity.
Defined.

(** A latitude of 91 is refused.  The corner (90, -180) is accepted, and
    so are a boundary latitude with an inner longitude, (90, 0), an inner
    latitude with a boundary longitude, (0, 180), and the inner point
    (22, 88). *)
Lemma manual_position_examples :
  trace (world (step student readInteger asTyped (typed "91" "88")
                  (Call GetLocationFromCoordinates)))
  = [ShowError (Plain "Latitude must be between -90 and 90")]
  /\ trace (world (step student readInteger asTyped (typed "90" "-180")
                     (Call GetLocationFromCoordinates)))
     = [ReverseGeocode 90 (-180)]
  /\ trace (world (step student readInteger asTyped (typed "90" "0")
                     (Call GetLocationFromCoordinates)))
     = [ReverseGeocode 90 0]
  /\ trace (world (step student readInteger asTyped (typed "0" "180")
                     (Call GetLocationFromCoordinates)))
     = [ReverseGeocode 0 180]
  /\ trace (world (step student readInteger asTyped (typed "22" "88")
                     (Call GetLocationFromCoordinates)))
     = [ReverseGeocode 22 88].
Proof.
  destruct (manual_position_validated student readInteger asTyped
              (typed "91" "88") 91 88 eq_refl eq_refl) as [Hrefused _].
  destruct (manual_position_validated student readInteger asTyped
              (typed "90" "-180") 90 (-180) eq_refl eq_refl) as [_ Hcorner].
  destruct (manual_position_validated student readInteger asTyped
              (typed "90" "0") 90 0 eq_refl eq_refl) as [_ Hlat].
  destruct (manual_position_validated student readInteger asTyped
              (typed "0" "180") 0 180 eq_refl eq_refl) as [_ Hlng].
  destruct (manual_position_validated student readInteger asTyped
              (typed "22" "88") 22 88 eq_refl eq_refl) as [_ Hinner].
  split; [|split; [|split; [|split]]].
  - destruct (Hrefused eq_refl) as [[text [_ Htrace]] _]. reflexivity.
  - apply Hcorner; [right; left | left]; reflexivity.
  - apply Hlat; [right; left; reflexivity | right; right; split; reflexivity].
  - apply Hlng; [right; right; split; reflexivity | right; left; reflexivity].
  - apply Hinner; right; right; split; reflexivity.
Defined.

(** Before any fix, "Find Nearby" asks the backend nothing. *)
Lemma searchNearby_example :
  trace (world (step student readInteger asTyped (mounted true live)
                  (Call SearchNearby)))
  = [ShowError (Plain "Please start location tracking first")]
  /\ nearbyLocations
       (hooks (world (step student readInteger asTyped (mounted true live)
                        (Call SearchNearby)))) = [].
Proof.
  destruct (searchNearby_requires_position student readInteger asTyped
              (mounted true live)) as (Hhooks & _ & Htrace & _).
  split; [exact Htrace|]. rewrite Hhooks. reflexivity.
Defined.

End TrackingExamples.

(** * The watch table and the self entry over a whole session *)

Section WatchTable.

Import Analytics Panel Session.

Variable userData : option UserData.
Variable parseFloat : string -> number.
Variable trim : string -> string.
Variable toFixed6 : number -> string.

Ltac session :=
  unfold advances, keepsSelf, quiet, opened;
  cbn [hooks refs platform trace currentLocation watchId watches nextWatch fst snd];
  try solve [intuition eauto].

Lemma advances_refl w : advances w w.
Proof. session. Qed.

Lemma done_advances (m : M unit) :
  (forall w, advances w (snd (m w))) -> respectful advances (finish m).
Proof.
  intros Hm w. specialize (Hm w). unfold finish, andThen, pure.
  destruct (m w) as [[] w']. cbn in *. split; [exact Hm | constructor].
Qed.

Lemma onWatchPosition_advances p : respectful advances (onWatchPosition userData p).
Proof.
  intros [h r pl tr]. unfold onWatchPosition. run_handler.
  split; [session|]. constructor. intros a [h1 r1 pl1 tr1]. run_handler.
  destruct (mapReady r1); [destruct (markers r1 !! selfId userData)|];
    run_handler; (split; [session|]); constructor;
    intros settled [h2 r2 pl2 tr2];
    (destruct settled as [result|[name text|]]; [destruct (success result)| |]);
    run_handler; destruct (socket r2) as [[[] sid2]|]; run_handler;
    try destruct (worthLogging _ _); run_handler;
    (split; [session | constructor]).
Qed.

Lemma startTracking_advances : respectful advances (startTracking userData).
Proof.
  intros [h r pl tr]. unfold startTracking. run_handler.
  destruct (geolocation pl); run_handler; (split; [session|]); constructor.
  - intros p [h0 r0 pl0 tr0]. run_handler. split; [session|]. constructor.
    intros a [h1 r1 pl1 tr1]. run_handler.
    destruct (mapReady r1); run_handler; (split; [session|]); constructor;
      intros settled [h2 r2 pl2 tr2];
      (destruct settled as [result|[name text|]]; [destruct (success result)| |]);
      run_handler; destruct (socket r2) as [[[] sid2]|]; run_handler;
      try destruct (worthLogging _ _); run_handler;
      (split; [session | constructor]).
  - intros e [h0 r0 pl0 tr0]. run_handler. split; [session | constructor].
Qed.

Lemma stopTracking_continues (w : World) :
  Respects advances (fst (stopTracking w)).
Proof.
  destruct w as [h r pl tr]. unfold stopTracking. run_handler. cbn [watchId].
  destruct (watchId h); run_handler; apply RespectsStop;
    intros settled [h2 r2 pl2 tr2];
    (destruct settled as [result|e]; [destruct (success result)|]);
    run_handler; destruct (socket r2) as [[[] sid2]|]; run_handler;
    try destruct (worthLogging _ _); run_handler;
    (split; [session | constructor]).
Qed.

Lemma stopTracking_closes (w : World) :
  keepsSelf w (snd (stopTracking w))
  /\ (quiet w (snd (stopTracking w)) \/ closed w (snd (stopTracking w))).
Proof.
  destruct w as [h r pl tr]. unfold stopTracking. run_handler. cbn [watchId].
  destruct (watchId h) as [handle|] eqn:Hwatch; run_handler; unfold closed; session.
Qed.

Lemma andThen_run {A B} (m : M A) (k : A -> M B) (w : World) :
  andThen m k w = k (fst (m w)) (snd (m w)).
Proof. unfold andThen. now destruct (m w). Qed.

Lemma updateMapMarker_calm subject location kind (w : World) :
  keepsSelf w (snd (updateMapMarker userData subject location kind w))
  /\ quiet w (snd (updateMapMarker userData subject location kind w)).
Proof.
  destruct w as [h r pl tr]. unfold updateMapMarker. run_handler.
  destruct (mapReady r); run_handler; [|session].
  destruct (strict_eq _ _ || _); run_handler; session.
Qed.

Lemma updateNearbyMarkers_calm locations (w : World) :
  keepsSelf w (snd (updateNearbyMarkers userData locations w))
  /\ quiet w (snd (updateNearbyMarkers userData locations w)).
Proof.
  revert w. induction locations as [|item rest IH]; intros w; [session|].
  cbn [updateNearbyMarkers]. rewrite andThen_run.
  pose proof (updateMapMarker_calm (nl_userId item)
    {| n_latitude := c_latitude (nl_location item);
       n_longitude := c_longitude (nl_location item);
       n_accuracy := None; n_address := c_address (nl_location item) |}
    (Some (nl_userType item)) w) as [Hself Hquiet].
  destruct (updateMapMarker _ _ _ _ w) as [[] w1]. cbn [fst snd] in *.
  destruct (IH w1) as [Hself' Hquiet'].
  unfold keepsSelf, quiet in *.
  destruct Hquiet as (Ha & Hb & Hc), Hquiet' as (Ha' & Hb' & Hc').
  split; [auto | repeat split; congruence].
Qed.

Lemma searchNearby_advances : respectful advances (searchNearby userData).
Proof.
  intros [h r pl tr]. unfold searchNearby. run_handler. cbn [currentLocation].
  destruct (currentLocation h) as [here|]; run_handler;
    (split; [session|]); constructor.
  intros settled w.
  destruct settled as [result|e]; run_handler.
  - destruct (success result), (data result) as [found|]; run_handler;
      try (destruct w; split; [session | constructor]).
    pose proof (updateNearbyMarkers_calm (nr_locations found)
      {| hooks :=
           {| currentLocation := currentLocation (hooks w);
              isTracking := isTracking (hooks w);
              nearbyLocations := nr_locations found;
              watchId := watchId (hooks w);
              searchRadius := searchRadius (hooks w);
              locationAddress := locationAddress (hooks w);
              isRequestingPermission := isRequestingPermission (hooks w);
              manualLatitude := manualLatitude (hooks w);
              manualLongitude := manualLongitude (hooks w);
              isLoadingManualLocation := isLoadingManualLocation (hooks w) |};
         refs := refs w; platform := platform w; trace := trace w |}) as Hcalm.
    destruct w as [h2 r2 pl2 tr2]. cbn [hooks refs platform trace] in *.
    destruct (updateNearbyMarkers _ _ _) as [[] w3]. run_handler.
    split; [|constructor]. destruct w3 as [h3 r3 pl3 tr3].
    revert Hcalm. session.
  - destruct w. split; [session | constructor].
Qed.

Lemma getLocationFromCoordinates_advances :
  respectful advances (getLocationFromCoordinates userData parseFloat trim).
Proof.
  intros [h r pl tr]. unfold getLocationFromCoordinates. run_handler.
  cbn [manualLatitude manualLongitude].
  destruct (is_nan _ || is_nan _); [|destruct (lt _ _ || gt _ _);
    [|destruct (lt _ _ || gt _ _)]];
    run_handler; (split; [session|]); constructor.
  intros a [h1 r1 pl1 tr1]. run_handler.
  destruct (mapReady r1); run_handler; (split; [session|]); constructor.
  intros settled [h2 r2 pl2 tr2].
  (destruct settled as [result|e]; [destruct (success result)|]);
    run_handler; destruct (socket r2) as [[[] sid2]|]; run_handler;
    try destruct (worthLogging _ _); run_handler;
    (split; [session | constructor]).
Qed.

Lemma handler_advances (h : Handler) :
  h <> StopTracking -> respectful advances (handler userData parseFloat trim h).
Proof.
  destruct h; intros Hgo; cbn [handler];
    [apply startTracking_advances | contradiction
    | apply searchNearby_advances | apply getLocationFromCoordinates_advances].
Qed.

Lemma onWatchError_calm e (w : World) : advances w (snd (onWatchError e w)).
Proof. destruct w as [h r pl tr]. unfold onWatchError. run_handler. session. Qed.

Lemma onLocationUpdate_calm data (w : World) :
  advances w (snd (onLocationUpdate userData data w)).
Proof.
  unfold onLocationUpdate.
  destruct (locationOf data) as [location|]; [|apply advances_refl].
  destruct (isCurrentUser userData data || _ || _); cycle 1.
  { destruct w. run_handler. session. }
  rewrite andThen_run.
  pose proof (updateMapMarker_calm
    (or_str (or_ostr (u_userId data) (userData_id userData)) "current")
    location (Some (or_str (u_userType data) "Student")) w) as [Hself Hquiet].
  destruct (updateMapMarker _ _ _ _ w) as [[] [h1 r1 pl1 tr1]].
  cbn [fst snd] in *. destruct w as [h r pl tr].
  destruct (isCurrentUser userData data); run_handler;
    [|revert Hself Hquiet; session].
  destruct (n_address location) as [[|c addr]|], (n_accuracy location) as [a|];
    run_handler; try destruct (truthy a && gt a 1000); run_handler;
    revert Hself Hquiet; session.
Qed.

Lemma onNearbyResponse_calm l (w : World) :
  advances w (snd (onNearbyResponse userData l w)).
Proof.
  destruct l as [l|]; [|apply advances_refl]. unfold onNearbyResponse.
  rewrite andThen_run.
  pose proof (updateNearbyMarkers_calm l (snd (setNearbyLocations l w)))
    as [Hself Hquiet].
  destruct w as [h r pl tr]. revert Hself Hquiet. run_handler.
  destruct (updateNearbyMarkers _ _ _) as [[] [h1 r1 pl1 tr1]]. session.
Qed.

Lemma onLocationStopped_calm u (w : World) :
  advances w (snd (onLocationStopped userData u w)).
Proof.
  destruct w as [h r pl tr]. unfold onLocationStopped.
  destruct (strict_eq u (userData_id userData)); run_handler; session.
Qed.

Lemma onSocketError_calm text (w : World) : advances w (snd (onSocketError text w)).
Proof. destruct w as [h r pl tr]. unfold onSocketError. run_handler. session. Qed.

Local Abbreviation step := (step userData parseFloat trim).

Lemma spawn_session (m : M Task) (s : System) (R : World -> World -> Prop) :
  R (world s) (snd (m (world s))) ->
  Respects advances (fst (m (world s))) ->
  Forall (Respects advances) (inflight s) ->
  R (world s) (world (spawn m s))
  /\ Forall (Respects advances) (inflight (spawn m s)).
Proof.
  intros Hr Ht Hs. unfold spawn. destruct (m (world s)) as [t w]. cbn in *.
  split; [exact Hr|]. apply Forall_app. split; [exact Hs|]. now constructor.
Qed.

Lemma resume_session (i : nat) (continue : Task -> option (M Task)) (s : System) :
  (forall t m, continue t = Some m -> Respects advances t -> respectful advances m) ->
  Forall (Respects advances) (inflight s) ->
  advances (world s) (world (resume i continue s))
  /\ Forall (Respects advances) (inflight (resume i continue s)).
Proof.
  intros Hk Hs. unfold resume.
  destruct (inflight s !! i) as [t|] eqn:Hi; [|split; [apply advances_refl | exact Hs]].
  destruct (continue t) as [m|] eqn:Hm; [|split; [apply advances_refl | exact Hs]].
  assert (Respects advances t) as Ht.
  { apply (proj1 (Forall_lookup _ _) Hs i t Hi). }
  destruct (Hk t m Hm Ht (world s)) as [Hr Ht'].
  destruct (m (world s)) as [t' w]. cbn in *.
  split; [exact Hr|]. now apply Forall_insert.
Qed.

Lemma exec_session (m : M unit) (s : System) :
  advances (world s) (snd (m (world s))) ->
  Forall (Respects advances) (inflight s) ->
  advances (world s) (world (exec m s))
  /\ Forall (Respects advances) (inflight (exec m s)).
Proof. intros Hr Hs. split; assumption. Qed.

Lemma settles_advances {A} (call : Api.Call A) (k : completion A -> M Task) :
  (forall r w, advances w (snd (k r w)) /\ Respects advances (fst (k r w))) ->
  respectful advances (settles call k).
Proof.
  intros Hk [h r pl tr]. unfold settles. run_handler.
  specialize (Hk (Api.outcome call)
    {| hooks := h; refs := r; platform := pl;
       trace := (tr ++ map (Console Error) (Api.logged call))%list |}).
  destruct (k _ _) as [t [h1 r1 pl1 tr1]]. cbn [fst snd] in *.
  split; [|apply Hk]. destruct Hk as [Hk _]. revert Hk. session.
Qed.

Lemma step_session (s : System) (e : Event) :
  Forall (Respects advances) (inflight s) ->
  Forall (Respects advances) (inflight (step s e))
  /\ keepsSelf (world s) (world (step s e))
  /\ if stopsTracking s (Base e)
     then quiet (world s) (world (step s e)) \/ closed (world s) (world (step s e))
     else quiet (world s) (world (step s e)) \/ opened (world s) (world (step s e)).
Proof.
  intros Hs.
  assert (forall h : Handler,
            Forall (Respects advances) (inflight (spawn (handler userData parseFloat trim h) s))
            /\ keepsSelf (world s) (world (spawn (handler userData parseFloat trim h) s))
            /\ match h with
               | StopTracking =>
                   quiet (world s) (world (spawn (handler userData parseFloat trim h) s))
                   \/ closed (world s) (world (spawn (handler userData parseFloat trim h) s))
               | _ =>
                   quiet (world s) (world (spawn (handler userData parseFloat trim h) s))
                   \/ opened (world s) (world (spawn (handler userData parseFloat trim h) s))
               end) as Hspawn.
  { intros h.
    assert (h = StopTracking \/ h <> StopTracking) as [->|Hgo]
      by (destruct h; (left; reflexivity) || (right; discriminate)).
    - destruct (spawn_session stopTracking s
                  (fun w w' => keepsSelf w w' /\ (quiet w w' \/ closed w w'))
                  (stopTracking_closes (world s)) (stopTracking_continues (world s)) Hs)
        as [[Hself Hclose] Htasks].
      auto.
    - destruct (handler_advances h Hgo (world s)) as [Hr Ht].
      destruct (spawn_session _ s advances Hr Ht Hs) as [[Hself Hopen] Htasks].
      destruct h; try contradiction; auto. }
  assert (forall (pick : Task -> option (M Task)) i,
            (forall t m, pick t = Some m -> Respects advances t -> respectful advances m) ->
            Forall (Respects advances) (inflight (resume i pick s))
            /\ keepsSelf (world s) (world (resume i pick s))
            /\ (quiet (world s) (world (resume i pick s))
                \/ opened (world s) (world (resume i pick s)))) as Hresume.
  { intros pick i Hpick.
    destruct (resume_session i pick s Hpick Hs) as [[Hself Hopen] Htasks]. auto. }
  assert (forall m : M unit,
            advances (world s) (snd (m (world s))) ->
            Forall (Respects advances) (inflight (exec m s))
            /\ keepsSelf (world s) (world (exec m s))
            /\ (quiet (world s) (world (exec m s))
                \/ opened (world s) (world (exec m s)))) as Hexec.
  { intros m [Hself Hopen]. auto. }
  assert (Forall (Respects advances) (inflight s)
          /\ keepsSelf (world s) (world s)
          /\ (quiet (world s) (world s) \/ opened (world s) (world s))) as Hidle.
  { destruct (advances_refl (world s)). auto. }
  unfold stopsTracking, invokes.
  destruct e as [h| |i p|i e|i o|i env|i env|i env|handle p|handle e|m|t];
    cbn [Analytics.step].
  - specialize (Hspawn h). destruct h; exact Hspawn.
  - destruct (trackingButton (world s)) as [h|]; [|exact Hidle].
    specialize (Hspawn h). destruct h; exact Hspawn.
  - apply Hresume. intros t m Hm Ht. destruct Ht; try discriminate.
    injection Hm as <-. unfold respectful. auto.
  - apply Hresume. intros t m Hm Ht. destruct Ht; try discriminate.
    injection Hm as <-. unfold respectful. auto.
  - apply Hresume. intros t m Hm Ht. destruct Ht; try discriminate.
    injection Hm as <-. unfold respectful. auto.
  - apply Hresume. intros t m Hm Ht. destruct Ht; try discriminate.
    injection Hm as <-. apply settles_advances. auto.
  - apply Hresume. intros t m Hm Ht. destruct Ht; try discriminate.
    injection Hm as <-. apply settles_advances. auto.
  - apply Hresume. intros t m Hm Ht. destruct Ht; try discriminate.
    injection Hm as <-. apply settles_advances. auto.
  - destruct (watching handle (world s)); [|exact Hidle].
    destruct (onWatchPosition_advances p (world s)) as [Hr Ht].
    destruct (spawn_session _ s advances Hr Ht Hs) as [[Hself Hopen] Htasks]. auto.
  - destruct (watching handle (world s)); [|exact Hidle].
    apply Hexec, onWatchError_calm.
  - destruct m as [data|l|u|text]; apply Hexec;
      [apply onLocationUpdate_calm | apply onNearbyResponse_calm
      | apply onLocationStopped_calm | apply onSocketError_calm].
  - apply Hexec. destruct (world s) as [h r pl tr]. run_handler. session.
Qed.

Lemma getCurrentLocationFromBrowser_advances :
  respectful advances (getCurrentLocationFromBrowser userData toFixed6).
Proof.
  intros [h r pl tr].
  unfold getCurrentLocationFromBrowser, setManualLatitude, setManualLongitude.
  run_handler.
  destruct (geolocation pl); run_handler; (split; [session|]); constructor.
  - intros p [h0 r0 pl0 tr0]. run_handler. split; [session|]. constructor.
    intros a [h1 r1 pl1 tr1]. run_handler.
    destruct (mapReady r1); run_handler; (split; [session|]); constructor;
      intros settled [h2 r2 pl2 tr2];
      (destruct settled as [result|e]; [destruct (success result)|]);
      run_handler; destruct (socket r2) as [[[] sid2]|]; run_handler;
      try destruct (worthLogging _ _); run_handler;
      (split; [session | constructor]).
  - intros e [h0 r0 pl0 tr0]. run_handler. split; [session | constructor].
Qed.

Lemma handleGetLocation_advances :
  respectful advances (handleGetLocation userData parseFloat trim toFixed6).
Proof.
  intros w. unfold handleGetLocation. rewrite !andThen_run. unfold read.
  cbn [fst snd].
  destruct (truthy_str _ && truthy_str _);
    [apply getLocationFromCoordinates_advances
    | apply getCurrentLocationFromBrowser_advances].
Qed.

Lemma refreshed_calm settled (w : World) :
  advances w (snd (refreshed userData settled w)).
Proof.
  unfold refreshed.
  destruct settled as [result|[name text|]]; [| |apply advances_refl].
  - destruct (success result), (data result) as [d|]; try apply advances_refl.
    rewrite !andThen_run. unfold read. cbn [fst snd].
    destruct (mapReady (refs (snd (setCurrentLocation (Some d) w)))).
    + pose proof (updateMapMarker_calm (userId d)
        {| n_latitude := latitude d; n_longitude := longitude d;
           n_accuracy := None; n_address := None |}
        (Some (userType d)) (snd (setCurrentLocation (Some d) w))) as [Hself Hquiet].
      unfold when.
      destruct (updateMapMarker _ _ _ _ _) as [[] [h1 r1 pl1 tr1]].
      destruct w as [h r pl tr]. revert Hself Hquiet. run_handler. session.
    + destruct w as [h r pl tr]. run_handler. session.
  - destruct w as [h r pl tr]. destruct (worthLogging _ _); run_handler; session.
Qed.

Local Abbreviation act := (act userData parseFloat trim toFixed6).
Local Abbreviation play := (play userData parseFloat trim toFixed6).

Lemma act_session (s : System) (a : Action) :
  Forall (Respects advances) (inflight s) ->
  Forall (Respects advances) (inflight (act s a))
  /\ keepsSelf (world s) (world (act s a))
  /\ if stopsTracking s a
     then quiet (world s) (world (act s a)) \/ closed (world s) (world (act s a))
     else quiet (world s) (world (act s a)) \/ opened (world s) (world (act s a)).
Proof.
  intros Hs.
  assert (forall m : M Task,
            respectful advances m ->
            Forall (Respects advances) (inflight (spawn m s))
            /\ keepsSelf (world s) (world (spawn m s))
            /\ (quiet (world s) (world (spawn m s))
                \/ opened (world s) (world (spawn m s)))) as Hspawn.
  { intros m Hm. destruct (Hm (world s)) as [Hr Ht].
    destruct (spawn_session _ s advances Hr Ht Hs) as [[Hself Hopen] Htasks]. auto. }
  assert (forall m : M unit,
            advances (world s) (snd (m (world s))) ->
            Forall (Respects advances) (inflight (exec m s))
            /\ keepsSelf (world s) (world (exec m s))
            /\ (quiet (world s) (world (exec m s))
                \/ opened (world s) (world (exec m s)))) as Hexec.
  { intros m [Hself Hopen]. auto. }
  destruct a as [e| |env| |]; cbn [Panel.act].
  - apply (step_session s e Hs).
  - apply Hexec. destruct (world s) as [h r pl tr]. unfold fetchCurrentLocation.
    run_handler. session.
  - apply Hexec. unfold settles. rewrite andThen_run.
    generalize (refreshed_calm (Api.outcome (Api.getCurrentLocation env))
                  (snd (clientConsole (Api.logged (Api.getCurrentLocation env))
                          (world s)))).
    destruct (world s) as [h r pl tr]. unfold clientConsole. cbn [fst snd].
    destruct (refreshed _ _ _) as [[] [h1 r1 pl1 tr1]]. session.
  - apply Hspawn, handleGetLocation_advances.
  - apply Hspawn, getCurrentLocationFromBrowser_advances.
Qed.

Lemma handlesSound_moves (w w' : World) :
  handlesSound w -> quiet w w' \/ opened w w' \/ closed w w' -> handlesSound w'.
Proof.
  unfold handlesSound, quiet, opened, closed.
  intros (Hrec & Hfresh & Hnodup) [(-> & -> & ->) | [(-> & -> & ->) | (h & Hh & -> & -> & ->)]].
  - auto.
  - split; [|split].
    + intros h [= <-]. apply in_or_app. right. now left.
    + apply Forall_app. split.
      * eapply Forall_impl; [exact Hfresh|]. cbn. intros; lia.
      * repeat constructor. lia.
    + apply List.NoDup_app; [exact Hnodup | repeat constructor; intros []|].
      intros x Hx [<-|[]].
      rewrite List.Forall_forall in Hfresh. specialize (Hfresh _ Hx). lia.
  - split; [|split].
    + discriminate.
    + rewrite List.Forall_forall in Hfresh |- *. intros x Hx.
      apply List.filter_In in Hx. apply Hfresh, Hx.
    + now apply List.NoDup_filter.
Qed.

Lemma leaked_moves (h : Z) (w w' : World) :
  handlesSound w -> leaked h w ->
  quiet w w' \/ opened w w' \/ closed w w' -> leaked h w'.
Proof.
  unfold handlesSound, leaked, quiet, opened, closed.
  intros (_ & Hfresh & _) [Hin Hrec]
    [(Hw & _ & Hid) | [(Hw & _ & Hid) | (h0 & Hh0 & Hw & _ & Hid)]];
    rewrite Hw, Hid.
  - auto.
  - split; [apply in_or_app; now left|].
    intros [= Heq]. rewrite List.Forall_forall in Hfresh.
    specialize (Hfresh _ Hin). lia.
  - split; [|discriminate]. apply List.filter_In. split; [exact Hin|].
    apply negb_true_iff, Z.eqb_neq. congruence.
Qed.

Lemma act_moves (s : System) (a : Action) :
  Forall (Respects advances) (inflight s) ->
  quiet (world s) (world (act s a)) \/ opened (world s) (world (act s a))
  \/ closed (world s) (world (act s a)).
Proof.
  intros Hs. destruct (act_session s a Hs) as (_ & _ & Hmove).
  destruct (stopsTracking s a); tauto.
Qed.

Lemma mounted_session (ready : bool) (so : option Socket) :
  Forall (Respects advances) (inflight (mounted ready so))
  /\ handlesSound (world (mounted ready so)).
Proof.
  split; [constructor|]. unfold handlesSound. cbn.
  split; [discriminate|]. split; constructor.
Qed.

Lemma play_session (actions : list Action) (s : System) :
  Forall (Respects advances) (inflight s) ->
  handlesSound (world s) ->
  Forall (Respects advances) (inflight (play s actions))
  /\ handlesSound (world (play s actions))
  /\ keepsSelf (world s) (world (play s actions))
  /\ forall h, leaked h (world s) -> leaked h (world (play s actions)).
Proof.
  revert s. induction actions as [|a rest IH]; intros s Hs Hsound.
  { cbn. unfold keepsSelf. auto. }
  cbn [Panel.play fold_left].
  destruct (act_session s a Hs) as (Hs' & Hself & _).
  pose proof (act_moves s a Hs) as Hmove.
  pose proof (handlesSound_moves _ _ Hsound Hmove) as Hsound'.
  destruct (IH (act s a) Hs' Hsound') as (Htasks & Hfinal & Hself' & Hleak).
  split; [exact Htasks|]. split; [exact Hfinal|]. split.
  - unfold keepsSelf in *. auto.
  - intros h Hh. apply Hleak. exact (leaked_moves h _ _ Hsound Hh Hmove).
Qed.

(** X1.  Whatever happens to the mounted panel (clicks on any of its
    buttons, geolocation callbacks, answers of the geocoder and of the
    backend in any order, socket messages), the handle in [watchId] is the
    handle of a watch that is running, and the running watches have
    distinct handles, all issued before the next one. *)
Theorem watch_handles_sound (ready : bool) (so : option Socket)
    (actions : list Action) :
  handlesSound (world (play (mounted ready so) actions)).
Proof.
  destruct (mounted_session ready so) as [Hs Hsound].
  apply (play_session actions _ Hs Hsound).
Qed.

(** X2.  No handler of the panel clears the self entry: once
    [currentLocation] is set it stays set, through every later click,
    callback, answer and socket message (stopping the session
    included). *)
Theorem self_entry_never_cleared (ready : bool) (so : option Socket)
    (before after : list Action) :
  is_Some (currentLocation (hooks (world (play (mounted ready so) before)))) ->
  is_Some (currentLocation (hooks (world (play (mounted ready so) (before ++ after))))).
Proof.
  destruct (mounted_session ready so) as [Hs Hsound].
  destruct (play_session before _ Hs Hsound) as (Hs' & Hsound' & _).
  unfold Panel.play. rewrite fold_left_app.
  apply (play_session after _ Hs' Hsound').
Qed.

(** X3.  Only [stopTracking] clears a geolocation watch: after any
    action that does not invoke it, every watch that was running is still
    running.  A watch error in particular, which sets [isTracking] to
    false, leaves the watch in place. *)
Theorem only_stopTracking_removes_a_watch (ready : bool) (so : option Socket)
    (actions : list Action) (a : Action) (h : Z) :
  let s := play (mounted ready so) actions in
  stopsTracking s a = false ->
  In h (watches (platform (world s))) ->
  In h (watches (platform (world (act s a)))).
Proof.
  intros s Hgo Hin.
  destruct (mounted_session ready so) as [Hs Hsound].
  destruct (play_session actions _ Hs Hsound) as (Hs' & _).
  destruct (act_session s a Hs') as (_ & _ & Hmove).
  rewrite Hgo in Hmove. unfold quiet, opened in Hmove.
  destruct Hmove as [(-> & _) | (-> & _)]; [exact Hin|].
  apply in_or_app. now left.
Qed.

(** X4.  A watch whose handle the component has lost (a second
    [startTracking] overwrote [watchId]) can never be cleared while the
    panel stays mounted: [stopTracking] clears only the handle in
    [watchId], and no later action brings the lost handle back. *)
Theorem leaked_watch_runs_forever (ready : bool) (so : option Socket)
    (before after : list Action) (h : Z) :
  leaked h (world (play (mounted ready so) before)) ->
  leaked h (world (play (mounted ready so) (before ++ after))).
Proof.
  destruct (mounted_session ready so) as [Hs Hsound].
  destruct (play_session before _ Hs Hsound) as (Hs' & Hsound' & _).
  unfold Panel.play. rewrite fold_left_app.
  apply (play_session after _ Hs' Hsound').
Qed.

End WatchTable.

(** * Markers, the self entry, and the handlers' edge cases *)

Section Markers.

Import Analytics Panel Peers.

Variable userData : option UserData.
Variable parseFloat : string -> number.
Variable trim : string -> string.

Lemma or_str_nonempty (a : option string) (b : string) :
  b <> "" -> or_str a b <> "".
Proof.
  intros Hb. destruct a as [[|c s]|]; cbn; auto; discriminate.
Qed.

(** X5.  The address a reverse lookup resolves to is never the empty
    string: when the geocoder gives no usable part and no display name,
    or answers with an error, or cannot be reached, one of the three
    fallback texts is returned. *)
Theorem address_never_empty (o : GeocodeOutcome) :
  getAddressFromCoordinates o <> "".
Proof.
  destruct o as [| |[addr|] name]; cbn [getAddressFromCoordinates];
    try discriminate; apply or_str_nonempty; discriminate.
Qed.

Lemma updateMapMarker_unready subject location kind (w : World) :
  mapReady (refs w) = false ->
  updateMapMarker userData subject location kind w = (tt, w).
Proof.
  destruct w as [h r pl tr]. cbn [refs mapReady]. intros Hr.
  unfold updateMapMarker. run_handler. now rewrite Hr.
Qed.

Lemma updateMapMarker_ready subject location kind (w : World) :
  mapReady (refs w) = true ->
  let w' := snd (updateMapMarker userData subject location kind w) in
  markers (refs w')
  = <[subject := {| m_latitude := n_latitude location;
                    m_longitude := n_longitude location;
                    m_current := ownId userData subject |}]> (markers (refs w))
  /\ mapReady (refs w') = true
  /\ socket (refs w') = socket (refs w)
  /\ platform w' = platform w
  /\ trace w' = trace w
  /\ (ownId userData subject = false ->
      hooks w' = hooks w /\ mapView (refs w') = mapView (refs w)).
Proof.
  destruct w as [h r pl tr]. cbn [refs mapReady]. intros Hr.
  unfold updateMapMarker, ownId. run_handler.
  rewrite Hr. destruct (strict_eq _ _ || _); run_handler;
    cbn [markers mapReady socket mapView]; rewrite ?Hr;
    repeat split; try discriminate; auto.
Qed.

Lemma updateMapMarker_own subject location kind (w : World) :
  mapReady (refs w) = true ->
  ownId userData subject = true ->
  let w' := snd (updateMapMarker userData subject location kind w) in
  currentLocation (hooks w')
  = Some (reduced subject kind (n_latitude location) (n_longitude location)
            (clock (platform w)))
  /\ mapView (refs w') = Some (n_latitude location, n_longitude location, 15%Z).
Proof.
  destruct w as [h r pl tr]. cbn [refs mapReady]. intros Hr Hown.
  unfold updateMapMarker. run_handler. rewrite Hr.
  unfold ownId in Hown. rewrite Hown. run_handler. split; reflexivity.
Qed.

(** X6.  After a list of nearby locations has been drawn, the marker
    registry holds, for every id, the marker of the LAST entry of the list
    that names this id (an earlier entry for the same id is overwritten),
    and the marker it held before when no entry names it.  While the map
    is not up, nothing is drawn. *)
Theorem nearby_markers_last_report_wins (locations : list NearbyLocation) (w : World) :
  let w' := snd (updateNearbyMarkers userData locations w) in
  forall subject : string,
    markers (refs w') !! subject
    = if mapReady (refs w) then
        match lastReport subject locations with
        | Some item => Some (markerOf userData item)
        | None => markers (refs w) !! subject
        end
      else markers (refs w) !! subject.
Proof.
  revert w. induction locations as [|item rest IH]; intros w; cbn zeta.
  { intros subject. cbn. now destruct (mapReady (refs w)). }
  intros subject. unfold lastReport in *. cbn [updateNearbyMarkers lastWhere].
  rewrite andThen_run.
  destruct (mapReady (refs w)) eqn:Hready.
  - destruct (updateMapMarker_ready (nl_userId item)
      {| n_latitude := c_latitude (nl_location item);
         n_longitude := c_longitude (nl_location item);
         n_accuracy := None; n_address := c_address (nl_location item) |}
      (Some (nl_userType item)) w Hready) as (Hm & Hr & _).
    destruct (updateMapMarker _ _ _ _ w) as [[] w1]. cbn [fst snd] in *.
    specialize (IH w1 subject). cbn zeta in IH. rewrite IH, Hr.
    destruct (lastWhere _ rest); [reflexivity|].
    rewrite Hm. destruct (String.eqb_spec (nl_userId item) subject) as [Heq|Hne].
    + rewrite <- Heq, lookup_insert_eq. reflexivity.
    + rewrite lookup_insert_ne by exact Hne. reflexivity.
  - rewrite (updateMapMarker_unready _ _ _ w Hready). cbn [fst snd].
    specialize (IH w subject). cbn zeta in IH. now rewrite IH, Hready.
Qed.

(** X7.  Drawing a list of nearby locations toasts nothing and touches
    neither the watch table nor the clock.  When the list holds an entry
    under the user's own id (or under 'current'), the self entry is
    replaced by the last such entry, without accuracy and address, and the
    map is centred on it at zoom 15; when it holds none, the hooks and the
    view are as before. *)
Theorem nearby_markers_and_self (locations : list NearbyLocation) (w : World) :
  let w' := snd (updateNearbyMarkers userData locations w) in
  platform w' = platform w
  /\ trace w' = trace w
  /\ if mapReady (refs w) then
       match lastOwn userData locations with
       | Some item =>
           currentLocation (hooks w')
           = Some (reduced (nl_userId item) (Some (nl_userType item))
                     (c_latitude (nl_location item)) (c_longitude (nl_location item))
                     (clock (platform w)))
           /\ mapView (refs w')
              = Some (c_latitude (nl_location item), c_longitude (nl_location item), 15%Z)
       | None => hooks w' = hooks w /\ mapView (refs w') = mapView (refs w)
       end
     else w' = w.
Proof.
  revert w. induction locations as [|item rest IH]; intros w; cbn zeta.
  { cbn. now destruct (mapReady (refs w)). }
  unfold lastOwn in *. cbn [updateNearbyMarkers lastWhere]. rewrite andThen_run.
  destruct (mapReady (refs w)) eqn:Hready.
  - pose proof (updateMapMarker_ready (nl_userId item)
      {| n_latitude := c_latitude (nl_location item);
         n_longitude := c_longitude (nl_location item);
         n_accuracy := None; n_address := c_address (nl_location item) |}
      (Some (nl_userType item)) w Hready) as (_ & Hr & _ & Hpl & Htr & Hpeer).
    pose proof (updateMapMarker_own (nl_userId item)
      {| n_latitude := c_latitude (nl_location item);
         n_longitude := c_longitude (nl_location item);
         n_accuracy := None; n_address := c_address (nl_location item) |}
      (Some (nl_userType item)) w Hready) as Hown.
    destruct (updateMapMarker _ _ _ _ w) as [[] w1]. cbn [fst snd] in *.
    specialize (IH w1). cbn zeta in IH. rewrite Hr in IH.
    destruct IH as (Hpl' & Htr' & IH).
    split; [congruence|]. split; [congruence|].
    destruct (lastWhere _ rest) as [later|].
    + now rewrite <- Hpl.
    + destruct IH as [Hh Hv].
      destruct (ownId userData (nl_userId item)) eqn:Hmine.
      * destruct (Hown eq_refl) as [Hself Hview]. rewrite Hh, Hv. auto.
      * destruct (Hpeer eq_refl) as [Hh1 Hv1]. split; congruence.
  - rewrite (updateMapMarker_unready _ _ _ w Hready). cbn [fst snd].
    specialize (IH w). cbn zeta in IH. rewrite Hready in IH.
    destruct IH as (Hpl & Htr & Hsame). auto.
Qed.

Local Abbreviation step := (step userData parseFloat trim).

(** X8.  An update from a peer that passes the accuracy gate changes one
    thing only: the peer's marker is set to the reported position (when
    the map is up).  The hooks, the self entry among them, the view, the
    socket, the watch table and the trace are as before, nothing is
    toasted and no task is started. *)
Theorem peer_update_moves_one_marker (s : System) (data : LocationUpdate)
    (location : NestedLocation) :
  locationOf data = Some location ->
  isCurrentUser userData data = false ->
  passesGate location = true ->
  ownId userData (subjectOf userData data) = false ->
  let s' := step s (Receive (LocationUpdateEvent data)) in
  refs (world s')
  = (if mapReady (refs (world s)) then
       {| mapReady := true; mapView := mapView (refs (world s));
          markers :=
            <[subjectOf userData data :=
                {| m_latitude := n_latitude location;
                   m_longitude := n_longitude location; m_current := false |}]>
              (markers (refs (world s)));
          socket := socket (refs (world s)) |}
     else refs (world s))
  /\ hooks (world s') = hooks (world s)
  /\ platform (world s') = platform (world s)
  /\ trace (world s') = trace (world s)
  /\ inflight s' = inflight s.
Proof.
  intros Hloc Hpeer Hgate Hother. unfold passesGate, subjectOf, ownId in *.
  destruct s as [[h r pl tr] tasks].
  unfold Analytics.step, exec, onLocationUpdate. rewrite Hloc, Hpeer.
  cbn [orb]. rewrite Hgate. unfold updateMapMarker. run_handler.
  rewrite Hother. destruct (mapReady r) eqn:Hready; run_handler;
    cbn [mapReady mapView markers socket]; rewrite ?Hready; auto.
Qed.

(** X9.  An update that names no user and passes the accuracy gate is
    taken for the user's own by [updateMapMarker], though the handler
    itself does not: it is filed under the user's id, so the self entry is
    overwritten by the reported position, without accuracy and address,
    the self marker moves there and the map is centred on it. *)
Theorem anonymous_update_lands_on_self (s : System) (data : LocationUpdate)
    (location : NestedLocation) :
  locationOf data = Some location ->
  truthy_ostr (u_userId data) = false ->
  isCurrentUser userData data = false ->
  passesGate location = true ->
  mapReady (refs (world s)) = true ->
  let s' := step s (Receive (LocationUpdateEvent data)) in
  currentLocation (hooks (world s'))
  = Some (reduced (selfId userData) (Some (or_str (u_userType data) "Student"))
            (n_latitude location) (n_longitude location)
            (clock (platform (world s))))
  /\ markers (refs (world s')) !! selfId userData
     = Some {| m_latitude := n_latitude location;
               m_longitude := n_longitude location; m_current := true |}
  /\ mapView (refs (world s')) = Some (n_latitude location, n_longitude location, 15%Z).
Proof.
  intros Hloc Hanon Hpeer Hgate Hready. unfold passesGate in *.
  destruct s as [[h r pl tr] tasks]. cbn [world refs] in Hready.
  unfold Analytics.step, exec, onLocationUpdate. rewrite Hloc, Hpeer.
  cbn [orb]. rewrite Hgate.
  assert (or_str (or_ostr (u_userId data) (userData_id userData)) "current"
          = selfId userData) as ->.
  { unfold or_ostr. rewrite Hanon. reflexivity. }
  assert (strict_eq (Some (selfId userData)) (userData_id userData)
          || String.eqb (selfId userData) "current" = true) as Hown.
  { unfold selfId, or_str. destruct (userData_id userData) as [u|];
      [destruct (truthy_str u)|]; cbn [strict_eq];
      rewrite ?String.eqb_refl; auto using orb_true_r. }
  unfold updateMapMarker. run_handler. rewrite Hready, Hown. run_handler.
  cbn [currentLocation markers mapView].
  rewrite lookup_insert_eq. unfold reduced. auto.
Qed.

(** X10.  A start that gets no first fix starts nothing.  Without
    geolocation support the handler ends with one error toast.  When the
    first position request fails (permission denied, unavailable, timed
    out), the handler ends: the permission flag is cleared, an error is
    toasted, and no watch is opened, [isTracking], [watchId], the self
    entry and the map are as they were. *)
Theorem start_without_fix_starts_nothing (w w1 : World) (e : GeoError) :
  (geolocation (platform w) = false ->
   startTracking userData w
   = (Done,
      snd (showError (Plain "Geolocation is not supported by your browser") w)))
  /\
  (geolocation (platform w) = true ->
   let '(t, _) := startTracking userData w in
   let '(t', w') := afterPositionError t e w1 in
   t' = Done
   /\ isRequestingPermission (hooks w') = false
   /\ isTracking (hooks w') = isTracking (hooks w1)
   /\ watchId (hooks w') = watchId (hooks w1)
   /\ currentLocation (hooks w') = currentLocation (hooks w1)
   /\ refs w' = refs w1
   /\ platform w' = platform w1
   /\ exists text,
        trace w'
        = (trace w1
           ++ [Console Error "Geolocation permission error:"; ShowError (Plain text)])%list).
Proof.
  destruct w as [h r pl tr], w1 as [h1 r1 pl1 tr1]. cbn [platform].
  unfold startTracking, afterPositionError. split; intros Hgeo;
    run_handler; rewrite Hgeo; run_handler; [reflexivity|].
  cbn [isRequestingPermission isTracking watchId currentLocation].
  rewrite <- app_assoc. cbn [app]. repeat split. eauto.
Qed.




(** X12.  Valid manual coordinates always release the "Get Location"
    button.  The loading flag is raised before the address lookup; once
    the lookup has settled, either the map is up, the update goes to the
    backend and the flag is cleared when that settles, however it settles
    (a thrown error included), or the map is not up and the handler ends
    at once with the flag cleared, an error toast, and the self entry and
    the map untouched. *)
Theorem manual_position_releases_button (w w1 w2 : World) (lat lng : number)
    (address : string) (settled : completion (ApiResponse UpdateLocationResponse)) :
  parseFloat (trim (manualLatitude (hooks w))) = lat ->
  parseFloat (trim (manualLongitude (hooks w))) = lng ->
  is_nan lat || is_nan lng = false ->
  lt lat (-90) || gt lat 90 = false ->
  lt lng (-180) || gt lng 180 = false ->
  let '(t0, wa) := getLocationFromCoordinates userData parseFloat trim w in
  let '(t1, wb) := afterAddress t0 address w1 in
  let '(t2, wc) := afterUpdate t1 settled w2 in
  isLoadingManualLocation (hooks wa) = true
  /\ if mapReady (refs w1) then
       is_Some (updateInFlight t1)
       /\ isLoadingManualLocation (hooks wb) = isLoadingManualLocation (hooks w1)
       /\ t2 = Done
       /\ isLoadingManualLocation (hooks wc) = false
     else
       t1 = Done
       /\ isLoadingManualLocation (hooks wb) = false
       /\ currentLocation (hooks wb) = currentLocation (hooks w1)
       /\ refs wb = refs w1
       /\ trace wb
          = (trace w1
             ++ [ShowError (Plain "Map not initialized. Please wait for map to load.")])%list.
Proof.
  destruct w as [h r pl tr], w1 as [h1 r1 pl1 tr1], w2 as [h2 r2 pl2 tr2].
  cbn [hooks]. intros Hlat Hlng Hnan Hrange Hrange'.
  unfold getLocationFromCoordinates, afterAddress, afterUpdate. run_handler.
  cbn [manualLatitude manualLongitude]. rewrite Hlat, Hlng, Hnan, Hrange, Hrange'.
  run_handler. cbn [refs].
  destruct (mapReady r1); run_handler; cbn [updateInFlight];
    [|repeat split].
  destruct settled as [result|e]; run_handler;
    destruct (socket r2) as [[[] sid2]|]; run_handler; cbn [connected]; run_handler;
    try (destruct (success result); run_handler;
         try destruct (worthLogging _ _); cbn [andb]; run_handler);
    repeat split; eauto.
Qed.

Lemma updateMapMarker_keeps_list subject location kind (w : World) :
  let w' := snd (updateMapMarker userData subject location kind w) in
  nearbyLocations (hooks w') = nearbyLocations (hooks w) /\ trace w' = trace w.
Proof.
  destruct w as [h r pl tr]. unfold updateMapMarker. run_handler.
  destruct (mapReady r); run_handler; [|split; reflexivity].
  destruct (strict_eq _ _ || _); run_handler; split; reflexivity.
Qed.

Lemma updateNearbyMarkers_keeps_list locations (w : World) :
  let w' := snd (updateNearbyMarkers userData locations w) in
  nearbyLocations (hooks w') = nearbyLocations (hooks w) /\ trace w' = trace w.
Proof.
  revert w. induction locations as [|item rest IH]; intros w; cbn zeta.
  { split; reflexivity. }
  cbn [updateNearbyMarkers]. rewrite andThen_run.
  pose proof (updateMapMarker_keeps_list (nl_userId item)
    {| n_latitude := c_latitude (nl_location item);
       n_longitude := c_longitude (nl_location item);
       n_accuracy := None; n_address := c_address (nl_location item) |}
    (Some (nl_userType item)) w) as [Hlist Htrace].
  destruct (updateMapMarker _ _ _ _ w) as [[] w1]. cbn [fst snd] in *.
  destruct (IH w1) as [Hlist' Htrace']. split; congruence.
Qed.

Lemma getNearbyLocations_returns (env : Api.Env NearbyLocationsResponse)
    lat lng radius kind excludeSelf :
  exists resp,
    Api.outcome (Api.getNearbyLocations env lat lng radius kind excludeSelf)
    = Normal resp.
Proof.
  destruct (locationApi_returns env
              (Api.GetNearbyLocations lat lng radius kind excludeSelf))
    as (resp & Hresp & _).
  exists resp. exact Hresp.
Qed.

(** X24.  A failed "Find Nearby" shows nothing.  With a position
    known, the search asks the backend once, around the self entry and
    with the chosen radius, and always finishes.  When the answer is a
    failure (refused, timed out, unreachable, unreadable, demo mode), or
    carries no data, the component does nothing with it: hooks, markers and the list are as
    before and nothing is toasted; the only output is what the API client
    itself wrote with [console.error], which is one line at most, and
    none in demo mode.  On a successful answer whose data has the
    declared type the list is replaced by the answer's and the toast
    shows the answer's count. *)
Theorem nearby_search_failure_shows_nothing (s : System)
    (env : Api.Env NearbyLocationsResponse) (here : LocationData) :
  currentLocation (hooks (world s)) = Some here ->
  let task := length (inflight s) in
  let call :=
    Api.getNearbyLocations env (latitude here) (longitude here)
      (searchRadius (hooks (world s))) None true in
  let s1 := step s (Call SearchNearby) in
  let s2 := step s1 (NearbySettled task env) in
  exists resp,
    Api.outcome call = Normal resp
    /\ world s1
       = snd (perform (Invoke (Api.GetNearbyLocations (latitude here) (longitude here)
                                 (searchRadius (hooks (world s))) None true))
                (world s))
    /\ inflight s2 !! task = Some Done
    /\ (success resp = false \/ data resp = None ->
        hooks (world s2) = hooks (world s1)
        /\ refs (world s2) = refs (world s1)
        /\ platform (world s2) = platform (world s1)
        /\ trace (world s2)
           = (trace (world s1) ++ map (Console Error) (Api.logged call))%list)
    /\ (Api.logged call = [] \/ Api.logged call = ["Network error:"]
        \/ Api.logged call = ["Error parsing response:"])
    /\ (Api.isDemoMode env = true -> success resp = false /\ Api.logged call = [])
    /\ (forall found,
          success resp = true -> data resp = Some found ->
          nearbyLocations (hooks (world s2)) = nr_locations found
          /\ trace (world s2)
             = (trace (world s1) ++ [ShowSuccess (FoundNearby (nr_count found))])%list).
Proof.
  intros Hhere. cbn zeta.
  destruct (locationApi_returns env
              (Api.GetNearbyLocations (latitude here) (longitude here)
                 (searchRadius (hooks (world s))) None true))
    as (resp & Hresp & Hdemo & Hquiet & Hlines).
  cbn [Api.locationApi] in Hresp, Hdemo, Hquiet, Hlines.
  assert (Api.isDemoMode env = true -> success resp = false) as Hdemo'.
  { intros Hd. revert Hresp. unfold Api.getNearbyLocations. rewrite Hd. cbn.
    now intros [= <-]. }
  exists resp. split; [exact Hresp|].
  destruct s as [[h r pl tr] tasks]. cbn [world hooks currentLocation searchRadius] in *.
  cbn [Analytics.step handler].
  unfold spawn, searchNearby. run_handler. cbn [currentLocation]. rewrite Hhere.
  run_handler. split; [reflexivity|].
  unfold resume. cbn [inflight world searchRadius].
  rewrite list_lookup_middle by reflexivity. run_handler.
  rewrite Hresp. run_handler.
  destruct (success resp) eqn:Hok; [destruct (data resp) as [found|] eqn:Hdata|];
    run_handler.
  - rewrite (Hquiet eq_refl). cbn [map]. rewrite app_nil_r.
    pose proof (updateNearbyMarkers_keeps_list (nr_locations found)
      {| hooks :=
           {| currentLocation := currentLocation h; isTracking := isTracking h;
              nearbyLocations := nr_locations found; watchId := watchId h;
              searchRadius := searchRadius h; locationAddress := locationAddress h;
              isRequestingPermission := isRequestingPermission h;
              manualLatitude := manualLatitude h;
              manualLongitude := manualLongitude h;
              isLoadingManualLocation := isLoadingManualLocation h |};
         refs := r; platform := pl;
         trace := (tr ++ [Invoke (Api.GetNearbyLocations (latitude here)
                                    (longitude here) (searchRadius h) None true)])%list |})
      as [Hlist Htrace].
    cbn zeta in Hlist, Htrace. cbn [hooks trace nearbyLocations] in Hlist, Htrace.
    destruct (updateNearbyMarkers _ _ _) as [[] [h3 r3 pl3 tr3]].
    cbn [fst snd hooks trace] in *. run_handler.
    cbn [inflight world hooks trace nearbyLocations].
    rewrite list_lookup_insert_eq by (rewrite length_app; cbn; lia).
    split; [reflexivity|]. split; [intros [|]; discriminate|]. split; [auto|].
    split; [intros Hd; specialize (Hdemo' Hd); discriminate|].
    intros found' _ [= <-]. split; [exact Hlist | now rewrite Htrace].
  - cbn [inflight world].
    rewrite list_lookup_insert_eq by (rewrite length_app; cbn; lia).
    split; [reflexivity|]. split; [intros _; repeat split|]. split; [exact Hlines|].
    split; [intros Hd; specialize (Hdemo' Hd); discriminate|].
    intros found _ Hnone. discriminate.
  - cbn [inflight world].
    rewrite list_lookup_insert_eq by (rewrite length_app; cbn; lia).
    split; [reflexivity|]. split; [intros _; repeat split|].
    split; [exact Hlines|].
    split; [intros Hd; split; [reflexivity | apply Hdemo, Hd]|].
    intros found Htrue. discriminate.
Qed.

End Markers.

(** * Refresh and the one-shot browser fix *)

Section PanelProperties.

Import Analytics Panel Peers.

Variable userData : option UserData.
Variable parseFloat : string -> number.
Variable trim : string -> string.
Variable toFixed6 : number -> string.

(** X13.  "Refresh" stores the record the backend returned, and then,
    when the map is up and the record is filed under the user's own id,
    overwrites it through [updateMapMarker] with a record that has lost
    the backend's accuracy, address and timestamp.  The marker of the
    record's user is set when the map is up; nothing is toasted. *)
Theorem refresh_reduces_own_record (w w1 : World)
    (result : ApiResponse LocationData) (d : LocationData) :
  success result = true ->
  data result = Some d ->
  let '(k, wa) := fetchCurrentLocation userData w in
  let w' := snd (k (Normal result) w1) in
  trace wa = (trace w ++ [Invoke Api.GetCurrentLocation])%list
  /\ platform w' = platform w1
  /\ trace w' = trace w1
  /\ currentLocation (hooks w')
     = (if mapReady (refs w1) && ownId userData (userId d) then
          Some (reduced (userId d) (Some (userType d)) (latitude d) (longitude d)
                  (clock (platform w1)))
        else Some d)
  /\ markers (refs w')
     = (if mapReady (refs w1) then
          <[userId d := {| m_latitude := latitude d; m_longitude := longitude d;
                           m_current := ownId userData (userId d) |}]>
            (markers (refs w1))
        else markers (refs w1)).
Proof.
  intros Hok Hdata. destruct w as [h r pl tr], w1 as [h1 r1 pl1 tr1].
  unfold fetchCurrentLocation, refreshed, updateMapMarker, ownId. run_handler.
  rewrite Hok, Hdata. run_handler. cbn [refs mapReady platform].
  destruct (mapReady r1) eqn:Hready; run_handler; cbn [mapReady]; rewrite ?Hready;
    run_handler; [|repeat split].
  destruct (strict_eq _ _ || _); run_handler; repeat split.
Qed.

(** X14.  A failed "Refresh" shows nothing.  The call always comes
    back with a response; when that response is a failure (in demo mode
    it always is), or carries no data, the component does nothing with
    it: no hook, no marker
    and no task changes and nothing is toasted.  The only output is what
    the API client itself wrote with [console.error]: one line at most
    (on a timeout, a network failure or an unreadable body), and none in
    demo mode. *)
Theorem refresh_failure_shows_nothing (s : System) (env : Api.Env LocationData) :
  let call := Api.getCurrentLocation env in
  let s' := act userData parseFloat trim toFixed6 s (RefreshSettled env) in
  exists result,
    Api.outcome call = Normal result
    /\ (success result = false \/ data result = None ->
        hooks (world s') = hooks (world s)
        /\ refs (world s') = refs (world s)
        /\ platform (world s') = platform (world s)
        /\ inflight s' = inflight s
        /\ trace (world s')
           = (trace (world s) ++ map (Console Error) (Api.logged call))%list)
    /\ (Api.logged call = [] \/ Api.logged call = ["Network error:"]
        \/ Api.logged call = ["Error parsing response:"])
    /\ (Api.isDemoMode env = true -> success result = false /\ Api.logged call = []).
Proof.
  cbn zeta.
  destruct (locationApi_returns env Api.GetCurrentLocation)
    as (result & Hresult & Hdemo & _ & Hlines).
  cbn [Api.locationApi] in Hresult, Hdemo, Hlines.
  exists result. split; [exact Hresult|]. split; [|split; [exact Hlines|]].
  - intros Hfail. destruct s as [[h r pl tr] tasks].
    cbn [Panel.act]. unfold exec, refreshed. cbn [world inflight]. run_handler.
    rewrite Hresult.
    destruct Hfail as [-> | ->]; [|destruct (success result)]; repeat split.
  - intros Hd. split; [|apply Hdemo, Hd].
    revert Hresult. unfold Api.getCurrentLocation. rewrite Hd. cbn.
    now intros [= <-].
Qed.

(** X15.  "Use Current Location" is optimistic.  The fix fills the two
    coordinate fields; once the address is known the self entry (with the
    fix's accuracy and the address) is recorded and the update is handed
    to the backend; and whatever the backend then does (answers, refuses,
    times out, is unreachable, demo mode), the handler finishes: the
    loading flag is cleared, the update is emitted on the socket exactly
    when it is connected, the self entry is not touched again, and the
    success toast is shown. *)
Theorem browser_fix_is_recorded_before_the_backend_answers
    (w w1 w2 w3 : World) (p : Position) (address : string)
    (env : Api.Env UpdateLocationResponse) :
  geolocation (platform w) = true ->
  let '(t0, wa) := getCurrentLocationFromBrowser userData toFixed6 w in
  let '(t1, wb) := afterPosition t0 p w1 in
  let '(t2, wc) := afterAddress t1 address w2 in
  isLoadingManualLocation (hooks wa) = true
  /\ manualLatitude (hooks wb) = toFixed6 (p_latitude p)
  /\ manualLongitude (hooks wb) = toFixed6 (p_longitude p)
  /\ currentLocation (hooks wc)
     = Some (selfLocation userData (p_latitude p) (p_longitude p)
               (Some (p_accuracy p)) address (clock (platform w2)))
  /\ locationAddress (hooks wc) = address
  /\ exists d,
       updateInFlight t2 = Some d
       /\ req_latitude d = p_latitude p /\ req_longitude d = p_longitude p
       /\ req_accuracy d = Some (p_accuracy p) /\ req_address d = Some address
       /\ let '(t3, wd) := afterUpdate t2 (Api.outcome (Api.updateLocation env d)) w3 in
          t3 = Done
          /\ isLoadingManualLocation (hooks wd) = false
          /\ currentLocation (hooks wd) = currentLocation (hooks w3)
          /\ emits wd
             = (emits w3
                ++ if socketConnected w3 then [Emit "location:update" (Some d)] else [])%list
          /\ exists before,
               trace wd
               = (before
                  ++ [ShowSuccess (Plain "Exact current location retrieved and pinned!")])%list.
Proof.
  intros Hgeo.
  destruct w as [h r pl tr], w1 as [h1 r1 pl1 tr1], w2 as [h2 r2 pl2 tr2],
    w3 as [h3 r3 pl3 tr3]. cbn [platform] in Hgeo.
  unfold getCurrentLocationFromBrowser, afterPosition, afterAddress, afterUpdate,
    setManualLatitude, setManualLongitude.
  run_handler. rewrite Hgeo. run_handler.
  cbn [refs mapReady].
  destruct (mapReady r2) eqn:Hready; run_handler.
  all: cbn [hooks isLoadingManualLocation manualLatitude manualLongitude
            currentLocation locationAddress updateInFlight platform clock].
  all: do 5 (split; [reflexivity|]).
  all: eexists; split; [reflexivity|]; do 4 (split; [reflexivity|]).
  all: match goal with
       | |- context [Api.outcome (Api.updateLocation ?en ?d)] =>
           destruct (locationApi_returns en (Api.UpdateLocation d))
             as (resp & Hresp & _);
           cbn [Api.locationApi] in Hresp; rewrite Hresp
       end.
  all: run_handler; unfold socketConnected, emits; cbn [refs socket trace].
  all: destruct (socket r3) as [[[] sid3]|]; run_handler; cbn [connected]; run_handler.
  all: match goal with
       | |- context [success ?x] => destruct (success x); run_handler
       | _ => idtac
       end.
  all: try destruct (worthLogging _ _); cbn [andb]; run_handler.
  all: cbn [hooks isLoadingManualLocation currentLocation].
  all: repeat split; try (eexists; reflexivity).
  all: rewrite <- ?app_assoc, ?List.filter_app; cbn [List.filter isEmit app];
       rewrite ?app_nil_r; reflexivity.
Qed.

(** X16.  When the browser cannot give a position, "Use Current
    Location" releases the button and changes nothing else: the loading
    flag is cleared, one error is toasted, and the self entry, the two
    coordinate fields and the map are as they were. *)
Theorem browser_fix_failure_releases_button (w w1 : World) (e : GeoError) :
  geolocation (platform w) = true ->
  let '(t0, _) := getCurrentLocationFromBrowser userData toFixed6 w in
  let '(t1, wb) := afterPositionError t0 e w1 in
  t1 = Done
  /\ isLoadingManualLocation (hooks wb) = false
  /\ currentLocation (hooks wb) = currentLocation (hooks w1)
  /\ manualLatitude (hooks wb) = manualLatitude (hooks w1)
  /\ manualLongitude (hooks wb) = manualLongitude (hooks w1)
  /\ refs wb = refs w1
  /\ exists text,
       trace wb
       = (trace w1 ++ [Console Error "Geolocation error:"; ShowError (Plain text)])%list.
Proof.
  intros Hgeo. destruct w as [h r pl tr], w1 as [h1 r1 pl1 tr1].
  cbn [platform] in Hgeo.
  unfold getCurrentLocationFromBrowser, afterPositionError. run_handler.
  rewrite Hgeo. run_handler. rewrite <- app_assoc. cbn [app].
  repeat split. eauto.
Qed.

End PanelProperties.

(** * What a response of the location client means *)

Section Responses.

Import Api ApiFacts Delivery.
Context {T : Type}.
Implicit Types (env : Env T) (op : Operation).

Lemma settle_normal timeout (b : FetchBehaviour T) r :
  settle timeout b = Normal r ->
  exists after, b = Responds after r /\ (after < timeout)%Z.
Proof.
  destruct b as [after r'|after e|]; cbn; try discriminate.
  - destruct (after <? timeout)%Z eqn:Hlt; [|discriminate].
    intros [= ->]. exists after. split; [reflexivity|]. now apply Z.ltb_lt.
  - destruct (after <? timeout)%Z; discriminate.
Qed.

Lemma fetchWithTimeout_normal env u q o r :
  outcome (fetchWithTimeout env u q o) = Normal r ->
  exists request after,
    sent (fetchWithTimeout env u q o) = [request]
    /\ abortAfter request = default Config.REQUEST_TIMEOUT (o_timeout o)
    /\ fetch env request = Responds after r
    /\ (after < abortAfter request)%Z.
Proof.
  pose proof (fetchWithTimeout_cases env u q o) as (Hsent & Hout & _).
  cbn zeta in *. intros Hr.
  destruct (settle _ _) as [r'|e] eqn:Hsettle.
  - rewrite Hr in Hout. injection Hout as <-.
    apply settle_normal in Hsettle as (after & Hfetch & Hlt).
    eexists _, after. split; [exact Hsent|]. cbn [abortAfter] in *. auto.
  - destruct Hout as [e' He']. rewrite Hr in He'. discriminate.
Qed.

(** X17.  A response with [success = true] means the backend answered.
    Outside demo mode it is returned only when the one request sent was
    answered before the timer fired, with an ok status and a body that
    reads as a JSON value other than [null]; nothing is logged, and the
    response carries [data.data || data] of that body and its message (or
    'Success').  The body need not be an object: a number, a string, a
    boolean or an array is a success too, with the value itself as data.
    In demo mode only [stopLocationTracking] reports success, without
    sending anything and without data. *)
Theorem success_means_acknowledged env op resp :
  outcome (locationApi env op) = Normal resp ->
  success resp = true ->
  (isDemoMode env = true /\ op = StopLocationTracking
   /\ sent (locationApi env op) = [] /\ data resp = None)
  \/ (isDemoMode env = false
      /\ exists request r,
           sent (locationApi env op) = [request]
           /\ delivered env request r
           /\ logged (locationApi env op) = []
           /\ errors resp = None
           /\ match json r with
              | JsonObject text payload _ =>
                  data resp = Some payload /\ message resp = or_str text "Success"
              | JsonValue payload =>
                  data resp = payload /\ message resp = "Success"
              | Unparsable | JsonNull => False
              end).
Proof.
  intros Hout Hok.
  destruct (isDemoMode env) eqn:Hdemo.
  - left. split; [reflexivity|].
    destruct op; cbn [locationApi] in *;
      unfold updateLocation, getCurrentLocation, getLocationHistory,
        getNearbyLocations, stopLocationTracking in *;
      rewrite Hdemo in *; cbn in Hout; injection Hout as <-;
      try discriminate Hok. auto.
  - right. split; [reflexivity|].
    destruct (locationApi_shape env op) as (u & q & o & demo & Hshape & Ht & _).
    rewrite Hshape in *. rewrite Hdemo in *.
    pose proof (fetchWithTimeout_normal env u q o) as Hnormal.
    pose proof (fetchWithTimeout_quiet env u q o) as Hquiet.
    destruct (fetchWithTimeout env u q o) as [[[r|e] l] lines];
      unfold logged in Hquiet; cbn [snd] in Hquiet; subst lines;
      cbn [bind try_catch] in Hout |- *.
    + destruct (Hnormal r eq_refl) as (request & after & Hsent & Habort & Hfetch & Hlt).
      unfold sent in Hsent. cbn [fst snd] in Hsent. subst l.
      destruct (handleResponse_returns r) as (resp' & Hr & _ & _ & Hbody).
      rewrite Hr in Hout |- *. cbn in Hout. injection Hout as <-.
      exists request, r. cbn [sent logged fst snd app].
      destruct (json r) as [| |text payload errs|payload] eqn:Hjson;
        try (destruct Hbody; congruence);
        destruct Hbody as [Hstatus Hdata];
        rewrite Hok in Hstatus; symmetry in Hstatus;
        destruct (Hdata Hstatus) as (Hd & Hm & He);
        (split; [reflexivity|]);
        (split; [exists after; rewrite Hjson; repeat split; auto; discriminate|]);
        auto.
    + destruct (handleNetworkError_fails (T:=T) e) as (resp' & Hr & Hfail & _).
      rewrite Hr in Hout. cbn in Hout. injection Hout as <-. congruence.
Qed.

(** X18.  Every operation of [locationApi] returns a response whose
    message is not empty; a failure carries no data and always an
    [errors] array; and no operation sends more than one request (there
    is no retry). *)
Theorem failure_carries_a_message_and_no_data env op :
  exists resp,
    outcome (locationApi env op) = Normal resp
    /\ message resp <> ""
    /\ (success resp = false -> data resp = None /\ is_Some (errors resp))
    /\ (length (sent (locationApi env op)) <= 1)%nat.
Proof.
  destruct (locationApi_shape env op) as (u & q & o & demo & Hshape & _ & _ & Hmsg & Hdata).
  assert (Hdemo : isDemoMode env = true ->
            outcome (locationApi env op) = Normal demo
            /\ (success demo = false -> is_Some (errors demo))).
  { intros Hd. destruct op; cbn [locationApi] in *;
      unfold updateLocation, getCurrentLocation, getLocationHistory,
        getNearbyLocations, stopLocationTracking in *;
      rewrite Hd in *; cbn in Hshape |- *;
      injection Hshape as <-; split; try reflexivity; cbn; eauto; discriminate. }
  destruct (isDemoMode env) eqn:Hd.
  - destruct (Hdemo eq_refl) as [Hout Herrs]. exists demo.
    split; [exact Hout|]. split.
    { intros Hempty. rewrite Hempty in Hmsg. discriminate. }
    split; [auto|]. rewrite Hshape. cbn. lia.
  - clear Hdemo. rewrite Hshape.
    pose proof (fetchWithTimeout_cases env u q o) as (Hsent & _ & _).
    destruct (fetchWithTimeout env u q o) as [[[r|e] l] lines]; unfold sent in Hsent;
      cbn [fst snd] in Hsent; subst l; cbn [bind try_catch].
    + destruct (handleResponse_returns r) as (resp & -> & Hm & Hfail & _).
      exists resp. cbn. auto.
    + destruct (handleNetworkError_fails (T:=T) e) as (resp & -> & Hfail & Hm & Hd' & He).
      exists resp. cbn. split; [reflexivity|]. split; [exact Hm|].
      split; [|lia]. intros _. rewrite He. eauto.
Qed.

End Responses.

(** * Signing in and out *)

Section SessionProofs.

Import Api ApiFacts App.

Variable parse : string -> option Json.
Variable stringify : Json -> string.

Lemma isDemoMode_envOf {R} (p : Page) (network : Request -> FetchBehaviour R) :
  localStorage p !! "authToken" = None
  \/ localStorage p !! "authToken" = Some Config.DEMO_TOKEN ->
  isDemoMode (envOf p network) = true.
Proof.
  intros H. apply isDemoMode_true. cbn [envOf authToken]. tauto.
Qed.

Lemma locationApi_demo_silent {R} (env : Env R) op :
  isDemoMode env = true ->
  sent (locationApi env op) = []
  /\ exists resp,
       outcome (locationApi env op) = Normal resp
       /\ includes (message resp) "demo mode" = true.
Proof.
  intros Hd.
  destruct (locationApi_shape env op) as (u & q & o & demo & -> & _ & _ & Hmsg & _).
  rewrite Hd. cbn. eauto.
Qed.

Lemma logout_shape {R} (env : Env R) :
  exists resp,
    outcome (Student.logout env) = Normal resp
    /\ (isDemoMode env = true -> success resp = true)
    /\ (forall request,
          In request (sent (Student.logout env)) ->
          unanswered env request = true ->
          success resp = true).
Proof.
  unfold Student.logout.
  destruct (isDemoMode env) eqn:Hd.
  { eexists. split; [reflexivity|]. cbn. split; [reflexivity|contradiction]. }
  set (u := (Config.API_BASE_URL ++ Student.LOGOUT)%string).
  set (o := {| o_method := POST; o_headers := _; o_body := None; o_timeout := None |}).
  pose proof (fetchWithTimeout_cases env u [] o) as (Hsent & Hout & _).
  cbn zeta in *.
  destruct (fetchWithTimeout env u [] o) as [[[r|e] l] lines]; unfold sent, outcome in *;
    cbn [fst snd] in *; subst l; cbn [try_catch bind ret app fst snd].
  - destruct (handleResponse_returns r) as (resp & -> & _).
    exists resp. split; [reflexivity|]. split; [discriminate|].
    intros request [<-|[]]. unfold unanswered. cbn [abortAfter].
    destruct (settle _ _); [discriminate|]. now destruct Hout.
  - eexists. split; [reflexivity|]. split; [discriminate|]. reflexivity.
Qed.

(** X19.  [studentApi.logout] never throws, and reports a failure only
    when the server answered in time with a non-ok status or with a body
    that is not a JSON object.  When the request times out or the network
    is down it reports success ('Logged out from this device'); in demo
    mode it reports success without sending anything. *)
Theorem logout_fails_only_when_the_server_refuses {R} (env : Env R) :
  exists resp,
    outcome (Student.logout env) = Normal resp
    /\ (isDemoMode env = true ->
        sent (Student.logout env) = [] /\ success resp = true)
    /\ (forall request,
          In request (sent (Student.logout env)) ->
          unanswered env request = true ->
          resp = {| success := true; message := "Logged out from this device";
                    data := None; errors := None |})
    /\ (success resp = false ->
        exists request after r,
          sent (Student.logout env) = [request]
          /\ fetch env request = Responds after r
          /\ (after < abortAfter request)%Z
          /\ outcome (handleResponse r) = Normal resp
          /\ (ok r = false \/ json r = Unparsable \/ json r = JsonNull)).
Proof.
  unfold Student.logout.
  destruct (isDemoMode env) eqn:Hd.
  { eexists. split; [reflexivity|]. cbn. repeat split; try contradiction; discriminate. }
  set (u := (Config.API_BASE_URL ++ Student.LOGOUT)%string).
  set (o := {| o_method := POST; o_headers := _; o_body := None; o_timeout := None |}).
  pose proof (fetchWithTimeout_cases env u [] o) as (Hsent & Hout & _).
  pose proof (fetchWithTimeout_normal env u [] o) as Hnormal.
  cbn zeta in *.
  destruct (fetchWithTimeout env u [] o) as [[[r|e] l] lines]; unfold sent, outcome in *;
    cbn [fst snd] in *; subst l; cbn [try_catch bind ret app fst snd].
  - destruct (handleResponse_returns r) as (resp & Hr & _ & _ & Hbody).
    rewrite Hr. exists resp. split; [reflexivity|].
    split; [discriminate|]. split.
    + intros request [<-|[]]. unfold unanswered. cbn [abortAfter].
      destruct (settle _ _); [discriminate|]. now destruct Hout.
    + intros Hfail.
      destruct (Hnormal r eq_refl) as (request & after & [= <-] & _ & Hfetch & Hlt).
      eexists _, after, r. split; [reflexivity|]. split; [exact Hfetch|].
      split; [exact Hlt|]. split; [rewrite Hr; reflexivity|].
      destruct (json r); auto; destruct Hbody as [Hstatus _]; left; congruence.
  - eexists. split; [reflexivity|]. split; [discriminate|]. split; [reflexivity|].
    discriminate.
Qed.

(** X20.  Confirming the logout always ends the session on the device,
    however [api.logout()] settles (success, failure, or even an
    exception): the token and the user data are removed from
    [localStorage], every other key is kept, the state is reset, a reload
    finds no session to restore, and from then on no operation of the
    location client puts a request on the network. *)
Theorem logout_always_ends_the_session {R} (settled : completion (ApiResponse R))
    (p : Page) :
  let p' := logoutSettled settled (handleLogoutConfirm p) in
  isLoggingOut (hooks (handleLogoutConfirm p)) = true
  /\ hooks p'
     = {| currentView := "dashboard"; selectedCourseId := None;
          isAuthenticated := false; userData := None;
          showLogoutModal := false; isLoggingOut := false |}
  /\ localStorage p' !! "authToken" = None
  /\ localStorage p' !! "userData" = None
  /\ (forall key, key <> "authToken" -> key <> "userData" ->
        localStorage p' !! key = localStorage p !! key)
  /\ mount parse (localStorage p')
     = {| hooks := hooks p'; localStorage := localStorage p'; notices := [] |}
  /\ forall (S : Type) (network : Request -> FetchBehaviour S) op,
       sent (locationApi (envOf p' network) op) = [].
Proof.
  cbn zeta. unfold logoutSettled, handleLogoutConfirm. cbn [hooks localStorage].
  assert (Huser : delete "userData" (delete "authToken" (localStorage p)) !! "userData"
                  = None) by apply lookup_delete_eq.
  assert (Htoken : delete "userData" (delete "authToken" (localStorage p)) !! "authToken"
                   = None).
  { rewrite lookup_delete_ne by discriminate. apply lookup_delete_eq. }
  split; [reflexivity|]. split; [reflexivity|]. split; [exact Htoken|].
  split; [exact Huser|]. split.
  { intros key Ha Hu. rewrite !lookup_delete_ne by congruence. reflexivity. }
  split.
  { unfold mount. rewrite Huser. reflexivity. }
  intros S network op. apply locationApi_demo_silent, isDemoMode_envOf.
  left. exact Htoken.
Qed.


(** X22.  What the user is told on logout: exactly one toast, the
    success toast or 'Logged out from this device', and never the console
    line of the [catch] branch, which cannot be reached.  When the logout
    request times out or the network is down, and in demo mode, it is the
    success toast. *)
Theorem logout_toast_when_offline {R} (network : Request -> FetchBehaviour R)
    (p : Page) :
  let env := envOf p network in
  let p' := logoutSettled (outcome (Student.logout env)) (handleLogoutConfirm p) in
  (notices p' = (notices p ++ [ShowSuccess "Logged out successfully!"])%list
   \/ notices p' = (notices p ++ [ShowInfo "Logged out from this device"])%list)
  /\ (forall request,
        In request (sent (Student.logout env)) ->
        unanswered env request = true ->
        notices p' = (notices p ++ [ShowSuccess "Logged out successfully!"])%list)
  /\ (isDemoMode env = true ->
      notices p' = (notices p ++ [ShowSuccess "Logged out successfully!"])%list).
Proof.
  cbn zeta.
  destruct (logout_shape (envOf p network)) as (resp & Hout & Hdemo & Hoff).
  rewrite Hout. unfold logoutSettled, handleLogoutConfirm. cbn [notices].
  split; [|split].
  - destruct (success resp); auto.
  - intros request Hin Hun. rewrite (Hoff request Hin Hun). reflexivity.
  - intros Hd. now rewrite (Hdemo Hd).
Qed.

(** X23.  What the mount effect does with the stored session.  With
    a non-empty token and non-empty stored user data that [JSON.parse]
    reads, the user is signed in with the parsed data and the storage is
    left as it is.  With a non-empty token and non-empty stored user data
    that [JSON.parse] cannot read, the user stays signed out, both keys are
    removed (every other key is kept) and the error is logged.  In every
    other case (no token, an empty token, no or empty user data) the user
    stays signed out, the storage is left as it is and nothing is
    logged: in particular a session is never restored without a
    non-empty token. *)
Theorem mount_restores_only_a_readable_session (storage : gmap string string) :
  let p := mount parse storage in
  let signedOut :=
    {| currentView := "dashboard"; selectedCourseId := None;
       isAuthenticated := false; userData := None;
       showLogoutModal := false; isLoggingOut := false |} in
  let complete :=
    truthy_ostr (storage !! "authToken") && truthy_ostr (storage !! "userData") in
  (forall stored user,
     complete = true -> storage !! "userData" = Some stored ->
     parse stored = Some user ->
     p = {| hooks :=
              {| currentView := "dashboard"; selectedCourseId := None;
                 isAuthenticated := true; userData := Some user;
                 showLogoutModal := false; isLoggingOut := false |};
            localStorage := storage; notices := [] |})
  /\ (forall stored,
        complete = true -> storage !! "userData" = Some stored ->
        parse stored = None ->
        hooks p = signedOut
        /\ localStorage p !! "authToken" = None
        /\ localStorage p !! "userData" = None
        /\ (forall key, key <> "authToken" -> key <> "userData" ->
              localStorage p !! key = storage !! key)
        /\ notices p = [ConsoleError "Error parsing stored user data:"])
  /\ (complete = false ->
      p = {| hooks := signedOut; localStorage := storage; notices := [] |})
  /\ (isAuthenticated (hooks p) = true ->
      complete = true /\ localStorage p = storage).
Proof.
  cbn zeta. unfold mount.
  destruct (storage !! "userData") as [stored|] eqn:Hu; cbn [truthy_ostr];
    [|rewrite andb_false_r; repeat split; intros; discriminate].
  destruct (truthy_ostr (storage !! "authToken") && truthy_str stored) eqn:Hc.
  - split; [|split; [|split]].
    + intros stored' user _ [= <-] ->. reflexivity.
    + intros stored' _ [= <-] ->. cbn [hooks localStorage notices].
      split; [reflexivity|].
      rewrite lookup_delete_ne by discriminate. rewrite !lookup_delete_eq.
      split; [reflexivity|]. split; [reflexivity|]. split; [|reflexivity].
      intros key Ha Hb. rewrite !lookup_delete_ne by congruence. reflexivity.
    + discriminate.
    + destruct (parse stored); cbn [hooks isAuthenticated localStorage];
        [auto | discriminate].
  - split; [|split; [|split]]; try (intros; discriminate). reflexivity.
Qed.

End SessionProofs.

(** * The properties above on the scenarios *)

Section MoreExamples.

Import Api ApiFacts Analytics Panel Peers Session Delivery Scenario Walkthrough.

(** The self entry recorded by the first fix survives the stop, the
    server's confirmation and a refresh that fails. *)
Lemma self_entry_survives_stop :
  is_Some (currentLocation (hooks (world
    (play student readInteger asTyped fixed (mounted true live)
       (firstFix ++ stopAndRefresh 1))))).
Proof.
  apply (self_entry_never_cleared student readInteger asTyped fixed true live
           firstFix (stopAndRefresh 1)).
  vm_compute. eexists. reflexivity.
Defined.

(** A watch timeout leaves watch 1 running. *)
Lemma watch_survives_its_own_timeout :
  In 1%Z (watches (platform (world
    (act student readInteger asTyped fixed
       (play student readInteger asTyped fixed (mounted true live) firstFix)
       (Base (WatchFails 1 TIMEOUT)))))).
Proof.
  apply (only_stopTracking_removes_a_watch student readInteger asTyped fixed
           true live firstFix (Base (WatchFails 1 TIMEOUT)) 1%Z).
  - vm_compute. reflexivity.
  - vm_compute. auto.
Defined.

(** After a second start, watch 1 is lost; stopping does not clear it. *)
Lemma first_watch_outlives_the_stop :
  leaked 1 (world
    (play student readInteger asTyped fixed (mounted true live)
       ((firstFix ++ secondStart) ++ stopAndRefresh 2))).
Proof.
  apply (leaked_watch_runs_forever student readInteger asTyped fixed true live
           (firstFix ++ secondStart) (stopAndRefresh 2) 1%Z).
  split.
  - vm_compute. auto.
  - vm_compute. intros Heq. discriminate Heq.
Defined.

(** A sharp fix of a peer leaves the hooks alone. *)
Lemma sharp_peer_example :
  hooks (world (step student readInteger asTyped (mounted true live)
                  (Receive (LocationUpdateEvent sharpPeer))))
  = hooks (world (mounted true live))
  /\ markers (refs (world (step student readInteger asTyped (mounted true live)
                             (Receive (LocationUpdateEvent sharpPeer))))) !! "peer-7"
     = Some {| m_latitude := 12.9; m_longitude := 77.6; m_current := false |}.
Proof.
  destruct (peer_update_moves_one_marker student readInteger asTyped
              (mounted true live) sharpPeer reported
              eq_refl eq_refl eq_refl eq_refl) as (Hrefs & Hhooks & _).
  split; [exact Hhooks|]. rewrite Hrefs. reflexivity.
Defined.

(** An update without a user id becomes the student's own position. *)
Lemma anonymous_update_example :
  userId <$> currentLocation
    (hooks (world (step student readInteger asTyped (mounted true live)
                     (Receive (LocationUpdateEvent anonymous)))))
  = Some "student-1"
  /\ mapView (refs (world (step student readInteger asTyped (mounted true live)
                             (Receive (LocationUpdateEvent anonymous)))))
     = Some (12.9%float, 77.6%float, 15%Z).
Proof.
  destruct (anonymous_update_lands_on_self student readInteger asTyped
              (mounted true live) anonymous reported
              eq_refl eq_refl eq_refl eq_refl eq_refl) as (Hself & _ & Hview).
  split; [rewrite Hself; reflexivity | exact Hview].
Defined.

(** A search while tracking, against a backend that never answers: the
    student is told nothing, and the console has the client's line. *)
Lemma silent_search_example :
  hooks (world (run student readInteger asTyped tracking
                  [Call SearchNearby; NearbySettled 1 (silent (Some "secret"))]))
  = hooks (world (step student readInteger asTyped tracking (Call SearchNearby)))
  /\ trace (world (run student readInteger asTyped tracking
                     [Call SearchNearby; NearbySettled 1 (silent (Some "secret"))]))
     = (trace (world (step student readInteger asTyped tracking (Call SearchNearby)))
        ++ [Console Error "Network error:"])%list.
Proof.
  destruct (nearby_search_failure_shows_nothing student readInteger asTyped tracking
              (silent (Some "secret"))
              (selfLocation student 22.5726 88.3639 (Some 15%float)
                 "Park Street, Kolkata" "2024-01-01T00:00:00.000Z")
              eq_refl)
    as (resp & Hresp & _ & _ & Hfail & _).
  vm_compute in Hresp. injection Hresp as <-.
  destruct (Hfail (or_introl eq_refl)) as (Hhooks & _ & _ & Htrace).
  split; [exact Hhooks | exact Htrace].
Defined.

(** Coordinates typed as 22 and 88: the button is released even when the
    update throws. *)
Lemma manual_position_example :
  let w := world (typed "22" "88") in
  let '(t0, wa) := getLocationFromCoordinates student readInteger asTyped w in
  let '(t1, _) := afterAddress t0 "Park Street, Kolkata" w in
  let '(_, wc) := afterUpdate t1 (Throw NotAnError) w in
  isLoadingManualLocation (hooks wa) = true
  /\ isLoadingManualLocation (hooks wc) = false.
Proof.
  pose proof (manual_position_releases_button student readInteger asTyped
                (world (typed "22" "88")) (world (typed "22" "88"))
                (world (typed "22" "88")) 22 88 "Park Street, Kolkata"
                (Throw NotAnError) eq_refl eq_refl eq_refl eq_refl eq_refl) as H.
  cbn zeta.
  destruct (getLocationFromCoordinates student readInteger asTyped
              (world (typed "22" "88"))) as [t0 wa].
  destruct (afterAddress t0 "Park Street, Kolkata" (world (typed "22" "88")))
    as [t1 wb].
  destruct (afterUpdate t1 (Throw NotAnError) (world (typed "22" "88"))) as [t2 wc].
  destruct H as (Hraised & _ & _ & _ & Hreleased).
  split; assumption.
Defined.

(** A refresh while tracking: the backend's accuracy of 15 m is lost. *)
Lemma refresh_example :
  let '(k, _) := fetchCurrentLocation student (world tracking) in
  accuracy <$> currentLocation (hooks (snd (k (Normal refreshedOk) (world tracking))))
  = Some None.
Proof.
  pose proof (refresh_reduces_own_record student (world tracking) (world tracking)
                refreshedOk serverRecord eq_refl eq_refl) as H.
  destruct (fetchCurrentLocation student (world tracking)) as [k wa].
  destruct H as (_ & _ & _ & Hself & _).
  rewrite Hself. reflexivity.
Defined.

(** "Use Current Location" against a backend that never answers. *)
Lemma browser_fix_example :
  let w := world (mounted true live) in
  let '(t0, wa) := getCurrentLocationFromBrowser student fixed w in
  let '(t1, wb) := afterPosition t0 kolkata w in
  let '(_, wc) := afterAddress t1 "Park Street, Kolkata" w in
  isLoadingManualLocation (hooks wa) = true
  /\ manualLatitude (hooks wb) = "22.572600"
  /\ accuracy <$> currentLocation (hooks wc) = Some (Some 15%float).
Proof.
  pose proof (browser_fix_is_recorded_before_the_backend_answers student fixed
                (world (mounted true live)) (world (mounted true live))
                (world (mounted true live)) (world (mounted true live))
                kolkata "Park Street, Kolkata" (silent (Some "secret")) eq_refl) as H.
  cbn zeta.
  destruct (getCurrentLocationFromBrowser student fixed (world (mounted true live)))
    as [t0 wa].
  destruct (afterPosition t0 kolkata (world (mounted true live))) as [t1 wb].
  destruct (afterAddress t1 "Park Street, Kolkata" (world (mounted true live)))
    as [t2 wc].
  destruct H as (Hflag & Hlat & _ & Hself & _).
  split; [exact Hflag|]. split; [exact Hlat|]. rewrite Hself. reflexivity.
Defined.

(** Permission denied: the button is released. *)
Lemma browser_fix_denied_example :
  let w := world (mounted true live) in
  let '(t0, _) := getCurrentLocationFromBrowser student fixed w in
  let '(t1, wb) := afterPositionError t0 PERMISSION_DENIED w in
  t1 = Done /\ isLoadingManualLocation (hooks wb) = false.
Proof.
  pose proof (browser_fix_failure_releases_button student fixed
                (world (mounted true live)) (world (mounted true live))
                PERMISSION_DENIED eq_refl) as H.
  cbn zeta.
  destruct (getCurrentLocationFromBrowser student fixed (world (mounted true live)))
    as [t0 wa].
  destruct (afterPositionError t0 PERMISSION_DENIED (world (mounted true live)))
    as [t1 wb].
  destruct H as (Hdone & Hflag & _).
  split; assumption.
Defined.

(** The acknowledged update of the scenarios was delivered. *)
Lemma acknowledged_update_example :
  exists request r,
    sent (updateLocation backend sampleUpdate) = [request]
    /\ delivered backend request r
    /\ logged (updateLocation backend sampleUpdate) = [].
Proof.
  destruct (success_means_acknowledged backend (UpdateLocation sampleUpdate)
              {| success := true; message := "Location updated";
                 data :=
                   Some {| ur_id := "loc-1"; ur_userId := "student-1";
                           ur_userType := "Student"; ur_latitude := 22.5801;
                           ur_longitude := 88.3702; ur_accuracy := Some 12%float;
                           ur_lastUpdated := "2024-01-01T00:00:05.000Z";
                           ur_isActive := true |};
                 errors := None |} eq_refl eq_refl)
    as [(Hdemo & _) | (_ & request & r & Hsent & Hdelivered & Hquiet & _)].
  - discriminate Hdemo.
  - exists request, r. auto.
Defined.

End MoreExamples.
